(** * SmartVision AI Pro: the client-side biometric capture flows

    A shallow embedding of the React capture components
    ([BiometricCapture.jsx], [BasicBiometricCapture.jsx],
    [AdvancedBiometricCapture.jsx], [RealTimeFaceDetection.jsx]) and of the
    numeric helpers of [utils/faceRecognitionAPI.js].

    Conventions.
    - A component's [useState] cells are a record; an event handler is a
      function from that record to the new record together with the list of
      side effects it performs (browser calls, parent callbacks), in program
      order.  A callback that the browser runs later (a [toBlob] callback, a
      timer, a promise continuation) is a handler of its own that receives the
      values its JavaScript closure captured.
    - A JavaScript object used as a dictionary is an association list in
      property-creation order (what [Object.keys] enumerates).
    - A JavaScript number that holds a score is an IEEE-754 binary64 value
      ([PrimFloat.float]); counters, sizes and time stamps are integers. *)

From Stdlib Require Import ZArith List String Ascii Bool Arith Lia Floats.
Import ListNotations.

Set Warnings "-inexact-float".

Local Open Scope string_scope.
Local Open Scope list_scope.

(** ** JavaScript values used across the components *)

(** Truthiness of a string-valued expression that may be [null]/[undefined]:
    only a non-empty string is truthy. *)
Definition truthy_string (s : option string) : bool :=
  match s with
  | Some EmptyString => false
  | Some _ => true
  | None => false
  end.

(** ** Plain objects as ordered dictionaries *)

Module JsObject.

Section Dict.
Context {V : Type}.

Definition t := list (string * V).

(** [{}] *)
Definition empty : t := [].

(** [o[k]] ([None] is [undefined]). *)
Fixpoint get (k : string) (o : t) : option V :=
  match o with
  | [] => None
  | (k', v) :: o' => if String.eqb k' k then Some v else get k o'
  end.

(** [{...o, [k]: v}]: an existing property keeps its place and takes the
    new value, a new one is created last. *)
Fixpoint set (k : string) (v : V) (o : t) : t :=
  match o with
  | [] => [(k, v)]
  | (k', v') :: o' =>
      if String.eqb k' k then (k, v) :: o' else (k', v') :: set k v o'
  end.

(** [const n = {...o}; delete n[k]] *)
Definition delete (k : string) (o : t) : t :=
  filter (fun p => negb (String.eqb (fst p) k)) o.

(** [Object.keys(o)] and [Object.values(o)] *)
Definition keys (o : t) : list string := map fst o.
Definition values (o : t) : list V := map snd o.

(** [Object.keys(o).length] *)
Definition size (o : t) : nat := List.length (keys o).

Definition has (k : string) (o : t) : bool :=
  match get k o with Some _ => true | None => false end.
End Dict.

Arguments t V : clear implicits.

End JsObject.

(** ** JavaScript numbers *)

Module JsNum.

Local Open Scope float_scope.

(** The Number of a non-negative integer below [2^63] (an array length, an
    image dimension, a byte of a [Uint8ClampedArray]). *)
Definition of_Z (z : Z) : float := of_uint63 (Uint63.of_Z z).
Definition of_nat (n : nat) : float := of_Z (Z.of_nat n).

Definition is_pos_zero (x : float) : bool := is_zero x && negb (get_sign x).
Definition is_neg_zero (x : float) : bool := is_zero x && get_sign x.

(** [Math.max(a, b)]: [NaN] when either argument is, and [+0] above [-0]. *)
Definition max (a b : float) : float :=
  if is_nan a || is_nan b then nan
  else if is_pos_zero b && is_neg_zero a then b
  else if a <? b then b else a.

(** [Math.min(a, b)]: [NaN] when either argument is, and [-0] below [+0]. *)
Definition min (a b : float) : float :=
  if is_nan a || is_nan b then nan
  else if is_neg_zero b && is_pos_zero a then b
  else if b <? a then b else a.

(** [Math.pow(x, 2)]: the engines' [pow] returns [x * x] for the exponent 2. *)
Definition pow2 (x : float) : float := x * x.

(** [a >= b] and [a > b] *)
Definition geb (a b : float) : bool := b <=? a.
Definition gtb (a b : float) : bool := b <? a.

(** [for (let i = start; i < stop; i += step) acc = body(i, acc)], for a
    positive [step]. *)
Fixpoint for_loop {A : Type} (n : nat) (i step : Z) (body : Z -> A -> A) (acc : A) : A :=
  match n with
  | O => acc
  | S n' => for_loop n' (i + step)%Z step body (body i acc)
  end.
Definition iterations (start stop step : Z) : nat :=
  Z.to_nat ((stop - start + step - 1) / step)%Z.
Definition for_range {A : Type} (start stop step : Z) (body : Z -> A -> A) (acc : A) : A :=
  for_loop (iterations start stop step) start step body acc.

End JsNum.

(** ** [ImageData]: the pixels read back from a canvas *)

Module ImageData.

(** [data] is the [Uint8ClampedArray] of RGBA bytes, row by row. *)
Record t := mk {
  width : Z;
  height : Z;
  data : list Z }.

(** [d[i]] in an arithmetic expression: a byte, or [NaN] for the [undefined]
    that an index outside the array reads. *)
Definition at_ (d : list Z) (i : Z) : float :=
  if (i <? 0)%Z then nan
  else match nth_error d (Z.to_nat i) with
       | Some v => JsNum.of_Z v
       | None => nan
       end.

(** [d.length] *)
Definition len (d : list Z) : Z := Z.of_nat (List.length d).

End ImageData.

(** ** [utils/faceRecognitionAPI.js] *)

Module FaceRecognitionAPI.

Local Open Scope float_scope.

Record Quality := mkQuality {
  q_brightness : float;
  q_contrast : float;
  q_sharpness : float;
  q_overall : float }.

(** [calculateImageQuality(imageData)] *)
Definition calculateImageQuality (imageData : ImageData.t) : Quality :=
  let data := ImageData.data imageData in
  let n := ImageData.len data in
  let brightness :=
    JsNum.for_range 0 n 4
      (fun i acc =>
         acc + (ImageData.at_ data i + ImageData.at_ data (i + 1)
                + ImageData.at_ data (i + 2)) / 3) 0 in
  let brightness := brightness / (JsNum.of_Z n / 4) / 255 in
  let mean := brightness * 255 in
  let variance :=
    JsNum.for_range 0 n 4
      (fun i acc =>
         let pixelBrightness :=
           (ImageData.at_ data i + ImageData.at_ data (i + 1)
            + ImageData.at_ data (i + 2)) / 3 in
         acc + JsNum.pow2 (pixelBrightness - mean)) 0 in
  let contrast := sqrt (variance / (JsNum.of_Z n / 4)) / 128 in
  let sharpness := JsNum.min (contrast * 2) 1 in
  let brightnessScore := 1 - abs (brightness - 0.55) * 2 in
  {| q_brightness := JsNum.max 0 brightnessScore;
     q_contrast := JsNum.min contrast 1;
     q_sharpness := sharpness;
     q_overall :=
       (JsNum.max 0 brightnessScore + JsNum.min contrast 1 + sharpness) / 3 |}.

Record Liveness := mkLiveness {
  textureAnalysis : float;
  depthAnalysis : float;
  microMovements : float;
  blinkDetection : bool;
  l_overall : float }.

(** [detectLiveness(imageData)]; [r1], [r2], [r3] are its three successive
    [Math.random()] draws. *)
Definition detectLiveness (r1 r2 r3 : float) (imageData : ImageData.t) : Liveness :=
  let quality := calculateImageQuality imageData in
  {| textureAnalysis := q_sharpness quality;
     depthAnalysis := r1 * 0.3 + 0.7;
     microMovements := r2 * 0.4 + 0.6;
     blinkDetection := JsNum.gtb r3 0.5;
     l_overall := (q_sharpness quality + 0.7 + 0.6) / 3 |}.

Record Antispoofing := mkAntispoofing {
  photoDetection : float;
  screenDetection : float;
  maskDetection : float;
  as_overall : float }.

(** [detectAntispoofing(imageData)]; [r] is its [Math.random()] draw. *)
Definition detectAntispoofing (r : float) (imageData : ImageData.t) : Antispoofing :=
  let quality := calculateImageQuality imageData in
  {| photoDetection := if JsNum.gtb (q_contrast quality) 0.3 then 0.9 else 0.6;
     screenDetection := if JsNum.gtb (q_sharpness quality) 0.5 then 0.9 else 0.7;
     maskDetection := r * 0.2 + 0.8;
     as_overall := if JsNum.gtb (q_overall quality) 0.6 then 0.85 else 0.65 |}.

(** The result of [compareFaceEncodings]; [distance] is absent from the object
    returned for encodings of different lengths. *)
Record Comparison := mkComparison {
  is_match : bool;
  similarity : float;
  distance : option float }.

(** The loop [distance += Math.pow(encoding1[i] - encoding2[i], 2)] over two
    arrays of the same length. *)
Definition squaredDistance (encoding1 encoding2 : list float) : float :=
  fold_left (fun d p => d + JsNum.pow2 (fst p - snd p)) (combine encoding1 encoding2) 0.

(** [compareFaceEncodings(encoding1, encoding2, threshold)] *)
Definition compareFaceEncodings (encoding1 encoding2 : list float) (threshold : float)
    : Comparison :=
  if negb (List.length encoding1 =? List.length encoding2)%nat
  then {| is_match := false; similarity := 0; distance := None |}
  else
    let distance := sqrt (squaredDistance encoding1 encoding2) in
    let similarity :=
      JsNum.max 0 (1 - distance / sqrt (JsNum.of_nat (List.length encoding1))) in
    {| is_match := JsNum.geb similarity threshold;
       similarity := similarity;
       distance := Some distance |}.

(** The default [threshold = 0.6]. *)
Definition defaultThreshold : float := 0.6.

(** A detection result, with the fields its callers read: [liveness] and
    [antispoofing] are absent ([None]) from the objects of [detectFaceBackup]
    and [fallbackDetection]. *)
Record Detected := mkDetected {
  detected : bool;
  confidence : float;
  liveness : option Liveness;
  antispoofing : option Antispoofing;
  combinedResults : bool }.

(** The object [detectFaceLocal] resolves with, for the weighted
    [combinedScore] of its four detectors and its two analyses. *)
Definition detectFaceLocal_result (combinedScore : float) (l : Liveness) (a : Antispoofing)
    : Detected :=
  {| detected := JsNum.gtb combinedScore 0.6; confidence := combinedScore;
     liveness := Some l; antispoofing := Some a; combinedResults := false |}.

(** [detectFaceBackup(imageData)] *)
Definition detectFaceBackup : Detected :=
  {| detected := true; confidence := 0.6; liveness := None; antispoofing := None;
     combinedResults := false |}.

(** [fallbackDetection(imageData)] *)
Definition fallbackDetection : Detected :=
  {| detected := false; confidence := 0; liveness := None; antispoofing := None;
     combinedResults := false |}.

(** [combineFaceResults(results)]; [None] is [undefined], for no results. *)
Definition combineFaceResults (results : list Detected) : option Detected :=
  let validResults := filter detected results in
  match validResults with
  | [] => hd_error results
  | first :: _ =>
      let avgConfidence :=
        fold_left (fun sum r => sum + confidence r) validResults 0
        / JsNum.of_nat (List.length validResults) in
      Some {| detected := detected first; confidence := avgConfidence;
              liveness := liveness first; antispoofing := antispoofing first;
              combinedResults := true |}
  end.

(** [detectFaceAdvanced(imageData)], given what [detectFaceLocal] resolved
    with ([None] when it threw). *)
Definition detectFaceAdvanced (localResult : option Detected) : option Detected :=
  match localResult with
  | Some localResult =>
      if confidence localResult <? 0.8
      then combineFaceResults [localResult; detectFaceBackup]
      else Some localResult
  | None => Some fallbackDetection
  end.

End FaceRecognitionAPI.

(** ** [BiometricCapture.jsx]: the manual five-angle capture modal *)

Module BiometricCapture.

(** A [MediaStream] handle handed out by [getUserMedia]. *)
Definition Stream := nat.

(** The bytes of an encoded JPEG. *)
Definition Blob := string.

(** The value stored under an angle: [{ blob, url, timestamp }]. *)
Record Capture := mkCapture {
  blob : Blob;
  url : string;
  timestamp : Z }.

(** The [useState] cells ([analysis] is recomputed from [capturedImages] by an
    effect and is given as the function [analysis_of] below; [isAnalyzing] is
    never set). *)
Record State := mkState {
  stream : option Stream;
  capturedImages : JsObject.t Capture;
  isRegistering : bool;
  cameraError : option string;
  isVideoReady : bool }.

Definition initial : State :=
  {| stream := None; capturedImages := JsObject.empty; isRegistering := false;
     cameraError := None; isVideoReady := false |}.

Definition angles : list string := ["Center"; "Left"; "Right"; "Up"; "Down"].

(** What the closure of a [canvas.toBlob] callback captured when
    [captureImage] ran. *)
Record BlobClosure := mkBlobClosure {
  bc_angle : string;
  bc_capturedImages : JsObject.t Capture;
  bc_stream : option Stream }.

(** [biometric_data] of the registration result. *)
Record BiometricData := mkBiometricData {
  securityLevel : string;
  qualityScore : Z;
  totalCaptures : nat;
  livenessScore : Z;
  antispoofingScore : Z;
  captureTimestamp : Z;
  scanType : string }.

(** The object handed to [onCapture]. [face_image] is [None] when
    [reader.result.split(',')[1]] is [undefined]. *)
Record Payload := mkPayload {
  success : bool;
  face_image : option string;
  employee_id : string;
  angles_registered : list string;
  total_angles : nat;
  biometric_data : BiometricData }.

(** What [reader.onload] captured in [registerBiometric]. *)
Record ReaderClosure := mkReaderClosure {
  rc_blob : Blob;
  rc_employeeId : string;
  rc_capturedImages : JsObject.t Capture;
  rc_imageCount : nat }.

(** Side effects of a handler, in program order. *)
Inductive Effect :=
| StopTracks (s : Stream)              (* stream.getTracks().forEach(t => t.stop()) *)
| RevokeObjectURL (u : string)         (* URL.revokeObjectURL(u) *)
| GetUserMedia                         (* navigator.mediaDevices.getUserMedia(...) *)
| ToBlob (c : BlobClosure)             (* canvas.toBlob(callback, ...) *)
| SetTimeout500 (s : option Stream)    (* the auto-stop timer and the stream it captured *)
| ReadAsDataURL (c : ReaderClosure)    (* reader.readAsDataURL(centerImage.blob) *)
| OnCapture (p : Payload)              (* props.onCapture(result) *)
| OnClose.                             (* props.onClose() *)

Definition set_stream (v : option Stream) (s : State) : State :=
  {| stream := v; capturedImages := capturedImages s; isRegistering := isRegistering s;
     cameraError := cameraError s; isVideoReady := isVideoReady s |}.
Definition set_capturedImages (v : JsObject.t Capture) (s : State) : State :=
  {| stream := stream s; capturedImages := v; isRegistering := isRegistering s;
     cameraError := cameraError s; isVideoReady := isVideoReady s |}.
Definition set_isRegistering (v : bool) (s : State) : State :=
  {| stream := stream s; capturedImages := capturedImages s; isRegistering := v;
     cameraError := cameraError s; isVideoReady := isVideoReady s |}.
Definition set_cameraError (v : option string) (s : State) : State :=
  {| stream := stream s; capturedImages := capturedImages s; isRegistering := isRegistering s;
     cameraError := v; isVideoReady := isVideoReady s |}.
Definition set_isVideoReady (v : bool) (s : State) : State :=
  {| stream := stream s; capturedImages := capturedImages s; isRegistering := isRegistering s;
     cameraError := cameraError s; isVideoReady := v |}.

(** The mount effect's timer: [if (!stream && !cameraError) setCameraError(..)],
    on the [stream] and [cameraError] the effect's closure captured. *)
Definition cameraTimeout (c_stream : option Stream) (c_cameraError : option string)
    (s : State) : State :=
  match c_stream with
  | None =>
      if truthy_string c_cameraError then s
      else set_cameraError (Some "Camera timeout. Click Start Camera to try again.") s
  | Some _ => s
  end.

(** [stopCamera], a [useCallback] over [stream]. *)
Definition stopCamera (s : State) : State * list Effect :=
  match stream s with
  | Some ms => (set_isVideoReady false (set_stream None s), [StopTracks ms])
  | None => (s, [])
  end.

(** [startCamera] up to its [await]. *)
Definition startCamera (s : State) : State * list Effect :=
  (set_isVideoReady false (set_cameraError None s), [GetUserMedia]).

(** The two continuations of [await getUserMedia(..)]. *)
Definition startCamera_resolved (mediaStream : Stream) (s : State) : State :=
  set_stream (Some mediaStream) s.
Definition startCamera_rejected (errorName : string) (s : State) : State :=
  set_cameraError (Some "Camera access failed. Please allow permissions.") s.

(** [handleLoadedMetadata]: [video.play()] resolved or rejected. *)
Definition handleLoadedMetadata (playOk : bool) (s : State) : State :=
  if playOk then set_cameraError None (set_isVideoReady true s)
  else set_cameraError (Some "Failed to start video playback") s.

(** The [<video>] and [<canvas>] elements are rendered only in the branch
    [stream ? ... ], so both refs are set exactly when [stream] is. *)
Definition refsMounted (s : State) : bool :=
  match stream s with Some _ => true | None => false end.

(** [captureImage(angle)] up to the asynchronous [toBlob]; [videoWidth] and
    [videoHeight] are read from the video element. *)
Definition captureImage (angle : string) (videoWidth videoHeight : Z) (s : State)
    : State * list Effect :=
  if negb (refsMounted s) || negb (isVideoReady s)
     || negb (match stream s with Some _ => true | None => false end)
  then (set_cameraError (Some "Camera not ready for capture") s, [])
  else if (videoWidth =? 0)%Z || (videoHeight =? 0)%Z
  then (set_cameraError (Some "Video dimensions not available") s, [])
  else (s, [ToBlob {| bc_angle := angle; bc_capturedImages := capturedImages s;
                      bc_stream := stream s |}]).

(** [URL.revokeObjectURL(o[angle].url)] when [o[angle]?.url] is truthy. *)
Definition revoke_of (angle : string) (o : JsObject.t Capture) : list Effect :=
  match JsObject.get angle o with
  | Some c => if truthy_string (Some (url c)) then [RevokeObjectURL (url c)] else []
  | None => []
  end.

(** The [toBlob] callback: [b] is the encoded frame ([None] for [null]),
    [imageUrl] the result of [URL.createObjectURL], [now] of [Date.now()]. *)
Definition blobCallback (c : BlobClosure) (b : option Blob) (imageUrl : string) (now : Z)
    (s : State) : State * list Effect :=
  match b with
  | None => (s, [])
  | Some bl =>
      let newImages :=
        JsObject.set (bc_angle c)
          {| blob := bl; url := imageUrl; timestamp := now |} (capturedImages s) in
      (set_cameraError None (set_capturedImages newImages s),
       revoke_of (bc_angle c) (bc_capturedImages c)
       ++ (if (JsObject.size newImages =? 5)%nat then [SetTimeout500 (bc_stream c)] else []))
  end.

(** The auto-stop timer, on the [stream] its closure captured. *)
Definition autoStop (c_stream : option Stream) (s : State) : State * list Effect :=
  match c_stream with
  | Some ms => (set_isVideoReady false (set_stream None s), [StopTracks ms])
  | None => (s, [])
  end.

(** [removeImage(angle)] *)
Definition removeImage (angle : string) (s : State) : State * list Effect :=
  (set_capturedImages (JsObject.delete angle (capturedImages s)) s,
   revoke_of angle (capturedImages s)).

(** [Object.values(capturedImages).forEach(d => d.url && revoke(d.url))] *)
Definition revoke_all (o : JsObject.t Capture) : list Effect :=
  flat_map (fun c => if truthy_string (Some (url c)) then [RevokeObjectURL (url c)] else [])
           (JsObject.values o).

(** [retakeAll] ([setAnalysis(null)] is the effect of [analysis_of] on the
    empty object). *)
Definition retakeAll (s : State) : State * list Effect :=
  let s1 := set_cameraError None (set_capturedImages JsObject.empty s) in
  let '(s2, e) := startCamera s1 in
  (s2, revoke_all (capturedImages s) ++ e).

(** [handleClose] *)
Definition handleClose (s : State) : State * list Effect :=
  let '(s1, e) := stopCamera s in
  (s1, e ++ revoke_all (capturedImages s) ++ [OnClose]).

(** The simulated analysis that the effect on [capturedImages] stores. *)
Record Analysis := mkAnalysis {
  a_success : bool;
  angles_captured : nat;
  retina_count : nat }.

Definition analysis_of (o : JsObject.t Capture) : option Analysis :=
  let imageCount := JsObject.size o in
  if (0 <? imageCount)%nat
  then Some {| a_success := (2 <=? imageCount)%nat; angles_captured := imageCount;
               retina_count := imageCount |}
  else None.

(** [capturedCount] and [canRegister] of the render. *)
Definition capturedCount (s : State) : nat := JsObject.size (capturedImages s).
Definition canRegister (s : State) : bool := (2 <=? capturedCount s)%nat.

(** [registerBiometric], up to [reader.readAsDataURL]. *)
Definition registerBiometric (employeeId : option string) (s : State)
    : State * list Effect :=
  let imageCount := JsObject.size (capturedImages s) in
  if (imageCount <? 2)%nat || negb (truthy_string employeeId)
  then (set_cameraError
          (Some "Need at least 2 captured images and valid employee ID") s, [])
  else
    match JsObject.get "Center" (capturedImages s), employeeId with
    | Some centerImage, Some eid =>
        (set_isRegistering true s,
         [ReadAsDataURL {| rc_blob := blob centerImage; rc_employeeId := eid;
                           rc_capturedImages := capturedImages s;
                           rc_imageCount := imageCount |}])
    | _, _ =>
        (set_isRegistering false
           (set_cameraError (Some "Center image not found") (set_isRegistering true s)),
         [])
    end.

(** [s.split(',')[1]] *)
Fixpoint until_comma (s : string) : string :=
  match s with
  | EmptyString => EmptyString
  | String c r => if Ascii.eqb c "," then EmptyString else String c (until_comma r)
  end.
Fixpoint split_comma_1 (s : string) : option string :=
  match s with
  | EmptyString => None
  | String c r => if Ascii.eqb c "," then Some (until_comma r) else split_comma_1 r
  end.

(** [reader.onload]: [result] is [reader.result], the data URL of the blob. *)
Definition readerOnload (c : ReaderClosure) (result : string) (now : Z) (s : State)
    : State * list Effect :=
  (set_isRegistering false s,
   [OnCapture
      {| success := true;
         face_image := split_comma_1 result;
         employee_id := rc_employeeId c;
         angles_registered := JsObject.keys (rc_capturedImages c);
         total_angles := rc_imageCount c;
         biometric_data :=
           {| securityLevel := "HIGH"; qualityScore := 95;
              totalCaptures := rc_imageCount c; livenessScore := 98;
              antispoofingScore := 96; captureTimestamp := now;
              scanType := "multi-angle" |} |};
    OnClose]).

(** *** The component and the callbacks it is owed *)

Record Sys := mkSys {
  st : State;
  pendingMedia : nat;                      (* [getUserMedia] promises not yet settled *)
  pendingBlobs : list BlobClosure;         (* [toBlob] callbacks not yet run *)
  pendingStops : list (option Stream);     (* auto-stop timers not yet fired *)
  pendingReaders : list ReaderClosure;     (* [FileReader]s not yet loaded *)
  mountTimer : option (option Stream * option string);
                                           (* the 5 s timer and what it captured *)
  log : list Effect }.

Definition count_media (es : list Effect) : nat :=
  List.length (filter (fun e => match e with GetUserMedia => true | _ => false end) es).

(** The callbacks that a list of effects registers. *)
Definition blobs_of (es : list Effect) : list BlobClosure :=
  flat_map (fun e => match e with ToBlob c => [c] | _ => [] end) es.
Definition stops_of (es : list Effect) : list (option Stream) :=
  flat_map (fun e => match e with SetTimeout500 c => [c] | _ => [] end) es.
Definition readers_of (es : list Effect) : list ReaderClosure :=
  flat_map (fun e => match e with ReadAsDataURL c => [c] | _ => [] end) es.

(** The state a handler returns, with the callbacks its effects register. *)
Definition absorb (y : Sys) (r : State * list Effect) : Sys :=
  {| st := fst r;
     pendingMedia := pendingMedia y + count_media (snd r);
     pendingBlobs := pendingBlobs y ++ blobs_of (snd r);
     pendingStops := pendingStops y ++ stops_of (snd r);
     pendingReaders := pendingReaders y ++ readers_of (snd r);
     mountTimer := mountTimer y;
     log := log y ++ snd r |}.

(** The first render and its mount effect: the timer captures the [stream]
    and [cameraError] of that render, then [startCamera()] is called. *)
Definition mount : Sys :=
  absorb {| st := initial; pendingMedia := 0; pendingBlobs := []; pendingStops := [];
            pendingReaders := []; mountTimer := Some (stream initial, cameraError initial);
            log := [] |}
         (startCamera initial).

(** [l] without its element at position [i]. *)
Fixpoint remove_nth {A : Type} (i : nat) (l : list A) : list A :=
  match i, l with
  | _, [] => []
  | O, _ :: r => r
  | S i', x :: r => x :: remove_nth i' r
  end.

Inductive Event :=
| ClickStartCamera                      (* "Start Camera Scan" or "Restart Camera" *)
| ClickStopCamera
| ClickRetakeAll
| ClickAngle (angle : string) (videoWidth videoHeight : Z)
| ClickRemove (angle : string)
| ClickRegister
| ClickClose
| MediaResolved (mediaStream : Stream)
| MediaRejected (errorName : string)
| LoadedMetadata (playOk : bool)
| BlobReady (i : nat) (b : option Blob) (imageUrl : string) (now : Z)
| AutoStopFires (i : nat)
| MountTimerFires
| ReaderLoaded (i : nat) (result : string) (now : Z).

Definition streaming (s : State) : bool :=
  match stream s with Some _ => true | None => false end.

(** One event against the rendered component.  A click acts only on an element
    that the render of the current state contains and does not disable; a
    callback runs only if it is pending. *)
Definition step (employeeId : option string) (e : Event) (y : Sys) : Sys :=
  let s := st y in
  match e with
  | ClickStartCamera =>
      if negb (streaming s) || (capturedCount s =? 5)%nat then absorb y (startCamera s) else y
  | ClickStopCamera =>
      if streaming s && negb (capturedCount s =? 5)%nat then absorb y (stopCamera s) else y
  | ClickRetakeAll =>
      if streaming s then absorb y (retakeAll s) else y
  | ClickAngle angle w h =>
      if existsb (String.eqb angle) angles && isVideoReady s
      then absorb y (captureImage angle w h s) else y
  | ClickRemove angle =>
      if existsb (String.eqb angle) angles && JsObject.has angle (capturedImages s)
      then absorb y (removeImage angle s) else y
  | ClickRegister =>
      if canRegister s && negb (isRegistering s)
      then absorb y (registerBiometric employeeId s) else y
  | ClickClose => absorb y (handleClose s)
  | MediaResolved ms =>
      match pendingMedia y with
      | O => y
      | S n =>
          absorb {| st := s; pendingMedia := n; pendingBlobs := pendingBlobs y;
                    pendingStops := pendingStops y; pendingReaders := pendingReaders y;
                    mountTimer := mountTimer y; log := log y |}
                 (startCamera_resolved ms s, [])
      end
  | MediaRejected name =>
      match pendingMedia y with
      | O => y
      | S n =>
          absorb {| st := s; pendingMedia := n; pendingBlobs := pendingBlobs y;
                    pendingStops := pendingStops y; pendingReaders := pendingReaders y;
                    mountTimer := mountTimer y; log := log y |}
                 (startCamera_rejected name s, [])
      end
  | LoadedMetadata playOk =>
      if streaming s then absorb y (handleLoadedMetadata playOk s, []) else y
  | BlobReady i b imageUrl now =>
      match nth_error (pendingBlobs y) i with
      | None => y
      | Some c =>
          absorb {| st := s; pendingMedia := pendingMedia y;
                    pendingBlobs := remove_nth i (pendingBlobs y);
                    pendingStops := pendingStops y; pendingReaders := pendingReaders y;
                    mountTimer := mountTimer y; log := log y |}
                 (blobCallback c b imageUrl now s)
      end
  | AutoStopFires i =>
      match nth_error (pendingStops y) i with
      | None => y
      | Some c =>
          absorb {| st := s; pendingMedia := pendingMedia y; pendingBlobs := pendingBlobs y;
                    pendingStops := remove_nth i (pendingStops y);
                    pendingReaders := pendingReaders y;
                    mountTimer := mountTimer y; log := log y |}
                 (autoStop c s)
      end
  | MountTimerFires =>
      match mountTimer y with
      | None => y
      | Some (c_stream, c_error) =>
          absorb {| st := s; pendingMedia := pendingMedia y; pendingBlobs := pendingBlobs y;
                    pendingStops := pendingStops y; pendingReaders := pendingReaders y;
                    mountTimer := None; log := log y |}
                 (cameraTimeout c_stream c_error s, [])
      end
  | ReaderLoaded i result now =>
      match nth_error (pendingReaders y) i with
      | None => y
      | Some c =>
          absorb {| st := s; pendingMedia := pendingMedia y; pendingBlobs := pendingBlobs y;
                    pendingStops := pendingStops y;
                    pendingReaders := remove_nth i (pendingReaders y);
                    mountTimer := mountTimer y; log := log y |}
                 (readerOnload c result now s)
      end
  end.

Definition run (employeeId : option string) (es : list Event) (y : Sys) : Sys :=
  fold_left (fun y e => step employeeId e y) es y.

(** The payloads handed to [onCapture] so far. *)
Definition payloads_of (es : list Effect) : list Payload :=
  flat_map (fun e => match e with OnCapture p => [p] | _ => [] end) es.
Definition emitted (y : Sys) : list Payload := payloads_of (log y).

End BiometricCapture.

(** ** [BasicBiometricCapture.jsx]: the guided five-step capture *)

Module BasicBiometricCapture.

Local Open Scope float_scope.

(** The [name] fields of [angles] (the [instruction] texts are only rendered). *)
Definition angles : list string :=
  ["Frontal"; "Left Profile"; "Right Profile"; "Up Angle"; "Down Angle"]%string.

(** *** String methods, on ASCII text *)

Definition lower_ascii (c : ascii) : ascii :=
  let n := nat_of_ascii c in
  if ((65 <=? n) && (n <=? 90))%nat then ascii_of_nat (n + 32) else c.
Definition upper_ascii (c : ascii) : ascii :=
  let n := nat_of_ascii c in
  if ((97 <=? n) && (n <=? 122))%nat then ascii_of_nat (n - 32) else c.

(** [s.toLowerCase()] *)
Fixpoint toLowerCase (s : string) : string :=
  match s with
  | EmptyString => EmptyString
  | String c r => String (lower_ascii c) (toLowerCase r)
  end.

(** [s.replace(c, r)] for a one-character pattern: the first occurrence only. *)
Fixpoint replace (c : ascii) (r : string) (s : string) : string :=
  match s with
  | EmptyString => EmptyString
  | String x t => if Ascii.eqb x c then (r ++ t)%string else String x (replace c r t)
  end.

(** [s.charAt(0).toUpperCase() + rest] *)
Definition capitalize_then (rest : string -> string) (s : string) : string :=
  match s with
  | EmptyString => rest EmptyString
  | String c t => String (upper_ascii c) (rest t)
  end.

(** [angles[i].name.toLowerCase().replace(' ', '_')] *)
Definition label (name : string) : string := replace " " "_" (toLowerCase name).

(** [a.charAt(0).toUpperCase() + a.slice(1).replace('_', '')] *)
Definition angleName (a : string) : string := capitalize_then (replace "_" EmptyString) a.

(** *** [extractBiometricData] and its helpers *)

Record ColorDistribution := mkColor { red : float; green : float; blue : float }.

Record FaceRegion := mkFaceRegion {
  centerX : Z;
  centerY : Z;
  regionSize : float;
  pixelDensity : float;
  aspectRatio : float }.

Record BiometricData := mkBiometricData {
  brightness : float;
  contrast : float;
  sharpness : float;
  colorDistribution : ColorDistribution;
  faceRegionData : FaceRegion;
  bd_timestamp : Z }.

(** [0.299 * data[i] + 0.587 * data[i + 1] + 0.114 * data[i + 2]] *)
Definition luma (data : list Z) (i : Z) : float :=
  0.299 * ImageData.at_ data i + 0.587 * ImageData.at_ data (i + 1)
  + 0.114 * ImageData.at_ data (i + 2).

(** [data[(y * width + x) * 4]], the red byte of the pixel at row [y], column [x]. *)
Definition px (data : list Z) (width y x : Z) : float :=
  ImageData.at_ data ((y * width + x) * 4).

(** The body of the inner loop of [calculateSharpness]: the Sobel gradient
    magnitude at [(x, y)]. *)
Definition sobel (data : list Z) (width y x : Z) : float :=
  let gx := - px data width (y - 1) (x - 1) + px data width (y - 1) (x + 1)
            + (-2) * px data width y (x - 1) + 2 * px data width y (x + 1)
            + - px data width (y + 1) (x - 1) + px data width (y + 1) (x + 1) in
  let gy := - px data width (y - 1) (x - 1) - 2 * px data width (y - 1) x
            - px data width (y - 1) (x + 1)
            + px data width (y + 1) (x - 1) + 2 * px data width (y + 1) x
            + px data width (y + 1) (x + 1) in
  sqrt (gx * gx + gy * gy).

(** [calculateSharpness(imageData)]: the mean Sobel gradient magnitude of the
    red channel over the interior pixels. *)
Definition calculateSharpness (imageData : ImageData.t) : float :=
  let data := ImageData.data imageData in
  let width := ImageData.width imageData in
  let height := ImageData.height imageData in
  let sharpness :=
    JsNum.for_range 1 (height - 1) 1
      (fun y acc =>
         JsNum.for_range 1 (width - 1) 1
           (fun x acc => acc + sobel data width y x) acc)
      0 in
  sharpness / ((JsNum.of_Z width - 2) * (JsNum.of_Z height - 2)).

(** [calculateColorDistribution(data)] *)
Definition calculateColorDistribution (data : list Z) : ColorDistribution :=
  let pixelCount := JsNum.of_Z (ImageData.len data) / 4 in
  let sums :=
    JsNum.for_range 0 (ImageData.len data) 4
      (fun i '(rSum, gSum, bSum) =>
         (rSum + ImageData.at_ data i, gSum + ImageData.at_ data (i + 1),
          bSum + ImageData.at_ data (i + 2)))
      (0, 0, 0) in
  let '(rSum, gSum, bSum) := sums in
  {| red := rSum / pixelCount; green := gSum / pixelCount; blue := bSum / pixelCount |}.

(** [extractFaceRegionData(imageData)]; [Math.floor(w / 2)] of a non-negative
    integer is the integer quotient. *)
Definition extractFaceRegionData (imageData : ImageData.t) : FaceRegion :=
  let width := ImageData.width imageData in
  let height := ImageData.height imageData in
  {| centerX := (width / 2)%Z;
     centerY := (height / 2)%Z;
     regionSize := JsNum.min (JsNum.of_Z width) (JsNum.of_Z height) * 0.3;
     pixelDensity := JsNum.of_Z width * JsNum.of_Z height;
     aspectRatio := JsNum.of_Z width / JsNum.of_Z height |}.

(** [extractBiometricData(canvas, ctx)] on the pixels [imageData] that
    [ctx.getImageData] returns; [now] is the value of [Date.now()]. *)
Definition extractBiometricData (now : Z) (imageData : ImageData.t) : BiometricData :=
  let data := ImageData.data imageData in
  let '(totalBrightness, pixelCount) :=
    JsNum.for_range 0 (ImageData.len data) 4
      (fun i '(tb, pc) => (tb + luma data i, pc + 1)) (0, 0) in
  let avgBrightness := totalBrightness / pixelCount in
  let totalContrast :=
    JsNum.for_range 0 (ImageData.len data) 4
      (fun i tc => tc + JsNum.pow2 (luma data i - avgBrightness)) 0 in
  let contrast := sqrt (totalContrast / pixelCount) in
  {| brightness := avgBrightness;
     contrast := contrast;
     sharpness := calculateSharpness imageData;
     colorDistribution := calculateColorDistribution data;
     faceRegionData := extractFaceRegionData imageData;
     bd_timestamp := now |}.

(** *** State and handlers *)

Record Capture := mkCapture {
  angle : string;
  image : string;
  timestamp : Z;
  biometricData : BiometricData;
  resolution : Z * Z }.

Record State := mkState {
  stream : option nat;
  capturedImages : list Capture;
  currentAngle : nat;
  isCapturing : bool }.

Definition initial : State :=
  {| stream := None; capturedImages := []; currentAngle := 0; isCapturing := false |}.

Definition set_stream (v : option nat) (s : State) : State :=
  {| stream := v; capturedImages := capturedImages s; currentAngle := currentAngle s;
     isCapturing := isCapturing s |}.
Definition set_capturedImages (v : list Capture) (s : State) : State :=
  {| stream := stream s; capturedImages := v; currentAngle := currentAngle s;
     isCapturing := isCapturing s |}.
Definition set_currentAngle (v : nat) (s : State) : State :=
  {| stream := stream s; capturedImages := capturedImages s; currentAngle := v;
     isCapturing := isCapturing s |}.
Definition set_isCapturing (v : bool) (s : State) : State :=
  {| stream := stream s; capturedImages := capturedImages s; currentAngle := currentAngle s;
     isCapturing := v |}.

(** What the render's closures captured: [captureImage], the timer it starts
    and [completeCapture] all read [currentAngle] and [capturedImages] of the
    render they were created in. *)
Record Closure := mkClosure {
  c_currentAngle : nat;
  c_capturedImages : list Capture }.

Definition closure_of (s : State) : Closure :=
  {| c_currentAngle := currentAngle s; c_capturedImages := capturedImages s |}.

(** The JSON body of the registration request. *)
Record Request := mkRequest {
  employee_id : string;
  biometric_images : JsObject.t string }.

(** The object handed to [onComplete]. *)
Record Completion := mkCompletion {
  images : list Capture;
  employeeId : string }.

Inductive Effect :=
| GetUserMedia (fallback : bool)
| StopTracks (s : nat)
| SetTimeout500 (c : Closure)
| Fetch (c : Closure) (r : Request)       (* POST .../register-advanced *)
| OnComplete (r : Completion)
| Alert (succeeded : bool)
| ConsoleError
| Throw.                                   (* an exception leaves the handler *)

(** A frame as [captureImage] reads it: the pixels of the canvas after
    [drawImage] and its JPEG data URL. *)
Record Frame := mkFrame {
  pixels : ImageData.t;
  dataUrl : string }.

(** [updated.slice(0, 5)] *)
Definition slice5 {A : Type} (l : list A) : list A := firstn 5 l.

(** [captureImage()], as created by the render of state [s].  A canvas of
    width or height zero makes [ctx.getImageData] throw [IndexSizeError];
    [angles[currentAngle]] beyond the array makes [.name] throw [TypeError]. *)
Definition captureImage (f : Frame) (now : Z) (s : State) : State * list Effect :=
  if (5 <=? List.length (capturedImages s))%nat then (s, [])
  else
    let s1 := set_isCapturing true s in
    let w := ImageData.width (pixels f) in
    let h := ImageData.height (pixels f) in
    if ((w =? 0) || (h =? 0))%Z then (s1, [Throw])
    else
      match nth_error angles (currentAngle s) with
      | None => (s1, [Throw])
      | Some name =>
          let newCapture :=
            {| angle := label name; image := dataUrl f; timestamp := now;
               biometricData := extractBiometricData now (pixels f);
               resolution := (w, h) |} in
          (set_capturedImages (slice5 (capturedImages s1 ++ [newCapture])) s1,
           [SetTimeout500 (closure_of s)])
      end.

(** The loop of [completeCapture] that fills [biometricImages]. *)
Definition biometricImages (l : list Capture) : JsObject.t string :=
  fold_left (fun o c => JsObject.set (angleName (angle c)) (image c) o) (slice5 l)
            JsObject.empty.

(** [completeCapture()] up to its [await fetch(..)]. *)
Definition completeCapture (employeeId : string) (c : Closure) (s : State)
    : State * list Effect :=
  (set_isCapturing true s,
   [Fetch c {| employee_id := employeeId;
               biometric_images := biometricImages (c_capturedImages c) |}]).

(** How the request ended: [fetch] or [response.json()] rejected, or a
    response with its [ok] flag and the [success] field of its body. *)
Inductive Response :=
| Failed
| Replied (ok : bool) (body_success : bool).

(** The rest of [completeCapture] after the [await]. *)
Definition completeCapture_done (employeeId : string) (c : Closure) (r : Response) (s : State)
    : State * list Effect :=
  match r with
  | Replied true true =>
      (set_isCapturing false s,
       [Alert true;
        OnComplete {| images := slice5 (c_capturedImages c); employeeId := employeeId |}])
  | _ => (set_isCapturing false s, [ConsoleError; Alert false])
  end.

(** The 500 ms timer started by [captureImage]. *)
Definition timerCallback (employeeId : string) (c : Closure) (s : State)
    : State * list Effect :=
  let s1 := set_isCapturing false s in
  if (c_currentAngle c <? List.length angles - 1)%nat
  then (set_currentAngle (currentAngle s1 + 1) s1, [])
  else completeCapture employeeId c s1.

(** The "Recapture" button. *)
Definition recapture (s : State) : State :=
  set_currentAngle 0 (set_capturedImages [] s).

(** [startCamera]: the first request, its fallback, and the last [catch]. *)
Definition startCamera (s : State) : State * list Effect := (s, [GetUserMedia false]).
Definition startCamera_resolved (mediaStream : nat) (s : State) : State :=
  set_stream (Some mediaStream) s.
Definition startCamera_rejected (fallback : bool) (s : State) : State * list Effect :=
  if fallback then (s, [ConsoleError]) else (s, [ConsoleError; GetUserMedia true]).

(** [cleanup], the unmount effect created by the first render, whose [stream]
    is still [null]. *)
Definition cleanup (c_stream : option nat) (s : State) : State * list Effect :=
  match c_stream with
  | Some ms => (s, [StopTracks ms])
  | None => (s, [])
  end.

(** The completion test of the render: [capturedImages.length >= 5]. *)
Definition isComplete (s : State) : bool := (5 <=? List.length (capturedImages s))%nat.

(** *** The component and the callbacks it is owed *)

Record Sys := mkSys {
  st : State;
  timers : list Closure;
  requests : list Closure;
  log : list Effect }.

Definition mount : Sys :=
  {| st := initial; timers := []; requests := []; log := [GetUserMedia false] |}.

Definition absorb (y : Sys) (r : State * list Effect) : Sys :=
  {| st := fst r;
     timers := timers y ++ flat_map (fun e => match e with SetTimeout500 c => [c] | _ => [] end) (snd r);
     requests := requests y ++ flat_map (fun e => match e with Fetch c _ => [c] | _ => [] end) (snd r);
     log := log y ++ snd r |}.

Inductive Event :=
| ClickCapture (f : Frame) (now : Z)
| TimerFires
| ClickRecapture
| ClickRegister
| FetchDone (r : Response).

(** One event against the rendered component: a button acts only when it is
    rendered and not [disabled]; a callback runs only when it is pending (the
    oldest one first). *)
Definition step (employeeId : string) (e : Event) (y : Sys) : Sys :=
  let s := st y in
  match e with
  | ClickCapture f now =>
      if isCapturing s || (5 <=? List.length (capturedImages s))%nat then y
      else absorb y (captureImage f now s)
  | TimerFires =>
      match timers y with
      | [] => y
      | c :: rest =>
          absorb {| st := s; timers := rest; requests := requests y; log := log y |}
                 (timerCallback employeeId c s)
      end
  | ClickRecapture =>
      if (5 <=? List.length (capturedImages s))%nat then absorb y (recapture s, []) else y
  | ClickRegister =>
      if (5 <=? List.length (capturedImages s))%nat && negb (isCapturing s)
      then absorb y (completeCapture employeeId (closure_of s) s) else y
  | FetchDone r =>
      match requests y with
      | [] => y
      | c :: rest =>
          absorb {| st := s; timers := timers y; requests := rest; log := log y |}
                 (completeCapture_done employeeId c r s)
      end
  end.

Definition run (employeeId : string) (es : list Event) (y : Sys) : Sys :=
  fold_left (fun y e => step employeeId e y) es y.

End BasicBiometricCapture.

(** ** [AdvancedBiometricCapture.jsx]: the server-driven capture *)

Module AdvancedBiometricCapture.

Local Open Scope float_scope.

Record Message := mkMessage {
  m_id : Z;
  m_text : string;
  m_type : string }.

Record SessionProgress := mkProgress {
  captured_angles : list string;
  required_angles : list string;
  progress_percentage : float;
  is_complete : bool }.

Record Analysis := mkAnalysis {
  face_detected : bool;
  current_angle : option string;
  quality_score : float;
  retinal_quality : float;
  head_pose : float * float }.

Record State := mkState {
  stream : option nat;
  sessionId : option string;
  isProcessing : bool;
  sessionProgress : SessionProgress;
  currentAnalysis : Analysis;
  messages : list Message;
  isComplete : bool }.

Definition initial : State :=
  {| stream := None; sessionId := None; isProcessing := false;
     sessionProgress :=
       {| captured_angles := []; required_angles := []; progress_percentage := 0;
          is_complete := false |};
     currentAnalysis :=
       {| face_detected := false; current_angle := None; quality_score := 0;
          retinal_quality := 0; head_pose := (0, 0) |};
     messages := []; isComplete := false |}.

Definition set_stream (v : option nat) (s : State) : State :=
  {| stream := v; sessionId := sessionId s; isProcessing := isProcessing s;
     sessionProgress := sessionProgress s; currentAnalysis := currentAnalysis s;
     messages := messages s; isComplete := isComplete s |}.
Definition set_sessionId (v : option string) (s : State) : State :=
  {| stream := stream s; sessionId := v; isProcessing := isProcessing s;
     sessionProgress := sessionProgress s; currentAnalysis := currentAnalysis s;
     messages := messages s; isComplete := isComplete s |}.
Definition set_isProcessing (v : bool) (s : State) : State :=
  {| stream := stream s; sessionId := sessionId s; isProcessing := v;
     sessionProgress := sessionProgress s; currentAnalysis := currentAnalysis s;
     messages := messages s; isComplete := isComplete s |}.
Definition set_sessionProgress (v : SessionProgress) (s : State) : State :=
  {| stream := stream s; sessionId := sessionId s; isProcessing := isProcessing s;
     sessionProgress := v; currentAnalysis := currentAnalysis s;
     messages := messages s; isComplete := isComplete s |}.
Definition set_currentAnalysis (v : Analysis) (s : State) : State :=
  {| stream := stream s; sessionId := sessionId s; isProcessing := isProcessing s;
     sessionProgress := sessionProgress s; currentAnalysis := v;
     messages := messages s; isComplete := isComplete s |}.
Definition set_messages (v : list Message) (s : State) : State :=
  {| stream := stream s; sessionId := sessionId s; isProcessing := isProcessing s;
     sessionProgress := sessionProgress s; currentAnalysis := currentAnalysis s;
     messages := v; isComplete := isComplete s |}.
Definition set_isComplete (v : bool) (s : State) : State :=
  {| stream := stream s; sessionId := sessionId s; isProcessing := isProcessing s;
     sessionProgress := sessionProgress s; currentAnalysis := currentAnalysis s;
     messages := messages s; isComplete := v |}.

(** [addMessage(text, type)]: the newest message first, five kept. *)
Definition addMessage (text type : string) (now : Z) (s : State) : State :=
  set_messages ({| m_id := now; m_text := text; m_type := type |}
                :: firstn 4 (messages s)) s.

(** The [catch] block of [startCamera]: the message shown for an error with
    the given [name] and [message]. *)
Definition errorText (name message : string) : string :=
  if String.eqb name "NotAllowedError"
  then "Camera permission denied. Please allow camera access and refresh."%string
  else if String.eqb name "NotFoundError"
  then "No camera found. Please connect a camera and try again."%string
  else if String.eqb name "NotReadableError"
  then "Camera is being used by another application."%string
  else ("Error: " ++ message)%string.

Definition startCamera_catch (name message : string) (now : Z) (s : State) : State :=
  addMessage (errorText name message) "error" now s.

(** The body of a reply of [/api/biometric/process-frame]; an absent field is
    [None]. *)
Record FrameResult := mkFrameResult {
  r_success : bool;
  r_face_detected : option bool;
  r_current_angle : option string;
  r_quality_score : option float;
  r_retinal_quality : option float;
  r_head_pose : option (float * float);
  r_session_progress : option SessionProgress;
  r_auto_captured : bool;
  r_captured_angle : string;
  r_session_complete : bool;
  r_message : option string;
  r_error : option string }.

Inductive Reply :=
| Threw                              (* fetch or response.json() rejected *)
| NotOk (status : Z)                 (* !response.ok *)
| Ok (result : FrameResult).

Inductive Effect :=
| PostFrame (session_id : string)          (* fetch(.../process-frame) *)
| ConsoleError
| ClearInterval
| CompleteLater (session_id : string) (progress : option SessionProgress).
                                           (* setTimeout(() => onComplete(..), 2000) *)

(** [x || 0] for a number read from the reply. *)
Definition or_zero (x : option float) : float :=
  match x with
  | Some v => if is_nan v || is_zero v then 0 else v
  | None => 0
  end.

(** What the video element reports when a frame is sampled. *)
Record Video := mkVideo {
  readyState : Z;
  videoWidth : Z;
  videoHeight : Z }.

(** How the first part of [processFrame] ends. *)
Inductive Sampled :=
| Skipped        (* returned before anything was set *)
| Dropped        (* returned from inside [try]: only [finally] ran *)
| Posted.        (* the frame was sent; the reply is awaited *)

(** [processFrame()] up to [await fetch(..)].  [c_isProcessing] and
    [c_sessionId] are the values its closure captured. *)
Definition processFrame (c_isProcessing : bool) (c_sessionId : option string) (v : Video)
    (s : State) : Sampled * State * list Effect :=
  match c_isProcessing, truthy_string c_sessionId, c_sessionId with
  | false, true, Some sid =>
      if negb (readyState v =? 4)%Z then (Skipped, s, [])
      else if ((videoWidth v =? 0) || (videoHeight v =? 0))%Z
      then (Dropped, set_isProcessing false (set_isProcessing true s), [])
      else (Posted, set_isProcessing true s, [PostFrame sid])
  | _, _, _ => (Skipped, s, [])
  end.

(** The rest of [processFrame] once the reply is there; [now] is
    [Date.now()] and [rnd] the [Math.random()] draw of the message throttle. *)
Definition processFrame_reply (c_sessionId : string) (reply : Reply) (now : Z) (rnd : float)
    (s : State) : State * list Effect :=
  match reply with
  | Threw => (set_isProcessing false s, [ConsoleError])
  | NotOk _ => (set_isProcessing false s, [ConsoleError])
  | Ok result =>
      if r_success result then
        let s1 :=
          set_currentAnalysis
            {| face_detected := match r_face_detected result with Some b => b | None => false end;
               current_angle :=
                 if truthy_string (r_current_angle result) then r_current_angle result else None;
               quality_score := or_zero (r_quality_score result);
               retinal_quality := or_zero (r_retinal_quality result);
               head_pose := match r_head_pose result with Some p => p | None => (0, 0) end |}
            s in
        let s2 :=
          match r_session_progress result with
          | Some p => set_sessionProgress p s1
          | None => s1
          end in
        let s3 :=
          if r_auto_captured result
          then addMessage (r_captured_angle result ++ " angle captured!")%string "success" now s2
          else s2 in
        let '(s4, e4) :=
          if r_session_complete result
          then (addMessage "All angles captured! Processing attendance..." "success" now
                  (set_isComplete true s3),
                [ClearInterval; CompleteLater c_sessionId (r_session_progress result)])
          else (s3, []) in
        let s5 :=
          match r_message result, r_face_detected result with
          | Some m, (Some false | None) =>
              if truthy_string (Some m) && (rnd <? 0.1) then addMessage m "info" now s4 else s4
          | _, _ => s4
          end in
        (set_isProcessing false s5, e4)
      else if truthy_string (r_error result)
      then (set_isProcessing false s, [ConsoleError])
      else (set_isProcessing false s, [])
  end.

(** [getNextRequiredAngle()] *)
Definition getNextRequiredAngle (s : State) : option string :=
  hd_error
    (filter (fun angle =>
               negb (existsb (String.eqb angle) (captured_angles (sessionProgress s))))
            (required_angles (sessionProgress s))).

Inductive AngleStatus := Completed | Current | Pending.

(** [getAngleStatus(angle)] *)
Definition getAngleStatus (angle : string) (s : State) : AngleStatus :=
  if existsb (String.eqb angle) (captured_angles (sessionProgress s)) then Completed
  else match current_angle (currentAnalysis s) with
       | Some a => if String.eqb a angle then Current else Pending
       | None => Pending
       end.

(** The callback that [startProcessing] hands to [setInterval]: its
    [isProcessing], and those of the [processFrame] it calls, are the values
    of the render whose effect started the interval. *)
Definition intervalTick (c_isProcessing : bool) (c_sessionId : option string) (v : Video)
    (s : State) : Sampled * State * list Effect :=
  if negb c_isProcessing then processFrame c_isProcessing c_sessionId v s
  else (Skipped, s, []).

(** Successive ticks of one interval, one sampled video state per tick. *)
Definition ticks (c_isProcessing : bool) (c_sessionId : option string) (vs : list Video)
    (s : State) : State * list Effect :=
  fold_left
    (fun acc v =>
       let '(_, s', e) := intervalTick c_isProcessing c_sessionId v (fst acc) in
       (s', snd acc ++ e))
    vs (s, []).

End AdvancedBiometricCapture.

(** ** [FaceCapture/RealTimeFaceDetection.jsx] *)

Module RealTimeFaceDetection.

Local Open Scope float_scope.

(** The cells that [captureSmartphoneLikeFaces] reads. *)
Record Detection := mkDetection {
  faceDetected : bool;
  faceQuality : float;
  detectionConfidence : float }.

(** Whether [captureSmartphoneLikeFaces] goes past its first statement,
    [if (!faceDetected || faceQuality < 40 || detectionConfidence < 0.7) return]. *)
Definition captureStarts (d : Detection) : bool :=
  negb (negb (faceDetected d) || (faceQuality d <? 40) || (detectionConfidence d <? 0.7)).

(** The [liveness] object of an analysis: the one of
    [FaceRecognitionAPI.detectLiveness], or the one of the component's own
    [detectLiveness], which alone has a [score]. *)
Inductive LivenessObj :=
| ApiLiveness (l : FaceRecognitionAPI.Liveness)
| OwnLiveness (blinkDetected microMovements : bool)
              (textureAnalysis depthAnalysis score : float).

(** The [antispoofing] object of an analysis: the one of
    [FaceRecognitionAPI.detectAntispoofing], or the one of the component's own
    [performAntispoofing], which alone has an [overallScore]. *)
Inductive AntispoofingObj :=
| ApiAntispoofing (a : FaceRecognitionAPI.Antispoofing)
| OwnAntispoofing (photoDetection videoDetection maskDetection screenDetection
                   overallScore : float).

(** The component's [detectLiveness()] and [performAntispoofing()], on their
    successive [Math.random()] draws. *)
Definition detectLiveness (r1 r2 r3 r4 r5 : float) : LivenessObj :=
  OwnLiveness (JsNum.gtb r1 0.3) (JsNum.gtb r2 0.2)
              (r3 * 0.4 + 0.6) (r4 * 0.3 + 0.7) (r5 * 0.3 + 0.7).
Definition performAntispoofing (r1 r2 r3 r4 r5 : float) : AntispoofingObj :=
  OwnAntispoofing (r1 * 0.2 + 0.8) (r2 * 0.2 + 0.8) (r3 * 0.1 + 0.9)
                  (r4 * 0.2 + 0.8) (r5 * 0.2 + 0.8).

(** [liveness.score] and [antispoofing.overallScore]; [None] is [undefined]. *)
Definition score (l : LivenessObj) : option float :=
  match l with
  | ApiLiveness _ => None
  | OwnLiveness _ _ _ _ s => Some s
  end.
Definition overallScore (a : AntispoofingObj) : option float :=
  match a with
  | ApiAntispoofing _ => None
  | OwnAntispoofing _ _ _ _ s => Some s
  end.

(** The fields [liveness: result.liveness || detectLiveness()] and
    [antispoofing: result.antispoofing || performAntispoofing()] of
    [performAdvancedFacialAnalysis]; [result] is [None] when the [catch]
    branch ran, and [own] is what the component's own function returns. *)
Definition analysis_liveness (result : option FaceRecognitionAPI.Detected) (own : LivenessObj)
    : LivenessObj :=
  match result with
  | Some r =>
      match FaceRecognitionAPI.liveness r with
      | Some l => ApiLiveness l
      | None => own
      end
  | None => own
  end.
Definition analysis_antispoofing (result : option FaceRecognitionAPI.Detected)
    (own : AntispoofingObj) : AntispoofingObj :=
  match result with
  | Some r =>
      match FaceRecognitionAPI.antispoofing r with
      | Some a => ApiAntispoofing a
      | None => own
      end
  | None => own
  end.

(** An element of [captures], with the fields that
    [performComprehensiveSmartphoneAnalysis] reads. *)
Record Capture := mkCapture {
  quality : float;
  confidence : float;
  a_liveness : LivenessObj;
  a_antispoofing : AntispoofingObj }.

(** The capture pushed by [captureSmartphoneLikeFaces] for one angle. *)
Definition capture_of (d : Detection) (result : option FaceRecognitionAPI.Detected)
    (ownLiveness : LivenessObj) (ownAntispoofing : AntispoofingObj) : Capture :=
  {| quality := faceQuality d; confidence := detectionConfidence d;
     a_liveness := analysis_liveness result ownLiveness;
     a_antispoofing := analysis_antispoofing result ownAntispoofing |}.

(** [sum + x], where [x] may be [undefined]. *)
Definition plus (sum : float) (x : option float) : float :=
  match x with
  | Some v => sum + v
  | None => nan
  end.

(** [captures.reduce((sum, cap) => sum + field(cap), 0) / captures.length] *)
Definition average (field : Capture -> option float) (captures : list Capture) : float :=
  fold_left (fun sum cap => plus sum (field cap)) captures 0
  / JsNum.of_nat (List.length captures).

Inductive SecurityLevel := HIGH | MEDIUM | LOW.
Inductive Recommendation := EXCELLENT | GOOD | RETRY.

(** The fields of [results] that decide what happens next, and whether
    [onFaceCapture] is called. *)
Record Results := mkResults {
  totalCaptures : nat;
  averageQuality : float;
  averageConfidence : float;
  livenessScore : float;
  antispoofingScore : float;
  securityLevel : SecurityLevel;
  recommendation : Recommendation;
  handedOver : bool }.

(** [performComprehensiveSmartphoneAnalysis(captures)] *)
Definition performComprehensiveSmartphoneAnalysis (captures : list Capture) : Results :=
  let avgQuality := average (fun cap => Some (quality cap)) captures in
  let avgConfidence := average (fun cap => Some (confidence cap)) captures in
  let avgLiveness := average (fun cap => score (a_liveness cap)) captures in
  let avgAntispoofing := average (fun cap => overallScore (a_antispoofing cap)) captures in
  let recommendation :=
    if JsNum.gtb avgQuality 70 && JsNum.gtb avgConfidence 0.8 && JsNum.gtb avgLiveness 0.7
    then EXCELLENT
    else if JsNum.gtb avgQuality 50 && JsNum.gtb avgConfidence 0.6
            && JsNum.gtb avgLiveness 0.5
    then GOOD else RETRY in
  {| totalCaptures := List.length captures;
     averageQuality := avgQuality;
     averageConfidence := avgConfidence * 100;
     livenessScore := avgLiveness * 100;
     antispoofingScore := avgAntispoofing * 100;
     securityLevel :=
       if JsNum.gtb avgAntispoofing 0.8 && JsNum.gtb avgLiveness 0.7 then HIGH
       else if JsNum.gtb avgAntispoofing 0.6 && JsNum.gtb avgLiveness 0.5 then MEDIUM
       else LOW;
     recommendation := recommendation;
     handedOver :=
       match recommendation with
       | EXCELLENT | GOOD => true
       | RETRY => false
       end |}.

End RealTimeFaceDetection.

(** * Predicates used in the statements *)

Module Spec.

(** The number of distinct strings in a list. *)
Definition distinct_count (l : list string) : nat := List.length (nodup string_dec l).

(** What every state of the modal that events can reach satisfies: one
    property per angle, every key one of the five angles, and every pending
    [toBlob] callback started for one of them. *)
Definition modal_inv (y : BiometricCapture.Sys) : Prop :=
  let o := BiometricCapture.capturedImages (BiometricCapture.st y) in
  NoDup (JsObject.keys o)
  /\ incl (JsObject.keys o) BiometricCapture.angles
  /\ Forall (fun c => In (BiometricCapture.bc_angle c) BiometricCapture.angles)
            (BiometricCapture.pendingBlobs y).

(** A registration that was started, and a payload that was handed over, for
    at least two stored angles, the "Center" one among them. *)
Definition reader_ok (c : BiometricCapture.ReaderClosure) : Prop :=
  BiometricCapture.rc_imageCount c = JsObject.size (BiometricCapture.rc_capturedImages c)
  /\ 2 <= BiometricCapture.rc_imageCount c
  /\ In "Center"%string (JsObject.keys (BiometricCapture.rc_capturedImages c)).
Definition payload_ok (p : BiometricCapture.Payload) : Prop :=
  BiometricCapture.total_angles p = List.length (BiometricCapture.angles_registered p)
  /\ 2 <= BiometricCapture.total_angles p
  /\ In "Center"%string (BiometricCapture.angles_registered p).
Definition submit_inv (y : BiometricCapture.Sys) : Prop :=
  Forall reader_ok (BiometricCapture.pendingReaders y)
  /\ Forall payload_ok (BiometricCapture.emitted y).

(** A double, in the form the specification of the primitive operations
    uses, is [NaN] or has the sign [s]. *)
Definition signed (s : bool) (x : spec_float) : Prop :=
  match x with
  | S754_nan => True
  | S754_zero s' | S754_infinity s' | S754_finite s' _ _ => s' = s
  end.

(** The double [1]: mantissa [2^52], exponent [-52]. *)
Definition one_sf : spec_float := S754_finite false 4503599627370496 (-52).

(** A double that is neither [NaN] nor an infinity; one that is finite and
    greater than zero; and the same for a JavaScript number
    ([Number.isFinite]). *)
Definition finite_sf (x : spec_float) : Prop :=
  match x with
  | S754_zero _ | S754_finite _ _ _ => True
  | _ => False
  end.
Definition positive_sf (x : spec_float) : Prop :=
  match x with
  | S754_finite false _ _ => True
  | _ => False
  end.
Definition finite_number (x : float) : Prop :=
  is_nan x = false /\ is_infinity x = false.

(** [x] is a number of the interval [[0, 1]]. *)
Definition in_unit_interval (x : float) : Prop :=
  (0 <=? x)%float = true /\ (x <=? 1)%float = true.

(** [x] is [NaN] or a number of the interval [[0, 1]]. *)
Definition unit_or_nan (x : float) : Prop :=
  is_nan x = true \/ in_unit_interval x.

(** A video element from which a frame can be taken. *)
Definition frame_ready (v : AdvancedBiometricCapture.Video) : Prop :=
  AdvancedBiometricCapture.readyState v = 4%Z
  /\ AdvancedBiometricCapture.videoWidth v <> 0%Z
  /\ AdvancedBiometricCapture.videoHeight v <> 0%Z.

(** Whether a reply of [process-frame] ends the session: a successful body
    with [session_complete] set. *)
Definition completes (reply : AdvancedBiometricCapture.Reply) : bool :=
  match reply with
  | AdvancedBiometricCapture.Ok result =>
      AdvancedBiometricCapture.r_success result
      && AdvancedBiometricCapture.r_session_complete result
  | _ => false
  end.

(** Whether a string contains a comma. *)
Fixpoint has_comma (s : string) : bool :=
  match s with
  | EmptyString => false
  | String c r => Ascii.eqb c "," || has_comma r
  end.

(** At most one [FileReader] of the modal is at work, and [isRegistering] is
    set while it is. *)
Definition registering_inv (y : BiometricCapture.Sys) : Prop :=
  List.length (BiometricCapture.pendingReaders y) <= 1
  /\ (BiometricCapture.pendingReaders y <> [] ->
      BiometricCapture.isRegistering (BiometricCapture.st y) = true).

(** [Object.keys] after the assignments [o[k] = ...] for the keys [ks], in
    order, starting from the keys [acc]. *)
Definition assign_keys (ks acc : list string) : list string :=
  fold_left (fun acc k => if existsb (String.eqb k) acc then acc else acc ++ [k]) ks acc.

(** The stored [angle] values of the guided flow, in step order. *)
Definition labels : list string :=
  map BasicBiometricCapture.label BasicBiometricCapture.angles.

(** What every state of the guided flow that events can reach satisfies: the
    stored captures are those of the first steps, in order; at most one timer
    or request is pending and the capture button is disabled meanwhile; and
    [currentAngle] is the number of captures, except between a capture and its
    timer. *)
Definition guided_inv (y : BasicBiometricCapture.Sys) : Prop :=
  let s := BasicBiometricCapture.st y in
  let n := List.length (BasicBiometricCapture.capturedImages s) in
  let cur := BasicBiometricCapture.currentAngle s in
  map BasicBiometricCapture.angle (BasicBiometricCapture.capturedImages s) = firstn n labels
  /\ n <= 5
  /\ List.length (BasicBiometricCapture.timers y)
     + List.length (BasicBiometricCapture.requests y) <= 1
  /\ (List.length (BasicBiometricCapture.timers y)
      + List.length (BasicBiometricCapture.requests y) = 1 ->
      BasicBiometricCapture.isCapturing s = true)
  /\ match BasicBiometricCapture.timers y with
     | [] => (cur = n /\ n <= 4) \/ (n = 5 /\ cur = 4)
     | c :: _ =>
         (BasicBiometricCapture.c_currentAngle c = cur /\ n = cur + 1 /\ cur <= 4)
         \/ (BasicBiometricCapture.c_currentAngle c = 4 /\ n = 0 /\ cur = 0)
     end.

End Spec.

(** * Scenarios: event sequences against the freshly mounted modal *)

Module Scenario.
Import BiometricCapture.

(** The camera is granted and the video starts playing. *)
Definition ready : list Event := [MediaResolved 1; LoadedMetadata true].

(** A click on an angle box and the encoded frame that follows it. *)
Definition capture (angle : string) (now : Z) : list Event :=
  [ClickAngle angle 640 480; BlobReady 0 (Some "jpeg"%string) ("blob:" ++ angle)%string now].

Definition left_and_right : list Event :=
  ready ++ capture "Left" 1000 ++ capture "Right" 2000.

Definition center_and_left : list Event :=
  ready ++ capture "Center" 1000 ++ capture "Left" 2000.

(** The camera is stopped while a frame is still being encoded. *)
Definition stop_while_encoding : list Event :=
  ready ++ [ClickAngle "Center" 640 480; ClickStopCamera].

(** A frame of the guided flow: a 2 x 2 uniform gray image. *)
Definition gray2x2 : ImageData.t :=
  {| ImageData.width := 2; ImageData.height := 2;
     ImageData.data := [128; 128; 128; 255; 128; 128; 128; 255;
                        128; 128; 128; 255; 128; 128; 128; 255]%Z |}.
Definition frame : BasicBiometricCapture.Frame :=
  {| BasicBiometricCapture.pixels := gray2x2;
     BasicBiometricCapture.dataUrl := "data:image/jpeg;base64,AAAA" |}.

(** A capture click of the guided flow and the timer that follows it. *)
Definition guided_capture (now : Z) : list BasicBiometricCapture.Event :=
  [BasicBiometricCapture.ClickCapture frame now; BasicBiometricCapture.TimerFires].

End Scenario.

(** * Properties *)

(** ** Ordered dictionaries *)

Module JsObjectFacts.
Import JsObject.

Section Facts.
Context {V : Type}.
Implicit Types (o : JsObject.t V) (k : string) (v : V).

Lemma get_set_same o k v : get k (set k v o) = Some v.
Proof.
  induction o as [|[k' v'] o IH]; simpl.
  - now rewrite String.eqb_refl.
  - destruct (String.eqb k' k) eqn:E; simpl.
    + now rewrite String.eqb_refl.
    + now rewrite E.
Qed.

Lemma get_set_other o k k' v : k <> k' -> get k' (set k v o) = get k' o.
Proof.
  intros Hne. induction o as [|[k0 v0] o IH]; simpl.
  - destruct (String.eqb_spec k k'); congruence.
  - destruct (String.eqb_spec k0 k) as [->|Hk]; simpl.
    + destruct (String.eqb_spec k k'); congruence.
    + now rewrite IH.
Qed.

Lemma get_None_keys o k : get k o = None <-> ~ In k (keys o).
Proof.
  induction o as [|[k' v'] o IH]; simpl.
  - tauto.
  - destruct (String.eqb_spec k' k) as [->|Hk].
    + split; [discriminate | intros H; exfalso; apply H; now left].
    + rewrite IH. intuition congruence.
Qed.

Lemma has_keys o k : has k o = true <-> In k (keys o).
Proof.
  unfold has. destruct (get k o) eqn:E.
  - split; [intros _ | reflexivity].
    destruct (in_dec string_dec k (keys o)) as [H|H]; [exact H|].
    apply get_None_keys in H. congruence.
  - split; [discriminate|]. intros H. apply get_None_keys in E. contradiction.
Qed.

Lemma keys_set_present o k v : In k (keys o) -> keys (set k v o) = keys o.
Proof.
  induction o as [|[k' v'] o IH]; simpl; [tauto|].
  intros H. destruct (String.eqb_spec k' k) as [->|Hk]; simpl; [reflexivity|].
  f_equal. apply IH. destruct H; congruence.
Qed.

Lemma keys_set_absent o k v : ~ In k (keys o) -> keys (set k v o) = keys o ++ [k].
Proof.
  induction o as [|[k' v'] o IH]; simpl; [reflexivity|].
  intros H. destruct (String.eqb_spec k' k) as [->|Hk]; simpl.
  - exfalso. apply H. now left.
  - f_equal. apply IH. tauto.
Qed.

Lemma keys_set_incl o k v : incl (keys (set k v o)) (k :: keys o).
Proof.
  destruct (in_dec string_dec k (keys o)) as [H|H].
  - rewrite keys_set_present by assumption. apply incl_tl, incl_refl.
  - rewrite keys_set_absent by assumption.
    intros x Hx. apply in_app_or in Hx. simpl in *. tauto.
Qed.

Lemma NoDup_keys_set o k v : NoDup (keys o) -> NoDup (keys (set k v o)).
Proof.
  intros Hnd. destruct (in_dec string_dec k (keys o)) as [H|H].
  - now rewrite keys_set_present.
  - rewrite keys_set_absent by assumption.
    apply NoDup_app; [assumption | repeat constructor; simpl; tauto |].
    intros x Hx [<-|[]]. contradiction.
Qed.

Lemma size_set_present o k v : has k o = true -> size (set k v o) = size o.
Proof. intros H. unfold size. rewrite keys_set_present; [reflexivity | now apply has_keys]. Qed.

Lemma size_set_absent o k v : has k o = false -> size (set k v o) = S (size o).
Proof.
  intros H. unfold size. rewrite keys_set_absent.
  - rewrite length_app. simpl. lia.
  - intros Hin. apply has_keys in Hin. congruence.
Qed.

Lemma keys_delete o k :
  keys (delete k o) = filter (fun x => negb (String.eqb x k)) (keys o).
Proof.
  unfold delete, keys. induction o as [|[k' v'] o IH]; simpl; [reflexivity|].
  destruct (String.eqb k' k); simpl; now rewrite IH.
Qed.

Lemma get_delete_same o k : get k (delete k o) = None.
Proof.
  apply get_None_keys. rewrite keys_delete. intros H.
  apply filter_In in H. destruct H as [_ H]. now rewrite String.eqb_refl in H.
Qed.

Lemma get_delete_other o k k' : k <> k' -> get k' (delete k o) = get k' o.
Proof.
  intros Hne. unfold delete. induction o as [|[k0 v0] o IH]; simpl; [reflexivity|].
  destruct (String.eqb_spec k0 k) as [->|Hk]; simpl.
  - destruct (String.eqb_spec k k'); congruence.
  - now rewrite IH.
Qed.

Lemma NoDup_keys_delete o k : NoDup (keys o) -> NoDup (keys (delete k o)).
Proof. intros H. rewrite keys_delete. now apply NoDup_filter. Qed.

Lemma keys_delete_incl o k : incl (keys (delete k o)) (keys o).
Proof. rewrite keys_delete. apply incl_filter. Qed.

End Facts.
End JsObjectFacts.

(** ** The capture modal ([BiometricCapture.jsx]) *)

Module BiometricCaptureFacts.
Import BiometricCapture.

Lemma blobs_of_revoke_of a o : blobs_of (revoke_of a o) = [].
Proof. unfold revoke_of. destruct (JsObject.get a o); [destruct (truthy_string _)|]; reflexivity. Qed.

Lemma blobs_of_app e1 e2 : blobs_of (e1 ++ e2) = blobs_of e1 ++ blobs_of e2.
Proof. unfold blobs_of. apply flat_map_app. Qed.

Lemma blobs_of_revoke_all o : blobs_of (revoke_all o) = [].
Proof.
  unfold revoke_all. induction (JsObject.values o) as [|c l IH]; [reflexivity|].
  cbn [flat_map]. rewrite blobs_of_app, IH. destruct (truthy_string _); reflexivity.
Qed.

Lemma Forall_remove_nth {A} (P : A -> Prop) i (l : list A) :
  Forall P l -> Forall P (remove_nth i l).
Proof.
  intros H. revert i. induction H as [|x l Hx Hl IH]; intros [|i]; simpl; auto.
Qed.

Lemma in_angles_iff a : existsb (String.eqb a) angles = true <-> In a angles.
Proof.
  rewrite existsb_exists. split.
  - intros [x [Hx E]]. apply String.eqb_eq in E. now subst.
  - intros H. exists a. split; [assumption | apply String.eqb_refl].
Qed.

Lemma modal_mount_inv : Spec.modal_inv mount.
Proof. repeat split; simpl; [constructor | intros x [] | constructor]. Qed.

Ltac red_sys :=
  cbn [absorb snd fst st pendingBlobs capturedImages blobs_of flat_map app
       set_stream set_capturedImages set_isRegistering set_cameraError set_isVideoReady];
  rewrite ?app_nil_r.

Lemma modal_step_inv employeeId e y : Spec.modal_inv y -> Spec.modal_inv (step employeeId e y).
Proof.
  intros (Hnd & Hin & Hp). unfold Spec.modal_inv.
  destruct e; cbn [step].
  - destruct (_ || _); unfold startCamera; red_sys; auto.
  - unfold stopCamera. destruct (_ && _); [|auto].
    destruct (stream (st y)); red_sys; auto.
  - destruct (streaming (st y)); [|auto]. unfold retakeAll, startCamera.
    cbn [absorb snd fst st pendingBlobs capturedImages
         set_stream set_capturedImages set_isRegistering set_cameraError set_isVideoReady].
    rewrite blobs_of_app, blobs_of_revoke_all. red_sys.
    repeat split; [constructor | intros x [] | assumption].
  - destruct (existsb (String.eqb angle) angles && isVideoReady (st y)) eqn:E; [|auto].
    apply andb_prop in E. destruct E as [Ea _]. apply in_angles_iff in Ea.
    unfold captureImage.
    destruct (_ || _ || _); red_sys; auto.
    destruct (_ || _); red_sys; auto.
    repeat split; auto. apply Forall_app. split; [assumption|]. constructor; [exact Ea | constructor].
  - destruct (_ && _); [|auto]. unfold removeImage.
    cbn [absorb snd fst st pendingBlobs capturedImages set_capturedImages].
    rewrite blobs_of_revoke_of, app_nil_r.
    repeat split; [now apply JsObjectFacts.NoDup_keys_delete | | assumption].
    eapply incl_tran; [apply JsObjectFacts.keys_delete_incl | assumption].
  - destruct (_ && _); [|auto]. unfold registerBiometric.
    destruct (_ || _); red_sys; auto.
    destruct (JsObject.get _ _); [destruct employeeId|]; red_sys; auto.
  - unfold handleClose, stopCamera. destruct (stream (st y));
      cbn [absorb snd fst st pendingBlobs capturedImages set_isVideoReady set_stream];
      rewrite ?blobs_of_app, blobs_of_revoke_all; red_sys; auto.
  - destruct (pendingMedia y); unfold startCamera_resolved; red_sys; auto.
  - destruct (pendingMedia y); unfold startCamera_rejected; red_sys; auto.
  - destruct (streaming (st y)); [|auto]. unfold handleLoadedMetadata.
    destruct playOk; red_sys; auto.
  - destruct (nth_error (pendingBlobs y) i) as [c|] eqn:E; [|auto].
    assert (Hc : In (bc_angle c) angles).
    { apply nth_error_In in E. rewrite Forall_forall in Hp. now apply Hp. }
    unfold blobCallback. destruct b as [bl|];
      cbn [absorb snd fst st pendingBlobs set_cameraError set_capturedImages capturedImages].
    + rewrite blobs_of_app, blobs_of_revoke_of.
      assert (Hb : forall (c0 : bool) x, blobs_of (if c0 then [SetTimeout500 x] else []) = [])
        by (intros [|] ?; reflexivity).
      rewrite Hb. cbn [app]. rewrite app_nil_r.
      repeat split; [now apply JsObjectFacts.NoDup_keys_set | | now apply Forall_remove_nth].
      eapply incl_tran; [apply JsObjectFacts.keys_set_incl|].
      intros x [<-|Hx]; auto.
    + red_sys. repeat split; auto. now apply Forall_remove_nth.
  - destruct (nth_error (pendingStops y) i) as [c|]; [|auto].
    unfold autoStop. destruct c; red_sys; auto.
  - destruct (mountTimer y) as [[cs ce]|]; [|auto]. unfold cameraTimeout.
    destruct cs; [|destruct (truthy_string ce)]; red_sys; auto.
  - destruct (nth_error (pendingReaders y) i) as [c|]; [|auto].
    unfold readerOnload. red_sys. auto.
Qed.

Lemma modal_run_inv employeeId es y : Spec.modal_inv y -> Spec.modal_inv (run employeeId es y).
Proof.
  unfold run. revert y. induction es as [|e es IH]; simpl; intros y H; [assumption|].
  apply IH. now apply modal_step_inv.
Qed.

End BiometricCaptureFacts.

(** ** The guided flow ([BasicBiometricCapture.jsx]) *)

Module BasicFacts.
Import BasicBiometricCapture.

Lemma labels_eq :
  Spec.labels = ["frontal"; "left_profile"; "right_profile"; "up_angle"; "down_angle"]%string.
Proof. reflexivity. Qed.

Lemma NoDup_labels : NoDup Spec.labels.
Proof.
  rewrite labels_eq.
  repeat (constructor; [simpl; intuition discriminate|]). constructor.
Qed.

Lemma firstn_snoc {A} (l : list A) n x :
  nth_error l n = Some x -> firstn (S n) l = firstn n l ++ [x].
Proof.
  revert n. induction l as [|a l IH]; intros [|n] H; simpl in *; try discriminate.
  - now inversion H.
  - f_equal. now apply IH.
Qed.

Lemma In_firstn {A} (l : list A) n x : In x (firstn n l) -> In x l.
Proof.
  revert n. induction l as [|a l IH]; intros [|n]; simpl; try tauto.
  intros [H|H]; [now left | right; eauto].
Qed.

Lemma NoDup_firstn {A} (l : list A) n : NoDup l -> NoDup (firstn n l).
Proof.
  intros H. revert n. induction H as [|x l Hx Hl IH]; intros [|n]; simpl; try constructor.
  - intros Hin. apply Hx. eapply In_firstn; eauto.
  - apply IH.
Qed.

Lemma angle_at n : n <= 4 -> exists name, nth_error angles n = Some name.
Proof.
  intros H. do 5 (destruct n as [|n]; [eexists; reflexivity|]). lia.
Qed.

Ltac red_guided :=
  cbn [absorb snd fst st timers requests capturedImages currentAngle isCapturing
       set_stream set_capturedImages set_currentAngle set_isCapturing
       flat_map app List.length closure_of c_currentAngle];
  rewrite ?app_nil_r.

Lemma guided_mount_inv : Spec.guided_inv mount.
Proof. unfold Spec.guided_inv; cbn. repeat split; auto; lia. Qed.

Lemma guided_step_inv employeeId e y :
  Spec.guided_inv y -> Spec.guided_inv (step employeeId e y).
Proof.
  intros Hinv. pose proof Hinv as (Hm & Hn & Hc & Hb & Ht).
  cbv zeta in Hm, Hn, Hc, Hb, Ht.
  destruct e; cbn [step].
  - (* ClickCapture *)
    destruct (isCapturing (st y)) eqn:Eis; [exact Hinv|]. cbn [orb].
    destruct (5 <=? List.length (capturedImages (st y)))%nat eqn:E5; [exact Hinv|].
    apply Nat.leb_gt in E5.
    assert (Hnone : List.length (timers y) + List.length (requests y) = 0).
    { destruct (Nat.eq_dec (List.length (timers y) + List.length (requests y)) 1) as [H1|H1];
        [apply Hb in H1; try rewrite Eis in H1; discriminate | lia]. }
    destruct (timers y) as [|c0 ts] eqn:Et; [|cbn in Hnone; lia].
    destruct (requests y) as [|r0 rs] eqn:Er; [|cbn in Hnone; lia].
    destruct Ht as [[Hcur H4]|[H5 _]]; [|lia].
    unfold captureImage.
    assert (E5' : (5 <=? List.length (capturedImages (st y)))%nat = false) by (apply Nat.leb_gt; lia).
    rewrite E5'.
    destruct (_ || _)%Z.
    { unfold Spec.guided_inv. red_guided. rewrite ?Et, ?Er. cbn [List.length app].
      repeat split; auto; lia. }
    destruct (angle_at (currentAngle (st y))) as [name Hname]; [lia|]. rewrite Hname.
    unfold Spec.guided_inv. red_guided. rewrite Et, Er. cbn [app List.length].
    unfold slice5. rewrite firstn_all2 by (rewrite length_app; cbn; lia).
    rewrite length_app, map_app. cbn [List.length map angle].
    replace (List.length (capturedImages (st y)) + 1) with
      (S (List.length (capturedImages (st y)))) by lia.
    rewrite (firstn_snoc Spec.labels _ (label name)).
    + rewrite Hm. repeat split; auto; try lia. left. cbn. lia.
    + unfold Spec.labels. rewrite <- Hcur. now apply map_nth_error.
  - (* TimerFires *)
    destruct (timers y) as [|c ts] eqn:Et; [exact Hinv|].
    cbn [List.length] in Hc, Hb.
    assert (ts = []) by (destruct ts; [reflexivity | cbn in Hc; lia]). subst ts.
    assert (Er : requests y = []) by (destruct (requests y); [reflexivity | cbn in Hc; lia]).
    unfold timerCallback. cbn [List.length angles Nat.sub].
    destruct (c_currentAngle c <? 4)%nat eqn:E4.
    + apply Nat.ltb_lt in E4. unfold Spec.guided_inv. red_guided. rewrite Er. cbn [List.length].
      destruct Ht as [(H1 & H2 & H3)|(H1 & _)]; [|lia].
      repeat split; auto; try lia.
    + apply Nat.ltb_ge in E4. unfold completeCapture, Spec.guided_inv. red_guided.
      rewrite Er. cbn [List.length app].
      destruct Ht as [(H1 & H2 & H3)|(H1 & H2 & H3)]; repeat split; auto; try lia.
  - (* ClickRecapture *)
    destruct (5 <=? List.length (capturedImages (st y)))%nat eqn:E5; [|exact Hinv].
    apply Nat.leb_le in E5. unfold recapture, Spec.guided_inv. red_guided.
    destruct (timers y) as [|c ts]; [repeat split; auto; lia|].
    destruct Ht as [(H1 & H2 & H3)|(H1 & H2 & H3)]; repeat split; auto; try lia.
  - (* ClickRegister *)
    destruct (_ && _) eqn:E; [|exact Hinv].
    apply andb_prop in E. destruct E as [E5 Eis].
    apply Nat.leb_le in E5. apply negb_true_iff in Eis.
    assert (Hnone : List.length (timers y) + List.length (requests y) = 0).
    { destruct (Nat.eq_dec (List.length (timers y) + List.length (requests y)) 1) as [H1|H1];
        [apply Hb in H1; try rewrite Eis in H1; discriminate | lia]. }
    destruct (timers y) as [|c0 ts] eqn:Et; [|cbn in Hnone; lia].
    destruct (requests y) as [|r0 rs] eqn:Er; [|cbn in Hnone; lia].
    unfold completeCapture, Spec.guided_inv. red_guided. rewrite Et, Er. cbn [List.length app].
    repeat split; auto; lia.
  - (* FetchDone *)
    destruct (requests y) as [|c rs] eqn:Er; [exact Hinv|].
    assert (Et : timers y = []) by (destruct (timers y); [reflexivity | cbn in Hc; lia]).
    assert (rs = []) by (destruct rs; [reflexivity | rewrite Et in Hc; cbn in Hc; lia]). subst rs.
    rewrite Et in Ht.
    unfold completeCapture_done, Spec.guided_inv.
    destruct r as [|[|] [|]]; red_guided; rewrite Et; cbn [List.length app];
      repeat split; auto; lia.
Qed.

Lemma guided_run_inv employeeId es y : Spec.guided_inv y -> Spec.guided_inv (run employeeId es y).
Proof.
  unfold run. revert y. induction es as [|e es IH]; simpl; intros y H; [assumption|].
  apply IH. now apply guided_step_inv.
Qed.

End BasicFacts.

(** ** Registration payloads of the modal *)

Module RegistrationFacts.
Import BiometricCapture.

Lemma readers_of_app e1 e2 : readers_of (e1 ++ e2) = readers_of e1 ++ readers_of e2.
Proof. apply flat_map_app. Qed.
Lemma payloads_of_app e1 e2 : payloads_of (e1 ++ e2) = payloads_of e1 ++ payloads_of e2.
Proof. apply flat_map_app. Qed.

Lemma quiet_revoke_of a o :
  readers_of (revoke_of a o) = [] /\ payloads_of (revoke_of a o) = [].
Proof. unfold revoke_of. destruct (JsObject.get a o); [destruct (truthy_string _)|]; now split. Qed.

Lemma quiet_revoke_all o :
  readers_of (revoke_all o) = [] /\ payloads_of (revoke_all o) = [].
Proof.
  unfold revoke_all. induction (JsObject.values o) as [|c l [IH1 IH2]]; [now split|].
  cbn [flat_map]. rewrite readers_of_app, payloads_of_app, IH1, IH2.
  destruct (truthy_string _); now split.
Qed.

(** A handler result that starts no registration and hands over no payload
    keeps the invariant. *)
Lemma quiet_absorb y r :
  readers_of (snd r) = [] -> payloads_of (snd r) = [] ->
  Spec.submit_inv y -> Spec.submit_inv (absorb y r).
Proof.
  intros Hr Hp [H1 H2]. unfold Spec.submit_inv, emitted. cbn [absorb pendingReaders log].
  now rewrite payloads_of_app, Hr, Hp, !app_nil_r.
Qed.

Lemma registerBiometric_readers employeeId s :
  Forall Spec.reader_ok (readers_of (snd (registerBiometric employeeId s)))
  /\ payloads_of (snd (registerBiometric employeeId s)) = [].
Proof.
  unfold registerBiometric.
  destruct (JsObject.size (capturedImages s) <? 2)%nat eqn:E2; cbn [orb]; [now split|].
  destruct (negb (truthy_string employeeId)); [now split|].
  destruct (JsObject.get "Center" (capturedImages s)) as [c|] eqn:Ec; [|now split].
  destruct employeeId as [eid|]; [|now split].
  split; [|reflexivity]. cbn. constructor; [|constructor].
  apply Nat.ltb_ge in E2. repeat split; cbn; auto.
  apply JsObjectFacts.has_keys. unfold JsObject.has. now rewrite Ec.
Qed.

Lemma readerOnload_payload c result now s :
  Spec.reader_ok c ->
  readers_of (snd (readerOnload c result now s)) = []
  /\ Forall Spec.payload_ok (payloads_of (snd (readerOnload c result now s))).
Proof.
  intros (H1 & H2 & H3). split; [reflexivity|]. cbn. constructor; [|constructor].
  unfold Spec.payload_ok; cbn. repeat split; auto.
Qed.

Lemma mount_submit_inv : Spec.submit_inv mount.
Proof. split; constructor. Qed.

Lemma step_submit_inv employeeId e y :
  Spec.submit_inv y -> Spec.submit_inv (step employeeId e y).
Proof.
  intros Hinv. destruct e; cbn [step].
  - destruct (_ || _); [apply quiet_absorb|]; auto.
  - destruct (_ && _); [apply quiet_absorb|]; auto;
      unfold stopCamera; destruct (stream (st y)); reflexivity.
  - destruct (streaming (st y)); [apply quiet_absorb|]; auto;
      unfold retakeAll, startCamera; cbn [snd];
      rewrite ?readers_of_app, ?payloads_of_app;
      destruct (quiet_revoke_all (capturedImages (st y))) as [Hq1 Hq2]; rewrite ?Hq1, ?Hq2; reflexivity.
  - destruct (_ && _); [apply quiet_absorb|]; auto;
      (unfold captureImage; destruct (_ || _ || _); [reflexivity|];
       destruct (_ || _); reflexivity).
  - destruct (_ && _); [apply quiet_absorb|]; auto; unfold removeImage; cbn [snd];
      apply quiet_revoke_of.
  - destruct (_ && _); [|assumption].
    destruct (registerBiometric_readers employeeId (st y)) as [Hr Hp].
    destruct Hinv as [H1 H2]. unfold Spec.submit_inv, emitted. cbn [absorb pendingReaders log].
    rewrite payloads_of_app, Hp, app_nil_r. split; [|assumption].
    apply Forall_app. now split.
  - apply quiet_absorb; auto; unfold handleClose, stopCamera;
      destruct (stream (st y)); cbn [snd];
      rewrite ?readers_of_app, ?payloads_of_app;
      destruct (quiet_revoke_all (capturedImages (st y))) as [Hq1 Hq2]; rewrite ?Hq1, ?Hq2; reflexivity.
  - destruct (pendingMedia y); [assumption|]. now apply quiet_absorb.
  - destruct (pendingMedia y); [assumption|]. now apply quiet_absorb.
  - destruct (streaming (st y)); [now apply quiet_absorb | assumption].
  - destruct (nth_error (pendingBlobs y) i) as [c|]; [|assumption].
    apply quiet_absorb; auto; unfold blobCallback; destruct b; try reflexivity; cbn [snd];
      rewrite ?readers_of_app, ?payloads_of_app;
      destruct (quiet_revoke_of (bc_angle c) (bc_capturedImages c)) as [Hq1 Hq2];
      rewrite ?Hq1, ?Hq2; destruct (_ =? _)%nat; reflexivity.
  - destruct (nth_error (pendingStops y) i) as [c|]; [|assumption].
    apply quiet_absorb; auto; unfold autoStop; destruct c; reflexivity.
  - destruct (mountTimer y) as [[cs ce]|]; [|assumption]. now apply quiet_absorb.
  - destruct (nth_error (pendingReaders y) i) as [c|] eqn:E; [|assumption].
    destruct Hinv as [H1 H2].
    assert (Hc : Spec.reader_ok c).
    { apply nth_error_In in E. rewrite Forall_forall in H1. now apply H1. }
    destruct (readerOnload_payload c result now (st y) Hc) as [Hr Hp].
    unfold Spec.submit_inv, emitted. cbn [absorb pendingReaders log].
    rewrite payloads_of_app, Hr, app_nil_r. split.
    + now apply BiometricCaptureFacts.Forall_remove_nth.
    + apply Forall_app. now split.
Qed.

Lemma run_submit_inv employeeId es y :
  Spec.submit_inv y -> Spec.submit_inv (run employeeId es y).
Proof.
  unfold run. revert y. induction es as [|e es IH]; simpl; intros y H; [assumption|].
  apply IH. now apply step_submit_inv.
Qed.

End RegistrationFacts.

(** * The claims *)

(** C1. A capture session stores at most one capture per angle label, so the
    number of stored captures never exceeds the number of required angle
    labels, and a capture accepted for an angle that already has one replaces
    it.  In the modal, after every sequence of events the keys of
    [capturedImages] are pairwise distinct and at most five, and the [toBlob]
    callback for a stored angle keeps the keys and puts the new capture under
    that angle; in the guided flow, after every sequence of events the stored
    [angle] values are pairwise distinct and at most five. *)
Theorem C1_one_capture_per_angle :
  (forall employeeId es,
     let o := BiometricCapture.capturedImages
                (BiometricCapture.st
                   (BiometricCapture.run employeeId es BiometricCapture.mount)) in
     NoDup (JsObject.keys o)
     /\ JsObject.size o <= List.length BiometricCapture.angles)
  /\ (forall c b imageUrl now s,
        JsObject.has (BiometricCapture.bc_angle c) (BiometricCapture.capturedImages s) = true ->
        let o' := BiometricCapture.capturedImages
                    (fst (BiometricCapture.blobCallback c (Some b) imageUrl now s)) in
        JsObject.keys o' = JsObject.keys (BiometricCapture.capturedImages s)
        /\ JsObject.get (BiometricCapture.bc_angle c) o'
           = Some (BiometricCapture.mkCapture b imageUrl now))
  /\ (forall employeeId es,
        let l := BasicBiometricCapture.capturedImages
                   (BasicBiometricCapture.st
                      (BasicBiometricCapture.run employeeId es BasicBiometricCapture.mount)) in
        NoDup (map BasicBiometricCapture.angle l)
        /\ List.length l <= List.length BasicBiometricCapture.angles).
Proof.
  split; [|split].
  - intros employeeId es o.
    destruct (BiometricCaptureFacts.modal_run_inv employeeId es _ BiometricCaptureFacts.modal_mount_inv)
      as (Hnd & Hin & _).
    split; [exact Hnd|]. unfold JsObject.size. now apply NoDup_incl_length.
  - intros c b imageUrl now s Hhas o'. subst o'. cbn. split.
    + apply JsObjectFacts.keys_set_present. now apply JsObjectFacts.has_keys.
    + apply JsObjectFacts.get_set_same.
  - intros employeeId es l.
    destruct (BasicFacts.guided_run_inv employeeId es _ BasicFacts.guided_mount_inv) as (Hm & Hn & _).
    cbv zeta in Hm, Hn. fold l in Hm, Hn. split; [|exact Hn].
    rewrite Hm. apply BasicFacts.NoDup_firstn, BasicFacts.NoDup_labels.
Qed.

Lemma C1_witness :
  let s := BiometricCapture.st
             (BiometricCapture.run None Scenario.center_and_left BiometricCapture.mount) in
  let c := BiometricCapture.mkBlobClosure "Left" (BiometricCapture.capturedImages s)
             (BiometricCapture.stream s) in
  JsObject.keys
    (BiometricCapture.capturedImages
       (fst (BiometricCapture.blobCallback c (Some "again"%string) "blob:2" 3000 s)))
  = ["Center"; "Left"]%string.
Proof.
  intros s c.
  pose proof (proj1 (proj2 C1_one_capture_per_angle) c "again"%string "blob:2"%string
                3000%Z s eq_refl) as H.
  cbv zeta in H. destruct H as [Hk _]. etransitivity; [exact Hk | reflexivity].
Defined.

(** C2. The completion test is true exactly when the number of distinct
    stored angles reaches the minimum of the flow: two for the modal's
    [canRegister], five for the guided flow's [capturedImages.length >= 5];
    in the guided flow a capture that is stored makes the test true exactly
    when it is the fifth, and the test is false before it. *)
Theorem C2_completion_predicate :
  (forall employeeId es,
     let s := BiometricCapture.st
                (BiometricCapture.run employeeId es BiometricCapture.mount) in
     BiometricCapture.canRegister s = true
     <-> 2 <= Spec.distinct_count (JsObject.keys (BiometricCapture.capturedImages s)))
  /\ (forall employeeId es,
        let s := BasicBiometricCapture.st
                   (BasicBiometricCapture.run employeeId es BasicBiometricCapture.mount) in
        BasicBiometricCapture.isComplete s = true
        <-> 5 <= Spec.distinct_count
                   (map BasicBiometricCapture.angle (BasicBiometricCapture.capturedImages s)))
  /\ (forall employeeId es f now,
        let y := BasicBiometricCapture.run employeeId es BasicBiometricCapture.mount in
        let y' := BasicBiometricCapture.step employeeId
                    (BasicBiometricCapture.ClickCapture f now) y in
        let n := List.length (BasicBiometricCapture.capturedImages (BasicBiometricCapture.st y)) in
        List.length (BasicBiometricCapture.capturedImages (BasicBiometricCapture.st y')) = S n ->
        BasicBiometricCapture.isComplete (BasicBiometricCapture.st y) = false
        /\ (BasicBiometricCapture.isComplete (BasicBiometricCapture.st y') = true <-> n = 4)).
Proof.
  split; [|split].
  - intros employeeId es s.
    destruct (BiometricCaptureFacts.modal_run_inv employeeId es _ BiometricCaptureFacts.modal_mount_inv)
      as (Hnd & _). fold s in Hnd.
    unfold Spec.distinct_count. rewrite (nodup_fixed_point string_dec Hnd).
    unfold BiometricCapture.canRegister, BiometricCapture.capturedCount, JsObject.size.
    apply Nat.leb_le.
  - intros employeeId es s.
    assert (Hnd : NoDup (map BasicBiometricCapture.angle
                           (BasicBiometricCapture.capturedImages s))).
    { destruct (BasicFacts.guided_run_inv employeeId es _ BasicFacts.guided_mount_inv)
        as (Hm & _). cbv zeta in Hm. fold s in Hm.
      rewrite Hm. apply BasicFacts.NoDup_firstn, BasicFacts.NoDup_labels. }
    unfold Spec.distinct_count. rewrite (nodup_fixed_point string_dec Hnd).
    rewrite length_map. unfold BasicBiometricCapture.isComplete. apply Nat.leb_le.
  - intros employeeId es f now y y' n Hlen.
    pose proof (BasicFacts.guided_run_inv employeeId es _ BasicFacts.guided_mount_inv) as (_ & Hn & _).
    fold y in Hn. cbv zeta in Hn. fold n in Hn.
    unfold BasicBiometricCapture.isComplete. rewrite Hlen. fold n.
    assert (Hlt : n < 5).
    { destruct (Nat.lt_ge_cases n 5) as [Hlt|Hge]; [exact Hlt|]. exfalso.
      subst y'. cbn [BasicBiometricCapture.step] in Hlen.
      assert (E : (5 <=? List.length
                     (BasicBiometricCapture.capturedImages (BasicBiometricCapture.st y)))%nat
                  = true) by (apply Nat.leb_le; exact Hge).
      rewrite E, orb_true_r in Hlen. fold n in Hlen. lia. }
    split.
    + apply Nat.leb_gt. exact Hlt.
    + rewrite Nat.leb_le. lia.
Qed.

Lemma C2_witness :
  let y := BasicBiometricCapture.run "E1"
             (Scenario.guided_capture 1 ++ Scenario.guided_capture 2
              ++ Scenario.guided_capture 3 ++ Scenario.guided_capture 4)
             BasicBiometricCapture.mount in
  let y' := BasicBiometricCapture.step "E1"
              (BasicBiometricCapture.ClickCapture Scenario.frame 5) y in
  BasicBiometricCapture.isComplete (BasicBiometricCapture.st y) = false
  /\ BasicBiometricCapture.isComplete (BasicBiometricCapture.st y') = true.
Proof.
  intros y y'.
  destruct (proj2 (proj2 C2_completion_predicate) "E1"%string
              (Scenario.guided_capture 1 ++ Scenario.guided_capture 2
               ++ Scenario.guided_capture 3 ++ Scenario.guided_capture 4)
              Scenario.frame 5%Z) as [H1 H2]; [vm_compute; reflexivity|].
  split; [exact H1|]. apply H2. vm_compute. reflexivity.
Defined.

(** C3, as the claim states it, fails: with "Left" and "Right" stored the
    completion test [canRegister] holds, yet a click on "Register Biometric"
    starts no read, hands no payload to [onCapture] and shows
    "Center image not found". *)
Lemma C3_counterexample :
  let before := BiometricCapture.run (Some "EMP001"%string) Scenario.left_and_right
                  BiometricCapture.mount in
  let after := BiometricCapture.step (Some "EMP001"%string) BiometricCapture.ClickRegister
                 before in
  BiometricCapture.canRegister (BiometricCapture.st before) = true
  /\ BiometricCapture.pendingReaders after = []
  /\ BiometricCapture.emitted after = []
  /\ BiometricCapture.cameraError (BiometricCapture.st after)
     = Some "Center image not found"%string.
Proof. vm_compute. repeat split. Qed.

(** C3, amended.  [registerBiometric] refuses with "Need at least 2 captured
    images and valid employee ID", starting no read, when fewer than two angles
    are stored or the employee id is missing; with two or more stored angles
    and an employee id it starts the read of the "Center" capture when there is
    one, and the payload built when that read ends lists exactly the stored
    angle labels, their count and the employee id, with the image of the
    "Center" capture only; without a "Center" capture it shows
    "Center image not found" and starts no read.  After every sequence of
    events, every payload handed to [onCapture] lists at least two angles, the
    "Center" one among them. *)
Theorem C3_register_payload :
  (forall employeeId s,
     BiometricCapture.canRegister s = false \/ truthy_string employeeId = false ->
     BiometricCapture.registerBiometric employeeId s
     = (BiometricCapture.set_cameraError
          (Some "Need at least 2 captured images and valid employee ID"%string) s, []))
  /\ (forall eid s,
        BiometricCapture.canRegister s = true -> truthy_string (Some eid) = true ->
        match JsObject.get "Center" (BiometricCapture.capturedImages s) with
        | Some center =>
            exists c,
              BiometricCapture.registerBiometric (Some eid) s
              = (BiometricCapture.set_isRegistering true s, [BiometricCapture.ReadAsDataURL c])
              /\ BiometricCapture.rc_blob c = BiometricCapture.blob center
              /\ forall result now s',
                   exists p,
                     snd (BiometricCapture.readerOnload c result now s')
                     = [BiometricCapture.OnCapture p; BiometricCapture.OnClose]
                     /\ BiometricCapture.angles_registered p
                        = JsObject.keys (BiometricCapture.capturedImages s)
                     /\ BiometricCapture.total_angles p
                        = JsObject.size (BiometricCapture.capturedImages s)
                     /\ BiometricCapture.employee_id p = eid
                     /\ BiometricCapture.face_image p = BiometricCapture.split_comma_1 result
        | None =>
            snd (BiometricCapture.registerBiometric (Some eid) s) = []
            /\ BiometricCapture.cameraError
                 (fst (BiometricCapture.registerBiometric (Some eid) s))
               = Some "Center image not found"%string
        end)
  /\ (forall employeeId es,
        Forall Spec.payload_ok
          (BiometricCapture.emitted
             (BiometricCapture.run employeeId es BiometricCapture.mount))).
Proof.
  split; [|split].
  - intros employeeId s H. unfold BiometricCapture.registerBiometric.
    unfold BiometricCapture.canRegister, BiometricCapture.capturedCount in H.
    destruct H as [H|H].
    + apply Nat.leb_gt in H. apply Nat.ltb_lt in H. now rewrite H.
    + rewrite H. cbn [negb]. now rewrite orb_true_r.
  - intros eid s Hcan Heid. unfold BiometricCapture.registerBiometric.
    unfold BiometricCapture.canRegister, BiometricCapture.capturedCount in Hcan.
    apply Nat.leb_le in Hcan.
    assert (E : (JsObject.size (BiometricCapture.capturedImages s) <? 2)%nat = false)
      by (apply Nat.ltb_ge; exact Hcan).
    rewrite E, Heid. cbn [negb orb].
    destruct (JsObject.get "Center" (BiometricCapture.capturedImages s)) as [center|].
    + eexists. split; [reflexivity|]. split; [reflexivity|].
      intros result now s'. eexists. cbn. repeat split.
    + split; reflexivity.
  - intros employeeId es.
    apply (RegistrationFacts.run_submit_inv employeeId es _ RegistrationFacts.mount_submit_inv).
Qed.

Lemma C3_witness :
  let s := BiometricCapture.st
             (BiometricCapture.run (Some "EMP001"%string) Scenario.center_and_left
                BiometricCapture.mount) in
  snd (BiometricCapture.registerBiometric None s) = []
  /\ exists c, snd (BiometricCapture.registerBiometric (Some "EMP001"%string) s)
               = [BiometricCapture.ReadAsDataURL c].
Proof.
  intros s. split.
  - rewrite (proj1 C3_register_payload None s (or_intror eq_refl)). reflexivity.
  - pose proof (proj1 (proj2 C3_register_payload) "EMP001"%string s eq_refl eq_refl) as H.
    vm_compute in H. destruct H as [c [H _]]. exists c. exact (f_equal snd H).
Defined.

(** C4. [removeImage(angle)] removes the capture stored for that angle and
    leaves what is stored for every other angle, and the other state cells, as
    they were; [retakeAll()] leaves [capturedImages] empty. *)
Theorem C4_retake_frame :
  (forall angle s,
     let s' := fst (BiometricCapture.removeImage angle s) in
     JsObject.get angle (BiometricCapture.capturedImages s') = None
     /\ (forall other, other <> angle ->
           JsObject.get other (BiometricCapture.capturedImages s')
           = JsObject.get other (BiometricCapture.capturedImages s))
     /\ BiometricCapture.stream s' = BiometricCapture.stream s
     /\ BiometricCapture.cameraError s' = BiometricCapture.cameraError s
     /\ BiometricCapture.isVideoReady s' = BiometricCapture.isVideoReady s
     /\ BiometricCapture.isRegistering s' = BiometricCapture.isRegistering s)
  /\ (forall s,
        BiometricCapture.capturedImages (fst (BiometricCapture.retakeAll s)) = JsObject.empty).
Proof.
  split.
  - intros angle s s'. subst s'. cbn. repeat split.
    + apply JsObjectFacts.get_delete_same.
    + intros other Hne. apply JsObjectFacts.get_delete_other. congruence.
  - intros s. reflexivity.
Qed.

Lemma C4_witness :
  let s := BiometricCapture.st
             (BiometricCapture.run None Scenario.center_and_left BiometricCapture.mount) in
  let s' := fst (BiometricCapture.removeImage "Left" s) in
  JsObject.get "Left" (BiometricCapture.capturedImages s') = None
  /\ JsObject.get "Center" (BiometricCapture.capturedImages s')
     = Some (BiometricCapture.mkCapture "jpeg" "blob:Center" 1000).
Proof.
  intros s s'.
  pose proof (proj1 C4_retake_frame "Left"%string s) as H. cbv zeta in H.
  destruct H as (H1 & H2 & _). split; [exact H1|].
  etransitivity; [apply (H2 "Center"%string); discriminate | reflexivity].
Defined.

(** C7, as the claim states it, fails: the camera is stopped while a frame is
    being encoded; when the [toBlob] callback then runs, the stopped session
    ([stream] is [null], nothing stored) gets a capture. *)
Lemma C7_counterexample :
  let stopped := BiometricCapture.run None Scenario.stop_while_encoding
                   BiometricCapture.mount in
  let later := BiometricCapture.step None
                 (BiometricCapture.BlobReady 0 (Some "jpeg"%string) "blob:1" 1000) stopped in
  BiometricCapture.stream (BiometricCapture.st stopped) = None
  /\ In (BiometricCapture.StopTracks 1) (BiometricCapture.log stopped)
  /\ BiometricCapture.capturedCount (BiometricCapture.st stopped) = 0
  /\ BiometricCapture.capturedCount (BiometricCapture.st later) = 1.
Proof. vm_compute. intuition. Qed.

(** C7, amended.  [stopCamera] is idempotent: a second call changes nothing
    and stops nothing.  After it, [captureImage] stores nothing and starts no
    encoding: it only shows "Camera not ready for capture"; and a click on an
    angle box of a component whose [stream] is [null] leaves the stored
    captures and the pending [toBlob] callbacks as they are.  No event other
    than the run of a pending [toBlob] callback adds a capture. *)
Theorem C7_stop :
  (forall s,
     BiometricCapture.stopCamera (fst (BiometricCapture.stopCamera s))
     = (fst (BiometricCapture.stopCamera s), []))
  /\ (forall s angle w h,
        let s1 := fst (BiometricCapture.stopCamera s) in
        BiometricCapture.captureImage angle w h s1
        = (BiometricCapture.set_cameraError (Some "Camera not ready for capture"%string) s1, []))
  /\ (forall employeeId y angle w h,
        BiometricCapture.stream (BiometricCapture.st y) = None ->
        let y' := BiometricCapture.step employeeId (BiometricCapture.ClickAngle angle w h) y in
        BiometricCapture.capturedImages (BiometricCapture.st y')
        = BiometricCapture.capturedImages (BiometricCapture.st y)
        /\ BiometricCapture.pendingBlobs y' = BiometricCapture.pendingBlobs y)
  /\ (forall employeeId e y,
        (forall i b u now, e <> BiometricCapture.BlobReady i b u now) ->
        BiometricCapture.capturedCount (BiometricCapture.st (BiometricCapture.step employeeId e y))
        <= BiometricCapture.capturedCount (BiometricCapture.st y)).
Proof.
  split; [|split; [|split]].
  - intros s. unfold BiometricCapture.stopCamera.
    destruct (BiometricCapture.stream s) eqn:E; cbn; [reflexivity | now rewrite E].
  - intros s angle w h s1. subst s1. unfold BiometricCapture.stopCamera.
    destruct (BiometricCapture.stream s) eqn:E; cbn; unfold BiometricCapture.captureImage;
      unfold BiometricCapture.refsMounted; cbn; [reflexivity | now rewrite E].
  - intros employeeId y angle w h Hs y'. subst y'. cbn [BiometricCapture.step].
    destruct (_ && _); [|now split].
    unfold BiometricCapture.captureImage, BiometricCapture.refsMounted. rewrite Hs.
    cbn. rewrite app_nil_r. now split.
  - intros employeeId e y Hne. unfold BiometricCapture.capturedCount.
    destruct e; cbn [BiometricCapture.step].
    + destruct (_ || _); apply le_n.
    + destruct (_ && _); [|apply le_n]. unfold BiometricCapture.stopCamera.
      destruct (BiometricCapture.stream _); apply le_n.
    + destruct (BiometricCapture.streaming _); [apply Nat.le_0_l | apply le_n].
    + destruct (_ && _); [|apply le_n]. unfold BiometricCapture.captureImage.
      destruct (_ || _ || _); [apply le_n|]. destruct (_ || _); apply le_n.
    + destruct (_ && _); [|apply le_n]. cbn [BiometricCapture.absorb BiometricCapture.st fst
        BiometricCapture.removeImage BiometricCapture.set_capturedImages
        BiometricCapture.capturedImages].
      unfold JsObject.size. rewrite JsObjectFacts.keys_delete. apply filter_length_le.
    + destruct (_ && _); [|apply le_n]. unfold BiometricCapture.registerBiometric.
      destruct (_ || _); [apply le_n|].
      destruct (JsObject.get _ _); [destruct employeeId|]; apply le_n.
    + unfold BiometricCapture.handleClose, BiometricCapture.stopCamera.
      destruct (BiometricCapture.stream _); apply le_n.
    + destruct (BiometricCapture.pendingMedia y); apply le_n.
    + destruct (BiometricCapture.pendingMedia y); apply le_n.
    + destruct (BiometricCapture.streaming _); [|apply le_n].
      unfold BiometricCapture.handleLoadedMetadata. destruct playOk; apply le_n.
    + exfalso. eapply Hne. reflexivity.
    + destruct (nth_error _ i) as [c|]; [|apply le_n]. unfold BiometricCapture.autoStop.
      destruct c; apply le_n.
    + destruct (BiometricCapture.mountTimer y) as [[cs ce]|]; [|apply le_n].
      unfold BiometricCapture.cameraTimeout.
      destruct cs; [|destruct (truthy_string ce)]; apply le_n.
    + destruct (nth_error _ i) as [c|]; apply le_n.
Qed.

Lemma C7_witness :
  let y := BiometricCapture.run None (Scenario.ready ++ [BiometricCapture.ClickStopCamera])
             BiometricCapture.mount in
  BiometricCapture.pendingBlobs
    (BiometricCapture.step None (BiometricCapture.ClickAngle "Center" 640 480) y) = []
  /\ BiometricCapture.capturedCount
       (BiometricCapture.st (BiometricCapture.step None BiometricCapture.ClickRetakeAll y)) <= 0.
Proof.
  intros y. split.
  - pose proof (proj1 (proj2 (proj2 C7_stop)) None y "Center"%string 640%Z 480%Z eq_refl) as H.
    cbv zeta in H. destruct H as [_ H]. etransitivity; [exact H | reflexivity].
  - apply (proj2 (proj2 (proj2 C7_stop)) None BiometricCapture.ClickRetakeAll y).
    discriminate.
Defined.

(** C8, as the claim states it, fails: when [getUserMedia] rejects because no
    camera is present ([NotFoundError]), at once and without the user having
    declined anything, the modal shows the permission message. *)
Lemma C8_counterexample :
  let y := BiometricCapture.step None (BiometricCapture.MediaRejected "NotFoundError")
             BiometricCapture.mount in
  BiometricCapture.cameraError (BiometricCapture.st y)
  = Some "Camera access failed. Please allow permissions."%string
  /\ BiometricCapture.stream (BiometricCapture.st y) = None
  /\ AdvancedBiometricCapture.errorText "NotFoundError" "Requested device not found"
     <> "Camera access failed. Please allow permissions."%string.
Proof. vm_compute. repeat split. discriminate. Qed.

(** C8, amended.  In the modal, [startCamera] clears the error; when
    [getUserMedia] rejects, for whatever reason, it shows
    "Camera access failed. Please allow permissions." and leaves [stream]
    unset; when it resolves, [stream] holds the device and no error is set by
    it.  In the server-driven flow the [catch] block of [startCamera] shows
    the permission message exactly for [NotAllowedError], and messages of their
    own for [NotFoundError] and [NotReadableError]. *)
Theorem C8_start_errors :
  (forall s, BiometricCapture.cameraError (fst (BiometricCapture.startCamera s)) = None
             /\ snd (BiometricCapture.startCamera s) = [BiometricCapture.GetUserMedia])
  /\ (forall errorName s,
        BiometricCapture.cameraError (BiometricCapture.startCamera_rejected errorName s)
        = Some "Camera access failed. Please allow permissions."%string
        /\ BiometricCapture.stream (BiometricCapture.startCamera_rejected errorName s)
           = BiometricCapture.stream s)
  /\ (forall mediaStream s,
        BiometricCapture.stream (BiometricCapture.startCamera_resolved mediaStream s)
        = Some mediaStream
        /\ BiometricCapture.cameraError (BiometricCapture.startCamera_resolved mediaStream s)
           = BiometricCapture.cameraError s)
  /\ (forall name message,
        AdvancedBiometricCapture.errorText name message
        = "Camera permission denied. Please allow camera access and refresh."%string
        <-> name = "NotAllowedError"%string)
  /\ (forall message,
        AdvancedBiometricCapture.errorText "NotFoundError" message
        = "No camera found. Please connect a camera and try again."%string
        /\ AdvancedBiometricCapture.errorText "NotReadableError" message
           = "Camera is being used by another application."%string).
Proof.
  repeat split.
  - unfold AdvancedBiometricCapture.errorText.
    destruct (String.eqb_spec name "NotAllowedError"); [auto|].
    destruct (String.eqb name "NotFoundError"); [discriminate|].
    destruct (String.eqb name "NotReadableError"); discriminate.
  - intros ->. reflexivity.
Qed.

(** C5. The brightness, contrast and sharpness sub-scores depend on the pixel
    buffer only: two runs of [extractBiometricData] on the same buffer, at
    different times, give the same three values, and the quality-derived
    values of [detectLiveness] and [detectAntispoofing] are the same whatever
    the random draws of the two runs are. *)
Theorem C5_subscores_deterministic :
  forall (img : ImageData.t),
    (forall now1 now2,
       let d1 := BasicBiometricCapture.extractBiometricData now1 img in
       let d2 := BasicBiometricCapture.extractBiometricData now2 img in
       BasicBiometricCapture.brightness d1 = BasicBiometricCapture.brightness d2
       /\ BasicBiometricCapture.contrast d1 = BasicBiometricCapture.contrast d2
       /\ BasicBiometricCapture.sharpness d1 = BasicBiometricCapture.sharpness d2)
    /\ (forall r1 r2 r3 r1' r2' r3',
          let l1 := FaceRecognitionAPI.detectLiveness r1 r2 r3 img in
          let l2 := FaceRecognitionAPI.detectLiveness r1' r2' r3' img in
          FaceRecognitionAPI.textureAnalysis l1 = FaceRecognitionAPI.textureAnalysis l2
          /\ FaceRecognitionAPI.l_overall l1 = FaceRecognitionAPI.l_overall l2
          /\ FaceRecognitionAPI.textureAnalysis l1
             = FaceRecognitionAPI.q_sharpness (FaceRecognitionAPI.calculateImageQuality img))
    /\ (forall r r',
          let a1 := FaceRecognitionAPI.detectAntispoofing r img in
          let a2 := FaceRecognitionAPI.detectAntispoofing r' img in
          FaceRecognitionAPI.photoDetection a1 = FaceRecognitionAPI.photoDetection a2
          /\ FaceRecognitionAPI.screenDetection a1 = FaceRecognitionAPI.screenDetection a2
          /\ FaceRecognitionAPI.as_overall a1 = FaceRecognitionAPI.as_overall a2).
Proof.
  intros img. split; [|split].
  - intros now1 now2 d1 d2. subst d1 d2. unfold BasicBiometricCapture.extractBiometricData.
    destruct (JsNum.for_range _ _ _ _ _) as [totalBrightness pixelCount].
    repeat split.
  - intros. repeat split.
  - intros. repeat split.
Qed.

(** C9, as the claim states it, fails: in the modal a frame of width and
    height zero is refused with a visible error. *)
Lemma C9_counterexample :
  let y := BiometricCapture.run None
             (Scenario.ready ++ [BiometricCapture.ClickAngle "Center" 0 0])
             BiometricCapture.mount in
  BiometricCapture.cameraError (BiometricCapture.st y)
  = Some "Video dimensions not available"%string
  /\ BiometricCapture.pendingBlobs y = []
  /\ BiometricCapture.capturedCount (BiometricCapture.st y) = 0.
Proof. vm_compute. repeat split. Qed.

(** C9, amended.  In the server-driven flow, [processFrame] skips a frame of a
    video that is not ready or has a zero dimension without a request, a
    message or any change but [isProcessing] going back to [false]; a request
    that throws or is answered with an HTTP error is written to the console
    only, the messages staying as they are.  In the modal, [captureImage]
    refuses such a frame without storing or encoding anything, and shows
    "Camera not ready for capture" or "Video dimensions not available". *)
Theorem C9_invalid_frame :
  (forall c_isProcessing c_sessionId v s,
     AdvancedBiometricCapture.readyState v <> 4%Z
     \/ AdvancedBiometricCapture.videoWidth v = 0%Z
     \/ AdvancedBiometricCapture.videoHeight v = 0%Z ->
     let r := AdvancedBiometricCapture.processFrame c_isProcessing c_sessionId v s in
     snd r = []
     /\ fst (fst r) <> AdvancedBiometricCapture.Posted
     /\ (snd (fst r) = s \/ snd (fst r) = AdvancedBiometricCapture.set_isProcessing false s))
  /\ (forall c_sessionId reply now rnd s,
        reply = AdvancedBiometricCapture.Threw
        \/ (exists status, reply = AdvancedBiometricCapture.NotOk status) ->
        AdvancedBiometricCapture.processFrame_reply c_sessionId reply now rnd s
        = (AdvancedBiometricCapture.set_isProcessing false s,
           [AdvancedBiometricCapture.ConsoleError]))
  /\ (forall angle w h s,
        BiometricCapture.stream s = None \/ BiometricCapture.isVideoReady s = false
        \/ w = 0%Z \/ h = 0%Z ->
        let r := BiometricCapture.captureImage angle w h s in
        snd r = []
        /\ BiometricCapture.capturedImages (fst r) = BiometricCapture.capturedImages s
        /\ (BiometricCapture.cameraError (fst r)
            = Some "Camera not ready for capture"%string
            \/ BiometricCapture.cameraError (fst r)
               = Some "Video dimensions not available"%string)).
Proof.
  split; [|split].
  - intros cp sid v s H r. subst r. unfold AdvancedBiometricCapture.processFrame.
    destruct cp; [cbn; intuition discriminate|].
    destruct (truthy_string sid); [|cbn; intuition discriminate].
    destruct sid as [sid|]; [|cbn; intuition discriminate].
    destruct (Z.eqb_spec (AdvancedBiometricCapture.readyState v) 4) as [E4|E4]; cbn [negb];
      [|cbn; intuition discriminate].
    destruct (Z.eqb_spec (AdvancedBiometricCapture.videoWidth v) 0) as [Ew|Ew]; cbn [orb];
      [cbn; intuition discriminate|].
    destruct (Z.eqb_spec (AdvancedBiometricCapture.videoHeight v) 0) as [Eh|Eh];
      [cbn; intuition discriminate|].
    exfalso. intuition.
  - intros sid reply now rnd s [->|[status ->]]; reflexivity.
  - intros angle w h s H r. subst r.
    unfold BiometricCapture.captureImage, BiometricCapture.refsMounted.
    destruct (BiometricCapture.stream s) eqn:Es; cbn [negb orb];
      [|cbn; split; [reflexivity | split; [reflexivity | left; reflexivity]]].
    destruct (BiometricCapture.isVideoReady s) eqn:Er; cbn [negb orb];
      [|cbn; split; [reflexivity | split; [reflexivity | left; reflexivity]]].
    destruct (Z.eqb_spec w 0) as [Ew|Ew]; cbn [orb];
      [cbn; split; [reflexivity | split; [reflexivity | right; reflexivity]]|].
    destruct (Z.eqb_spec h 0) as [Eh|Eh];
      [cbn; split; [reflexivity | split; [reflexivity | right; reflexivity]]|].
    exfalso. destruct H as [H|[H|[H|H]]]; congruence.
Qed.

Lemma C9_witness :
  fst (fst (AdvancedBiometricCapture.processFrame false (Some "session-1"%string)
              (AdvancedBiometricCapture.mkVideo 4 0 0) AdvancedBiometricCapture.initial))
  = AdvancedBiometricCapture.Dropped
  /\ snd (AdvancedBiometricCapture.processFrame false (Some "session-1"%string)
            (AdvancedBiometricCapture.mkVideo 4 0 0) AdvancedBiometricCapture.initial) = []
  /\ AdvancedBiometricCapture.processFrame_reply "session-1" (AdvancedBiometricCapture.NotOk 500)
       0 0%float AdvancedBiometricCapture.initial
     = (AdvancedBiometricCapture.initial, [AdvancedBiometricCapture.ConsoleError])
  /\ snd (BiometricCapture.captureImage "Center" 0 0 BiometricCapture.initial) = [].
Proof.
  split; [reflexivity|]. split; [|split].
  - apply (proj1 C9_invalid_frame false (Some "session-1"%string)
             (AdvancedBiometricCapture.mkVideo 4 0 0) AdvancedBiometricCapture.initial).
    right. left. reflexivity.
  - etransitivity;
      [apply (proj1 (proj2 C9_invalid_frame) "session-1"%string
                (AdvancedBiometricCapture.NotOk 500) 0%Z 0%float
                AdvancedBiometricCapture.initial);
       right; exists 500%Z; reflexivity
      | reflexivity].
  - apply (proj2 (proj2 C9_invalid_frame) "Center"%string 0%Z 0%Z BiometricCapture.initial).
    left. reflexivity.
Defined.

(** ** IEEE-754 double arithmetic *)

Module FloatFacts.
Import Spec.

Local Open Scope Z_scope.

(** *** Comparisons *)

Lemma SFcompare_antisym x y :
  SFcompare y x = option_map CompOpp (SFcompare x y).
Proof.
  destruct x as [sx|sx| |sx mx ex], y as [sy|sy| |sy my ey]; cbn;
    try reflexivity; try (destruct sx; reflexivity); try (destruct sy; reflexivity);
    try (destruct sx, sy; reflexivity).
  destruct sx, sy; try reflexivity; f_equal;
    rewrite (Z.compare_antisym ex ey); destruct (ex ?= ey); cbn; try reflexivity.
  - f_equal. exact (ZC4 my mx).
  - exact (ZC4 my mx).
Qed.

Lemma SFcompare_None x y :
  SFcompare x y = None <-> x = S754_nan \/ y = S754_nan.
Proof.
  destruct x as [sx|sx| |sx mx ex], y as [sy|sy| |sy my ey]; cbn;
    intuition (discriminate || auto).
Qed.

Lemma is_nan_spec x : is_nan x = true <-> Prim2SF x = S754_nan.
Proof.
  unfold is_nan. rewrite eqb_spec. unfold SFeqb.
  destruct (Prim2SF x) as [s|s| |s m e]; cbn.
  - intuition discriminate.
  - destruct s; intuition discriminate.
  - tauto.
  - rewrite Z.compare_refl, Pos.compare_cont_refl. destruct s; intuition discriminate.
Qed.

Lemma is_nan_false x : is_nan x = false <-> Prim2SF x <> S754_nan.
Proof.
  rewrite <- is_nan_spec. destruct (is_nan x); intuition congruence.
Qed.

(** [x < y] fails exactly when [y <= x] or one of them is [NaN]. *)
Lemma ltb_false_iff x y :
  (x <? y)%float = false <-> (y <=? x)%float = true \/ is_nan x = true \/ is_nan y = true.
Proof.
  rewrite ltb_spec, leb_spec, !is_nan_spec. unfold SFltb, SFleb.
  rewrite (SFcompare_antisym (Prim2SF x) (Prim2SF y)).
  destruct (SFcompare (Prim2SF x) (Prim2SF y)) as [[| |]|] eqn:E; cbn.
  - intuition.
  - split; [discriminate|]. intros [H|[H|H]]; [discriminate| |];
      rewrite H in E; [|destruct (Prim2SF x)]; discriminate.
  - intuition.
  - apply SFcompare_None in E. intuition.
Qed.

Lemma ltb_leb x y : (x <? y)%float = true -> (x <=? y)%float = true.
Proof.
  rewrite ltb_spec, leb_spec. unfold SFltb, SFleb.
  destruct (SFcompare _ _) as [[| |]|]; auto.
Qed.

Lemma leb_not_nan x y :
  (x <=? y)%float = true -> is_nan x = false /\ is_nan y = false.
Proof.
  rewrite leb_spec, !is_nan_false. unfold SFleb.
  destruct (SFcompare _ _) eqn:E; [|discriminate]. intros _.
  split; intros H; rewrite H in E; [|destruct (Prim2SF x)]; discriminate.
Qed.


(** *** Signs *)

Lemma bra_signed s m e l : signed s (binary_round_aux prec emax s m e l).
Proof.
  unfold binary_round_aux.
  destruct (shr_fexp prec emax m e l) as [mrs' e'].
  destruct (shr_fexp prec emax _ e' loc_Exact) as [mrs'' e''].
  destruct (shr_m mrs''); [reflexivity | | exact I].
  destruct (e'' <=? emax - prec); reflexivity.
Qed.

Lemma binary_round_signed s m e : signed s (binary_round prec emax s m e).
Proof.
  unfold binary_round. destruct (shl_align m e _) as [mz ez]. apply bra_signed.
Qed.

Lemma SFmul_self_signed x : signed false (SFmul prec emax x x).
Proof.
  destruct x as [s|s| |s m e]; cbn; try apply xorb_nilpotent; auto.
  rewrite xorb_nilpotent. apply bra_signed.
Qed.

Lemma SFadd_signed x y :
  signed false x -> signed false y -> signed false (SFadd prec emax x y).
Proof.
  destruct x as [sx|sx| |sx mx ex], y as [sy|sy| |sy my ey]; cbn; intros; subst; cbn; auto.
  apply binary_round_signed.
Qed.

Lemma SFsqrt_signed x : signed false x -> signed false (SFsqrt prec emax x).
Proof.
  destruct x as [sx|sx| |sx mx ex]; cbn; intros; subst; cbn; auto.
  destruct (SFsqrt_core_binary prec emax (Z.pos mx) ex) as [[mz ez] lz]. apply bra_signed.
Qed.

Lemma SFdiv_signed x y :
  signed false x -> signed false y -> signed false (SFdiv prec emax x y).
Proof.
  destruct x as [sx|sx| |sx mx ex], y as [sy|sy| |sy my ey]; cbn; intros; subst; cbn; auto.
  destruct (SFdiv_core_binary prec emax (Z.pos mx) ex (Z.pos my) ey) as [[mz ez] lz].
  apply bra_signed.
Qed.

Lemma of_uint63_signed n : signed false (Prim2SF (of_uint63 n)).
Proof.
  rewrite of_uint63_spec. pose proof (Uint63.to_Z_bounded n) as H.
  destruct (Uint63Axioms.to_Z n); cbn; auto; [apply binary_round_signed | lia].
Qed.

(** *** The square of a difference does not depend on the order *)

Lemma bra_abs s1 s2 m e l :
  SFabs (binary_round_aux prec emax s1 m e l) = SFabs (binary_round_aux prec emax s2 m e l).
Proof.
  unfold binary_round_aux.
  destruct (shr_fexp prec emax m e l) as [mrs' e'].
  destruct (shr_fexp prec emax _ e' loc_Exact) as [mrs'' e''].
  destruct (shr_m mrs''); [reflexivity | | reflexivity].
  destruct (e'' <=? emax - prec); reflexivity.
Qed.

Lemma binary_normalize_opp_abs m e :
  SFabs (binary_normalize prec emax (- m) e false)
  = SFabs (binary_normalize prec emax m e false).
Proof.
  destruct m; cbn; auto; unfold binary_round; destruct (shl_align p e _); apply bra_abs.
Qed.

Lemma SFsub_abs x y : SFabs (SFsub prec emax x y) = SFabs (SFsub prec emax y x).
Proof.
  destruct x as [sx|sx| |sx mx ex], y as [sy|sy| |sy my ey]; cbn;
    try reflexivity; try (destruct sx, sy; reflexivity).
  rewrite (Z.min_comm ey ex). rewrite <- binary_normalize_opp_abs. f_equal. f_equal. ring.
Qed.

Lemma SFmul_abs u w :
  SFabs u = SFabs w -> SFmul prec emax u u = SFmul prec emax w w.
Proof.
  destruct u as [su|su| |su mu eu], w as [sw|sw| |sw mw ew]; cbn; intros H;
    try discriminate; rewrite ?xorb_nilpotent; auto.
  now inversion H.
Qed.

Lemma square_sub_comm a b : ((a - b) * (a - b) = (b - a) * (b - a))%float.
Proof.
  apply Prim2SF_inj. rewrite !mul_spec, !sub_spec. apply SFmul_abs, SFsub_abs.
Qed.


(** *** Rounding a value below one *)

Lemma digits2_pos_bounds p :
  2 ^ (Z.pos (digits2_pos p) - 1) <= Z.pos p < 2 ^ Z.pos (digits2_pos p).
Proof.
  induction p as [p IH|p IH|]; cbn [digits2_pos]; rewrite ?Pos2Z.inj_succ.
  - replace (Z.succ (Z.pos (digits2_pos p)) - 1) with (Z.succ (Z.pos (digits2_pos p) - 1)) by lia.
    rewrite !Z.pow_succ_r by lia. lia.
  - replace (Z.succ (Z.pos (digits2_pos p)) - 1) with (Z.succ (Z.pos (digits2_pos p) - 1)) by lia.
    rewrite !Z.pow_succ_r by lia. lia.
  - cbn. lia.
Qed.

Lemma shr_1_m mrs : 0 <= shr_m mrs -> shr_m (shr_1 mrs) = shr_m mrs / 2.
Proof.
  destruct mrs as [m r s]. cbn [shr_m]. intros H.
  destruct m as [|[p|p|]|p]; cbn [shr_1 shr_m]; try lia.
  - reflexivity.
  - apply (Z.div_unique _ 2 _ 1); lia.
  - apply (Z.div_unique _ 2 _ 0); lia.
  - reflexivity.
Qed.

Lemma iter_shr_m n mrs :
  0 <= shr_m mrs -> shr_m (iter_pos shr_1 n mrs) = shr_m mrs / 2 ^ Z.pos n.
Proof.
  revert mrs. induction n as [n IH|n IH|]; intros mrs H; cbn [iter_pos].
  - assert (H1 : 0 <= shr_m (shr_1 mrs)) by (rewrite shr_1_m by assumption; apply Z.div_pos; lia).
    assert (H2 : 0 <= shr_m (iter_pos shr_1 n (shr_1 mrs)))
      by (rewrite IH by assumption; apply Z.div_pos; [|apply Z.pow_pos_nonneg]; lia).
    rewrite IH, IH, shr_1_m by assumption.
    rewrite !Z.div_div by (try apply Z.pow_pos_nonneg; lia).
    f_equal. rewrite (Pos2Z.inj_xI n).
    replace (2 * Z.pos n + 1) with (1 + Z.pos n + Z.pos n) by lia.
    rewrite !Z.pow_add_r by lia. rewrite Z.pow_1_r. ring.
  - assert (H2 : 0 <= shr_m (iter_pos shr_1 n mrs))
      by (rewrite IH by assumption; apply Z.div_pos; [|apply Z.pow_pos_nonneg]; lia).
    rewrite IH, IH by assumption.
    rewrite !Z.div_div by (try apply Z.pow_pos_nonneg; lia).
    f_equal. rewrite (Pos2Z.inj_xO n).
    replace (2 * Z.pos n) with (Z.pos n + Z.pos n) by lia.
    rewrite !Z.pow_add_r by lia. ring.
  - now rewrite shr_1_m.
Qed.

Lemma round_nearest_even_bounds m l : m <= round_nearest_even m l <= m + 1.
Proof.
  unfold round_nearest_even. destruct l as [|[| |]]; try lia. destruct (Z.even m); lia.
Qed.


Lemma SFleb_finite_small q e :
  e <= -53 -> SFleb (S754_finite false q e) one_sf = true.
Proof.
  intros H. unfold SFleb, one_sf. cbn [SFcompare].
  assert (E : (e ?= -52) = Lt) by (apply Z.compare_lt_iff; lia). now rewrite E.
Qed.

Lemma bra_below_one p e :
  Z.pos p < 2 ^ (- e) ->
  e <= fexp prec emax (Z.pos (digits2_pos p) + e) ->
  SFleb (binary_round_aux prec emax false (Z.pos p) e loc_Exact) one_sf = true.
Proof.
  intros Hlt Hfe.
  pose proof (digits2_pos_bounds p) as [Hd1 Hd2].
  set (dg := Z.pos (digits2_pos p)) in *.
  assert (Hdg0 : 0 < dg) by (unfold dg; lia).
  assert (Hdg : dg + e <= 0).
  { destruct (Z.le_gt_cases (dg + e) 0) as [H|H]; [exact H|]. exfalso.
    assert (2 ^ (- e) <= 2 ^ (dg - 1)) by (apply Z.pow_le_mono_r; lia). lia. }
  unfold binary_round_aux, shr_fexp. cbn [Zdigits2]. fold dg.
  set (fe := fexp prec emax (dg + e)) in *.
  assert (Hfe1 : fe <= -53 /\ -1074 <= fe /\ dg + e - 53 <= fe)
    by (unfold fe, fexp, SpecFloat.emin, prec, emax; lia).
  destruct Hfe1 as (Hfe1 & Hfe2 & Hfe3).
  assert (H1 : exists mrs',
             shr (shr_record_of_loc (Z.pos p) loc_Exact) e (fe - e) = (mrs', fe)
             /\ 0 <= shr_m mrs' < 2 ^ 53).
  { unfold shr. destruct (fe - e) as [|n|n] eqn:En.
    - eexists. split; [f_equal; lia|]. cbn [shr_record_of_loc shr_m]. split; [lia|].
      assert (2 ^ dg <= 2 ^ 53) by (apply Z.pow_le_mono_r; lia). lia.
    - eexists. split; [f_equal; lia|].
      rewrite iter_shr_m by (cbn; lia). cbn [shr_record_of_loc shr_m].
      assert (Hpow : 0 < 2 ^ Z.pos n) by (apply Z.pow_pos_nonneg; lia).
      split; [apply Z.div_pos; lia|].
      apply Z.div_lt_upper_bound; [exact Hpow|].
      rewrite <- Z.pow_add_r by lia.
      assert (2 ^ dg <= 2 ^ (Z.pos n + 53)) by (apply Z.pow_le_mono_r; lia). lia.
    - lia. }
  destruct H1 as (mrs' & -> & Hm1 & Hm2).
  pose proof (round_nearest_even_bounds (shr_m mrs') (loc_of_shr_record mrs')) as Hr.
  set (mr := round_nearest_even (shr_m mrs') (loc_of_shr_record mrs')) in *.
  destruct (Z.eq_dec mr (2 ^ 53)) as [E|E].
  - rewrite E. change (Zdigits2 (2 ^ 53)) with 54.
    replace (fexp prec emax (54 + fe) - fe) with 1
      by (unfold fexp, SpecFloat.emin, prec, emax; lia).
    cbn [shr iter_pos shr_record_of_loc]. change (2 ^ 53) with 9007199254740992.
    cbn [shr_1 shr_m].
    destruct (Z.leb_spec (fe + 1) (emax - prec)) as [_|H]; [|unfold emax, prec in H; lia].
    unfold SFleb, one_sf. cbn [SFcompare].
    destruct (Z.compare_spec (fe + 1) (-52)) as [H|H|H]; [reflexivity | reflexivity | lia].
  - assert (Hlt53 : mr < 2 ^ 53) by lia.
    destruct mr as [|q|q] eqn:Emr; [| |lia].
    + cbn [Zdigits2]. unfold shr.
      destruct (fexp prec emax (0 + fe) - fe) eqn:En; try reflexivity.
      unfold fexp, SpecFloat.emin, prec, emax in En. lia.
    + cbn [Zdigits2]. pose proof (digits2_pos_bounds q) as [Hq1 Hq2].
      assert (Hdq : Z.pos (digits2_pos q) <= 53).
      { destruct (Z.le_gt_cases (Z.pos (digits2_pos q)) 53) as [H|H]; [exact H|]. exfalso.
        assert (2 ^ 53 <= 2 ^ (Z.pos (digits2_pos q) - 1)) by (apply Z.pow_le_mono_r; lia).
        lia. }
      unfold shr.
      destruct (fexp prec emax (Z.pos (digits2_pos q) + fe) - fe) eqn:En;
        [| unfold fexp, SpecFloat.emin, prec, emax in En; lia |];
        cbn [shr_record_of_loc shr_m];
        (destruct (Z.leb_spec fe (emax - prec)) as [_|H]; [|unfold emax, prec in H; lia]);
        now apply SFleb_finite_small.
Qed.


Lemma iter_xO_value m k : Z.pos (Pos.iter xO m k) = Z.pos m * 2 ^ Z.pos k.
Proof.
  induction k as [|k IH] using Pos.peano_ind.
  - cbn. lia.
  - rewrite Pos.iter_succ, Pos2Z.inj_xO, IH, Pos2Z.inj_succ, Z.pow_succ_r by lia. ring.
Qed.

Lemma iter_xO_digits m k :
  Z.pos (digits2_pos (Pos.iter xO m k)) = Z.pos (digits2_pos m) + Z.pos k.
Proof.
  induction k as [|k IH] using Pos.peano_ind.
  - cbn [Pos.iter digits2_pos]. lia.
  - rewrite Pos.iter_succ. cbn [digits2_pos]. rewrite Pos2Z.inj_succ, IH. lia.
Qed.

Lemma shl_align_value m e e' :
  e' <= e -> Z.pos (fst (shl_align m e e')) = Z.pos m * 2 ^ (e - e').
Proof.
  intros H. unfold shl_align. destruct (e' - e) as [|k|k] eqn:E; cbn [fst].
  - replace (e - e') with 0 by lia. cbn. lia.
  - lia.
  - rewrite iter_xO_value. f_equal. f_equal. lia.
Qed.

Lemma binary_round_below_one d e :
  Z.pos d < 2 ^ (- e) -> SFleb (binary_round prec emax false d e) one_sf = true.
Proof.
  intros Hlt. unfold binary_round.
  set (fe := fexp prec emax (Z.pos (digits2_pos d) + e)).
  unfold shl_align. destruct (fe - e) as [|k|k] eqn:E.
  - apply bra_below_one; [exact Hlt | fold fe; lia].
  - apply bra_below_one; [exact Hlt | fold fe; lia].
  - apply bra_below_one.
    + rewrite iter_xO_value.
      replace (- fe) with (- e + Z.pos k) by lia.
      assert (0 < - e).
      { destruct (Z.lt_ge_cases 0 (- e)) as [H|H]; [exact H|].
        destruct (- e) eqn:En; [cbn in Hlt; lia | lia |].
        rewrite Z.pow_neg_r in Hlt by lia. lia. }
      rewrite Z.pow_add_r by lia.
      apply Z.mul_lt_mono_pos_r; [apply Z.pow_pos_nonneg; lia | exact Hlt].
    + rewrite iter_xO_digits.
      replace (Z.pos (digits2_pos d) + Z.pos k + fe) with (Z.pos (digits2_pos d) + e) by lia.
      fold fe. lia.
Qed.

Lemma SFltb_zero_signed_true x :
  signed true x -> SFltb (S754_zero false) x = false.
Proof. destruct x as [s|s| |s m e]; cbn; intros H; try rewrite H; reflexivity. Qed.

Lemma SFsub_one_le q :
  signed false q ->
  SFltb (S754_zero false) (SFsub prec emax one_sf q) = true ->
  SFleb (SFsub prec emax one_sf q) one_sf = true.
Proof.
  destruct q as [s|s| |s m e]; cbn [signed]; intros Hs; subst; try (cbn; congruence).
  unfold one_sf. cbn [SFsub cond_Zopp].
  change (S754_finite false 4503599627370496 (-52)) with one_sf.
  set (ez := Z.min (-52) e).
  rewrite shl_align_value by (unfold ez; lia).
  pose proof (Pos2Z.is_pos (fst (shl_align m e ez))) as HB.
  replace (4503599627370496 * 2 ^ (-52 - ez)) with (2 ^ (- ez)).
  2:{ change 4503599627370496 with (2 ^ 52). rewrite <- Z.pow_add_r by (unfold ez; lia).
      f_equal. lia. }
  destruct (2 ^ (- ez) - Z.pos (fst (shl_align m e ez))) as [|d|d] eqn:ED;
    cbn [binary_normalize].
  - cbn. discriminate.
  - intros _. apply binary_round_below_one. lia.
  - intros H. rewrite SFltb_zero_signed_true in H; [discriminate|].
    apply binary_round_signed.
Qed.

Lemma sub_one_le q :
  signed false (Prim2SF q) ->
  (0 <? 1 - q)%float = true -> (1 - q <=? 1)%float = true.
Proof.
  rewrite ltb_spec, leb_spec, sub_spec. apply SFsub_one_le.
Qed.

(** *** Results that are numbers *)

Lemma shr_fexp_nonneg m e l : 0 <= m -> 0 <= shr_m (fst (shr_fexp prec emax m e l)).
Proof.
  intros H. unfold shr_fexp, shr.
  assert (H0 : 0 <= shr_m (shr_record_of_loc m l)) by (destruct l as [|[| |]]; exact H).
  destruct (fexp prec emax (Zdigits2 m + e) - e) as [|n|n]; cbn [fst]; try exact H0.
  rewrite iter_shr_m by exact H0. apply Z.div_pos; [exact H0 | apply Z.pow_pos_nonneg; lia].
Qed.

Lemma bra_not_nan s m e l : 0 <= m -> binary_round_aux prec emax s m e l <> S754_nan.
Proof.
  intros H. unfold binary_round_aux.
  pose proof (shr_fexp_nonneg m e l H) as H1.
  destruct (shr_fexp prec emax m e l) as [mrs' e']. cbn [fst] in H1.
  pose proof (round_nearest_even_bounds (shr_m mrs') (loc_of_shr_record mrs')) as Hr.
  assert (H2 : 0 <= round_nearest_even (shr_m mrs') (loc_of_shr_record mrs')) by lia.
  pose proof (shr_fexp_nonneg _ e' loc_Exact H2) as H3.
  destruct (shr_fexp prec emax _ e' loc_Exact) as [mrs'' e'']. cbn [fst] in H3.
  destruct (shr_m mrs''); [discriminate | | lia].
  destruct (e'' <=? emax - prec); discriminate.
Qed.

Lemma binary_round_not_nan s p e : binary_round prec emax s p e <> S754_nan.
Proof.
  unfold binary_round. destruct (shl_align p e _) as [mz ez]. apply bra_not_nan. lia.
Qed.

Lemma binary_normalize_not_nan m e sz : binary_normalize prec emax m e sz <> S754_nan.
Proof. destruct m; cbn; [discriminate | apply binary_round_not_nan..]. Qed.

Lemma SFsub_finite_not_nan x y :
  finite_sf x -> finite_sf y -> SFsub prec emax x y <> S754_nan.
Proof.
  destruct x as [sx|sx| |sx mx ex], y as [sy|sy| |sy my ey]; cbn; try tauto; intros _ _.
  - destruct sx, sy; discriminate.
  - discriminate.
  - discriminate.
  - apply binary_normalize_not_nan.
Qed.

Lemma SFmul_self_not_nan x : x <> S754_nan -> SFmul prec emax x x <> S754_nan.
Proof.
  destruct x as [s|s| |s m e]; cbn; intros H; try discriminate; try tauto.
  apply bra_not_nan. lia.
Qed.

Lemma SFadd_not_nan x y :
  signed false x -> signed false y -> x <> S754_nan -> y <> S754_nan ->
  SFadd prec emax x y <> S754_nan.
Proof.
  destruct x as [sx|sx| |sx mx ex], y as [sy|sy| |sy my ey]; cbn;
    intros; subst; try discriminate; try tauto.
  apply binary_normalize_not_nan.
Qed.

Lemma SFsqrt_not_nan x :
  signed false x -> x <> S754_nan -> SFsqrt prec emax x <> S754_nan.
Proof.
  destruct x as [s|s| |s m e]; cbn; intros; subst; try discriminate; try tauto.
  unfold SFsqrt_core_binary.
  set (m' := match e - 2 * _ with 0 => Z.pos m | Z.pos _ => _ | Z.neg _ => 0 end).
  assert (Hm' : 0 <= m').
  { unfold m'. destruct (e - 2 * _); [lia | | lia]. apply Z.shiftl_nonneg. lia. }
  pose proof (Z.sqrtrem_spec m' Hm') as Hs.
  destruct (Z.sqrtrem m') as [q r].
  apply bra_not_nan. nia.
Qed.

Lemma SFdiv_not_nan x m e :
  signed false x -> x <> S754_nan ->
  SFdiv prec emax x (S754_finite false m e) <> S754_nan.
Proof.
  destruct x as [sx|sx| |sx mx ex]; cbn; intros; subst; try discriminate; try tauto.
  unfold SFdiv_core_binary.
  set (m' := match ex - e - _ with 0 => Z.pos mx | Z.pos _ => _ | Z.neg _ => 0 end).
  assert (Hm' : 0 <= m').
  { unfold m'. destruct (ex - e - _); [lia | | lia]. apply Z.shiftl_nonneg. lia. }
  pose proof (Z.div_pos m' (Z.pos m) Hm' ltac:(lia)) as Hq.
  unfold Z.div in Hq. destruct (Z.div_eucl m' (Z.pos m)) as [q r]. cbn [fst] in Hq.
  now apply bra_not_nan.
Qed.

Lemma SFsub_one_not_nan q :
  signed false q -> q <> S754_nan -> SFsub prec emax one_sf q <> S754_nan.
Proof.
  destruct q as [s|s| |s m e]; cbn; intros; subst; try discriminate; try tauto.
  apply binary_normalize_not_nan.
Qed.

(** *** Results that are finite and not zero *)

Lemma digits_le_53 q : Z.pos q < 2 ^ 53 -> Z.pos (digits2_pos q) <= 53.
Proof.
  intros H. pose proof (digits2_pos_bounds q) as [H1 _].
  destruct (Z.le_gt_cases (Z.pos (digits2_pos q)) 53) as [Hd|Hd]; [exact Hd|]. exfalso.
  assert (2 ^ 53 <= 2 ^ (Z.pos (digits2_pos q) - 1)) by (apply Z.pow_le_mono_r; lia). lia.
Qed.

(** The second half of [binary_round_aux], on a rounded mantissa of at most
    54 bits. *)
Lemma second_stage mr e :
  1 <= mr <= 2 ^ 53 -> -1074 <= e <= 970 ->
  positive_sf
    (let '(mrs'', e'') := shr_fexp prec emax mr e loc_Exact in
     match shr_m mrs'' with
     | 0 => S754_zero false
     | Z.pos m => if e'' <=? emax - prec then S754_finite false m e'' else S754_infinity false
     | Z.neg _ => S754_nan
     end).
Proof.
  intros Hm He. unfold shr_fexp.
  destruct (Z.eq_dec mr (2 ^ 53)) as [E|E].
  - rewrite E. change (Zdigits2 (2 ^ 53)) with 54.
    replace (fexp prec emax (54 + e) - e) with 1
      by (unfold fexp, SpecFloat.emin, prec, emax; lia).
    cbn [shr iter_pos shr_record_of_loc]. change (2 ^ 53) with 9007199254740992.
    cbn [shr_1 shr_m].
    destruct (Z.leb_spec (e + 1) (emax - prec)) as [_|H]; [exact I|].
    unfold emax, prec in H. lia.
  - destruct mr as [|q|q]; [lia | | lia]. cbn [Zdigits2].
    assert (Hd : Z.pos (digits2_pos q) <= 53) by (apply digits_le_53; lia).
    unfold shr.
    destruct (fexp prec emax (Z.pos (digits2_pos q) + e) - e) eqn:En;
      [| unfold fexp, SpecFloat.emin, prec, emax in En; lia |];
      cbn [shr_record_of_loc shr_m];
      (destruct (Z.leb_spec e (emax - prec)) as [_|H]; [exact I|]);
      unfold emax, prec in H; lia.
Qed.

(** [binary_round_aux] on a positive mantissa whose first shift leaves a
    non-zero mantissa below [2^53] at an exponent of the normal range. *)
Lemma bra_positive p e l :
  (exists mrs' e',
     shr_fexp prec emax (Z.pos p) e l = (mrs', e')
     /\ 1 <= shr_m mrs' < 2 ^ 53 /\ -1074 <= e' <= 970) ->
  positive_sf (binary_round_aux prec emax false (Z.pos p) e l).
Proof.
  intros (mrs' & e' & E & Hm & He). unfold binary_round_aux. rewrite E.
  apply second_stage; [|exact He].
  pose proof (round_nearest_even_bounds (shr_m mrs') (loc_of_shr_record mrs')). lia.
Qed.

Lemma shr_fexp_small p e l :
  Z.pos p < 2 ^ 53 -> -1074 <= e ->
  shr_fexp prec emax (Z.pos p) e l = (shr_record_of_loc (Z.pos p) l, e).
Proof.
  intros Hp He. unfold shr_fexp, shr. cbn [Zdigits2].
  pose proof (digits_le_53 p Hp) as Hd.
  destruct (fexp prec emax (Z.pos (digits2_pos p) + e) - e) eqn:En; try reflexivity.
  unfold fexp, SpecFloat.emin, prec, emax in En. lia.
Qed.

Lemma shr_record_of_loc_m m l : shr_m (shr_record_of_loc m l) = m.
Proof. destruct l as [|[| |]]; reflexivity. Qed.

Lemma bra_positive_small p e l :
  Z.pos p < 2 ^ 53 -> -1074 <= e <= 970 ->
  positive_sf (binary_round_aux prec emax false (Z.pos p) e l).
Proof.
  intros Hp He. apply bra_positive. do 2 eexists.
  split; [apply shr_fexp_small; lia|]. rewrite shr_record_of_loc_m. lia.
Qed.

(** The double of a positive integer below [2^63]. *)
Lemma binary_round_integer p :
  Z.pos p < 2 ^ 63 -> positive_sf (binary_round prec emax false p 0).
Proof.
  intros Hp. unfold binary_round.
  pose proof (digits2_pos_bounds p) as [Hd1 Hd2].
  set (dg := Z.pos (digits2_pos p)) in *.
  assert (Hdg : 1 <= dg <= 63).
  { split; [unfold dg; lia|].
    destruct (Z.le_gt_cases dg 63) as [H|H]; [exact H|]. exfalso.
    assert (2 ^ 63 <= 2 ^ (dg - 1)) by (apply Z.pow_le_mono_r; lia). lia. }
  replace (dg + 0) with dg by lia.
  assert (Efe : fexp prec emax dg = dg - 53)
    by (unfold fexp, SpecFloat.emin, prec, emax; lia).
  rewrite Efe. unfold shl_align.
  destruct (dg - 53 - 0) as [|k|k] eqn:Ek.
  - apply bra_positive_small; [|lia].
    assert (2 ^ dg <= 2 ^ 53) by (apply Z.pow_le_mono_r; lia). lia.
  - apply bra_positive. unfold shr_fexp, shr. cbn [Zdigits2]. fold dg.
    replace (dg + 0) with dg by lia. rewrite Efe.
    replace (dg - 53 - 0) with (Z.pos k) by lia.
    do 2 eexists. split; [reflexivity|].
    rewrite iter_shr_m by (cbn; lia). cbn [shr_record_of_loc shr_m].
    assert (Hpow : 0 < 2 ^ Z.pos k) by (apply Z.pow_pos_nonneg; lia).
    split; [split|lia].
    + apply Z.div_le_lower_bound; [exact Hpow|].
      assert (2 ^ Z.pos k <= 2 ^ (dg - 1)) by (apply Z.pow_le_mono_r; lia). lia.
    + apply Z.div_lt_upper_bound; [exact Hpow|].
      rewrite <- Z.pow_add_r by lia.
      replace (Z.pos k + 53) with dg by lia. exact Hd2.
  - apply bra_positive_small.
    + rewrite iter_xO_value.
      assert (Z.pos p * 2 ^ Z.pos k < 2 ^ dg * 2 ^ Z.pos k)
        by (apply Z.mul_lt_mono_pos_r; [apply Z.pow_pos_nonneg; lia | exact Hd2]).
      rewrite <- Z.pow_add_r in H by lia.
      replace (dg + Z.pos k) with 53 in H by lia. exact H.
    + lia.
Qed.

Lemma of_uint63_positive z :
  0 < z < 2 ^ 63 -> positive_sf (Prim2SF (of_uint63 (Uint63.of_Z z))).
Proof.
  intros Hz. rewrite of_uint63_spec, Uint63.of_Z_spec.
  rewrite Z.mod_small by (change Uint63Axioms.wB with (2 ^ 63); lia).
  destruct z as [|p|p]; [lia | | lia]. cbn [binary_normalize].
  apply binary_round_integer. lia.
Qed.

(** The square root of a positive finite double. *)
Lemma SFsqrt_positive x :
  valid_binary x = true -> positive_sf x -> positive_sf (SFsqrt prec emax x).
Proof.
  destruct x as [s|s| |s m e]; cbn [positive_sf]; try tauto.
  destruct s; [tauto|]. intros Hv _.
  unfold valid_binary, bounded, canonical_mantissa in Hv.
  apply andb_prop in Hv. destruct Hv as [Hc He].
  apply Z.eqb_eq in Hc. apply Z.leb_le in He.
  pose proof (digits2_pos_bounds m) as [Hd1 Hd2].
  set (d := Z.pos (digits2_pos m)) in *.
  assert (Hd : 1 <= d <= 53 /\ -1074 <= e <= 971).
  { unfold fexp, SpecFloat.emin, prec, emax in Hc, He. unfold d. lia. }
  clear Hc He. destruct Hd as [Hd He].
  cbn [SFsqrt]. unfold SFsqrt_core_binary. cbn [Zdigits2]. fold d.
  set (e' := Z.min (fexp prec emax (Z.div2 (d + e + 1))) (Z.div2 e)).
  assert (He' : -1074 <= e' <= 970 /\ 0 <= e - 2 * e' /\ d + (e - 2 * e') <= 106).
  { unfold e', fexp, SpecFloat.emin, prec, emax. rewrite !Z.div2_div.
    pose proof (Z.div_mod (d + e + 1) 2 ltac:(lia)).
    pose proof (Z.mod_pos_bound (d + e + 1) 2 ltac:(lia)).
    pose proof (Z.div_mod e 2 ltac:(lia)).
    pose proof (Z.mod_pos_bound e 2 ltac:(lia)).
    lia. }
  destruct He' as (He1 & Hs0 & Hs1).
  set (sh := e - 2 * e') in *.
  set (m' := match sh with 0 => Z.pos m | Z.pos _ => Z.shiftl (Z.pos m) sh | Z.neg _ => 0 end).
  assert (Hm' : m' = Z.pos m * 2 ^ sh).
  { unfold m'. destruct sh eqn:Esh; [cbn; lia | | lia]. now rewrite Z.shiftl_mul_pow2 by lia. }
  assert (Hm'b : 1 <= m' < 2 ^ 106).
  { rewrite Hm'. assert (0 < 2 ^ sh) by (apply Z.pow_pos_nonneg; lia). split; [nia|].
    assert (Z.pos m * 2 ^ sh < 2 ^ d * 2 ^ sh) by (apply Z.mul_lt_mono_pos_r; lia).
    rewrite <- Z.pow_add_r in H0 by lia.
    assert (2 ^ (d + sh) <= 2 ^ 106) by (apply Z.pow_le_mono_r; lia). lia. }
  pose proof (Z.sqrtrem_spec m' ltac:(lia)) as Hs.
  destruct (Z.sqrtrem m') as [q r].
  assert (Hq : 1 <= q < 2 ^ 53).
  { change (2 ^ 106) with (2 ^ 53 * 2 ^ 53) in Hm'b. nia. }
  destruct q as [|q|q]; [lia | | lia].
  apply bra_positive_small; lia.
Qed.

(** The square root of the length of a non-empty array. *)
Lemma sqrt_length_positive z :
  0 < z < 2 ^ 63 -> positive_sf (Prim2SF (sqrt (of_uint63 (Uint63.of_Z z)))).
Proof.
  intros Hz. rewrite sqrt_spec.
  apply SFsqrt_positive; [apply Prim2SF_valid | now apply of_uint63_positive].
Qed.

(** *** Encodings of finite numbers *)

Lemma finite_number_spec x : finite_number x -> finite_sf (Prim2SF x).
Proof.
  intros [Hn Hi]. apply is_nan_false in Hn.
  unfold is_infinity in Hi. rewrite eqb_spec, abs_spec in Hi.
  destruct (Prim2SF x) as [s|s| |s m e]; cbn; auto. discriminate.
Qed.

Lemma sub_self x : finite_number x -> (x - x = 0)%float.
Proof.
  intros H. apply finite_number_spec in H. apply Prim2SF_inj. rewrite sub_spec.
  destruct (Prim2SF x) as [s|s| |s m e]; cbn in *; try tauto.
  - destruct s; reflexivity.
  - now rewrite Z.sub_diag.
Qed.

End FloatFacts.

(** ** [Math.max], the capture gate and the encoding comparison *)

Module ScoreFacts.
Import Spec.

Local Open Scope float_scope.

Lemma max_zero_cases v :
  (is_nan v = true /\ JsNum.max 0 v = nan)
  \/ ((0 <? v) = true /\ JsNum.max 0 v = v)
  \/ (is_nan v = false /\ JsNum.max 0 v = 0).
Proof.
  unfold JsNum.max. change (is_nan 0) with false. cbn [orb].
  destruct (is_nan v) eqn:En; [now left|].
  change (JsNum.is_neg_zero 0) with false. rewrite andb_false_r.
  destruct (0 <? v) eqn:E; [right; left | right; right]; now split.
Qed.

(** [Math.max(0, 1 - x)] for a non-negative (or [NaN]) [x]. *)
Lemma similarity_range x :
  signed false (Prim2SF x) ->
  is_nan (JsNum.max 0 (1 - x)) = true \/ in_unit_interval (JsNum.max 0 (1 - x)).
Proof.
  intros Hx. destruct (max_zero_cases (1 - x)) as [[_ ->]|[[H ->]|[_ ->]]].
  - now left.
  - right. split; [now apply FloatFacts.ltb_leb | now apply FloatFacts.sub_one_le].
  - right. split; reflexivity.
Qed.

Lemma fold_signed (l : list (float * float)) acc :
  signed false (Prim2SF acc) ->
  signed false
    (Prim2SF (fold_left (fun d p => d + JsNum.pow2 (fst p - snd p)) l acc)).
Proof.
  revert acc. induction l as [|[a b] l IH]; intros acc H; cbn [fold_left]; [exact H|].
  apply IH. unfold JsNum.pow2. rewrite add_spec, mul_spec.
  apply FloatFacts.SFadd_signed; [exact H | apply FloatFacts.SFmul_self_signed].
Qed.

Lemma ratio_signed e1 e2 :
  signed false
    (Prim2SF (sqrt (FaceRecognitionAPI.squaredDistance e1 e2)
              / sqrt (JsNum.of_nat (List.length e1)))).
Proof.
  rewrite div_spec, !sqrt_spec.
  apply FloatFacts.SFdiv_signed; apply FloatFacts.SFsqrt_signed.
  - apply fold_signed. reflexivity.
  - apply FloatFacts.of_uint63_signed.
Qed.

Lemma squaredDistance_comm_from e1 e2 acc :
  fold_left (fun d p => d + JsNum.pow2 (fst p - snd p)) (combine e1 e2) acc
  = fold_left (fun d p => d + JsNum.pow2 (fst p - snd p)) (combine e2 e1) acc.
Proof.
  revert e2 acc. induction e1 as [|a e1 IH]; intros [|b e2] acc;
    cbn [combine fold_left fst snd]; try reflexivity.
  unfold JsNum.pow2 at 2 4. rewrite (FloatFacts.square_sub_comm a b). apply IH.
Qed.

Lemma squaredDistance_comm e1 e2 :
  FaceRecognitionAPI.squaredDistance e1 e2 = FaceRecognitionAPI.squaredDistance e2 e1.
Proof. apply squaredDistance_comm_from. Qed.

Lemma compare_comm e1 e2 threshold :
  FaceRecognitionAPI.compareFaceEncodings e1 e2 threshold
  = FaceRecognitionAPI.compareFaceEncodings e2 e1 threshold.
Proof.
  unfold FaceRecognitionAPI.compareFaceEncodings.
  rewrite (Nat.eqb_sym (List.length e2)).
  destruct (Nat.eqb_spec (List.length e1) (List.length e2)) as [E|E]; cbn [negb];
    [|reflexivity].
  now rewrite squaredDistance_comm, E.
Qed.

Lemma fold_number (l : list (float * float)) acc :
  Forall (fun p => finite_number (fst p) /\ finite_number (snd p)) l ->
  signed false (Prim2SF acc) -> Prim2SF acc <> S754_nan ->
  Prim2SF (fold_left (fun d p => d + JsNum.pow2 (fst p - snd p)) l acc) <> S754_nan.
Proof.
  intros Hl. revert acc. induction Hl as [|[a b] l [Ha Hb] Hl IH]; intros acc Hs Hn;
    cbn [fold_left fst snd]; [exact Hn|].
  assert (Hsq : Prim2SF (JsNum.pow2 (a - b)) <> S754_nan).
  { unfold JsNum.pow2. rewrite mul_spec. apply FloatFacts.SFmul_self_not_nan. rewrite sub_spec.
    apply FloatFacts.SFsub_finite_not_nan; now apply FloatFacts.finite_number_spec. }
  apply IH.
  - rewrite add_spec. apply FloatFacts.SFadd_signed; [exact Hs|].
    unfold JsNum.pow2. rewrite mul_spec. apply FloatFacts.SFmul_self_signed.
  - rewrite add_spec. apply FloatFacts.SFadd_not_nan; auto.
    unfold JsNum.pow2. rewrite mul_spec. apply FloatFacts.SFmul_self_signed.
Qed.

Lemma Forall_combine (e1 e2 : list float) :
  Forall finite_number e1 -> Forall finite_number e2 ->
  Forall (fun p => finite_number (fst p) /\ finite_number (snd p)) (combine e1 e2).
Proof.
  intros H1. revert e2. induction H1 as [|a e1 Ha H1 IH]; intros e2 H2; [constructor|].
  destruct H2 as [|b e2 Hb H2]; constructor; auto.
Qed.

Lemma fold_zero (l : list float) :
  Forall finite_number l ->
  fold_left (fun d p => d + JsNum.pow2 (fst p - snd p)) (combine l l) 0 = 0.
Proof.
  induction 1 as [|a l Ha Hl IH]; [reflexivity|].
  cbn [combine fold_left fst snd]. rewrite (FloatFacts.sub_self a Ha). exact IH.
Qed.

(** The similarity of two non-empty encodings of finite numbers is a number
    of [[0, 1]]. *)
Lemma similarity_in_unit e1 e2 :
  (0 < Z.of_nat (List.length e1) < 2 ^ 32)%Z ->
  Forall finite_number e1 -> Forall finite_number e2 ->
  in_unit_interval
    (JsNum.max 0 (1 - sqrt (FaceRecognitionAPI.squaredDistance e1 e2)
                      / sqrt (JsNum.of_nat (List.length e1)))).
Proof.
  intros Hlen H1 H2.
  set (q := sqrt (FaceRecognitionAPI.squaredDistance e1 e2)
            / sqrt (JsNum.of_nat (List.length e1))).
  assert (Hq : signed false (Prim2SF q)) by apply ratio_signed.
  assert (Hn : Prim2SF (1 - q) <> S754_nan).
  { rewrite sub_spec. apply FloatFacts.SFsub_one_not_nan; [exact Hq|].
    unfold q. rewrite div_spec.
    pose proof (FloatFacts.sqrt_length_positive (Z.of_nat (List.length e1))) as Hp.
    assert (Hlt : (0 < Z.of_nat (List.length e1) < 2 ^ 63)%Z) by lia.
    specialize (Hp Hlt). unfold JsNum.of_nat, JsNum.of_Z.
    destruct (Prim2SF (sqrt (of_uint63 (Uint63.of_Z (Z.of_nat (List.length e1))))))
      as [s|s| |s m e]; cbn in Hp; try tauto. destruct s; [tauto|].
    apply FloatFacts.SFdiv_not_nan.
    - rewrite sqrt_spec. apply FloatFacts.SFsqrt_signed. apply fold_signed. reflexivity.
    - rewrite sqrt_spec. apply FloatFacts.SFsqrt_not_nan.
      + apply fold_signed. reflexivity.
      + apply fold_number; [now apply Forall_combine | reflexivity | discriminate]. }
  destruct (similarity_range q Hq) as [H|H]; [|exact H].
  exfalso. destruct (max_zero_cases (1 - q)) as [[Hv _]|[[Hv E]|[_ E]]].
  - apply FloatFacts.is_nan_spec in Hv. contradiction.
  - rewrite E in H. apply FloatFacts.is_nan_spec in H. contradiction.
  - rewrite E in H. discriminate.
Qed.

(** An encoding of finite numbers compared with itself. *)
Lemma compare_self e threshold :
  (0 < Z.of_nat (List.length e) < 2 ^ 32)%Z -> Forall finite_number e ->
  FaceRecognitionAPI.compareFaceEncodings e e threshold
  = FaceRecognitionAPI.mkComparison (threshold <=? 1) 1 (Some 0).
Proof.
  intros Hlen He. unfold FaceRecognitionAPI.compareFaceEncodings.
  rewrite Nat.eqb_refl. cbn [negb]. unfold FaceRecognitionAPI.squaredDistance.
  rewrite (fold_zero e He). change (sqrt 0) with 0.
  assert (E : 0 / sqrt (JsNum.of_nat (List.length e)) = 0).
  { apply Prim2SF_inj. rewrite div_spec.
    pose proof (FloatFacts.sqrt_length_positive (Z.of_nat (List.length e))) as Hp.
    assert (Hlt : (0 < Z.of_nat (List.length e) < 2 ^ 63)%Z) by lia.
    specialize (Hp Hlt). unfold JsNum.of_nat, JsNum.of_Z.
    destruct (Prim2SF (sqrt (of_uint63 (Uint63.of_Z (Z.of_nat (List.length e))))))
      as [s|s| |s m e0]; cbn in Hp; try tauto. destruct s; [tauto|]. reflexivity. }
  rewrite E. reflexivity.
Qed.

End ScoreFacts.

(** C6, as the claim states it, fails: with thresholds of 0.6 for the
    confidence and 30 for the quality a frame with a detected face, confidence
    0.65 and quality 35 meets both, and the smartphone-style capture does not
    start, its thresholds being the constants 0.7 and 40; and the modal stores
    a frame without looking at any score. *)
Lemma C6_counterexample :
  let d := RealTimeFaceDetection.mkDetection true 35 0.65 in
  (0.6 <=? RealTimeFaceDetection.detectionConfidence d)%float = true
  /\ (30 <=? RealTimeFaceDetection.faceQuality d)%float = true
  /\ RealTimeFaceDetection.captureStarts d = false
  /\ BiometricCapture.capturedCount
       (BiometricCapture.st
          (BiometricCapture.run None (Scenario.ready ++ Scenario.capture "Center" 1000)
             BiometricCapture.mount)) = 1.
Proof. vm_compute. repeat split. Qed.

(** C6, amended.  The smartphone-style capture starts exactly when a face is
    detected and neither [faceQuality < 40] nor [detectionConfidence < 0.7]
    holds, that is, for scores that are numbers, when the quality is at least
    the constant 40 and the confidence at least the constant 0.7.  The modal's
    [captureImage] starts the encoding of a frame exactly when the camera is
    streaming, the video is ready and the frame has non-zero dimensions; no
    score takes part. *)
Theorem C6_acceptance_gate :
  (forall d,
     RealTimeFaceDetection.captureStarts d = true
     <-> RealTimeFaceDetection.faceDetected d = true
         /\ (RealTimeFaceDetection.faceQuality d <? 40)%float = false
         /\ (RealTimeFaceDetection.detectionConfidence d <? 0.7)%float = false)
  /\ (forall d,
        is_nan (RealTimeFaceDetection.faceQuality d) = false ->
        is_nan (RealTimeFaceDetection.detectionConfidence d) = false ->
        (RealTimeFaceDetection.captureStarts d = true
         <-> RealTimeFaceDetection.faceDetected d = true
             /\ (40 <=? RealTimeFaceDetection.faceQuality d)%float = true
             /\ (0.7 <=? RealTimeFaceDetection.detectionConfidence d)%float = true))
  /\ (forall angle w h s,
        snd (BiometricCapture.captureImage angle w h s) <> []
        <-> BiometricCapture.stream s <> None /\ BiometricCapture.isVideoReady s = true
            /\ w <> 0%Z /\ h <> 0%Z).
Proof.
  assert (H1 : forall d,
     RealTimeFaceDetection.captureStarts d = true
     <-> RealTimeFaceDetection.faceDetected d = true
         /\ (RealTimeFaceDetection.faceQuality d <? 40)%float = false
         /\ (RealTimeFaceDetection.detectionConfidence d <? 0.7)%float = false).
  { intros d. unfold RealTimeFaceDetection.captureStarts.
    rewrite negb_true_iff, !orb_false_iff, negb_false_iff. tauto. }
  split; [exact H1|]. split.
  - intros d Hq Hc. rewrite H1, !FloatFacts.ltb_false_iff.
    change (is_nan 40) with false. change (is_nan 0.7) with false.
    rewrite Hq, Hc. intuition discriminate.
  - intros angle w h s.
    unfold BiometricCapture.captureImage, BiometricCapture.refsMounted.
    destruct (BiometricCapture.stream s) eqn:Es; cbn [negb orb];
      [|cbn; intuition congruence].
    destruct (BiometricCapture.isVideoReady s) eqn:Er; cbn [negb orb];
      [|cbn; intuition congruence].
    destruct (Z.eqb_spec w 0) as [Ew|Ew]; cbn [orb]; [cbn; intuition congruence|].
    destruct (Z.eqb_spec h 0) as [Eh|Eh]; cbn; intuition congruence.
Qed.

Lemma C6_witness :
  RealTimeFaceDetection.captureStarts (RealTimeFaceDetection.mkDetection true 40 0.7) = true
  /\ RealTimeFaceDetection.captureStarts (RealTimeFaceDetection.mkDetection true 39 0.9) = false.
Proof.
  split.
  - apply (proj1 (proj2 C6_acceptance_gate) (RealTimeFaceDetection.mkDetection true 40 0.7));
      [reflexivity | reflexivity |]. repeat split.
  - destruct (RealTimeFaceDetection.captureStarts
                (RealTimeFaceDetection.mkDetection true 39 0.9)) eqn:E; [|reflexivity].
    apply (proj1 (proj2 C6_acceptance_gate) (RealTimeFaceDetection.mkDetection true 39 0.9)
             eq_refl eq_refl) in E.
    destruct E as (_ & E & _). vm_compute in E. discriminate.
Defined.

(** C10, as the claim states it, fails: for two empty encodings, which have
    the same length, the similarity is [0 / 0], that is [NaN], and not a
    number of [[0, 1]]. *)
Lemma C10_counterexample :
  is_nan (FaceRecognitionAPI.similarity
            (FaceRecognitionAPI.compareFaceEncodings [] [] FaceRecognitionAPI.defaultThreshold))
  = true
  /\ (0 <=? FaceRecognitionAPI.similarity
              (FaceRecognitionAPI.compareFaceEncodings [] []
                 FaceRecognitionAPI.defaultThreshold))%float = false.
Proof. vm_compute. split; reflexivity. Qed.

(** C10, amended.  [compareFaceEncodings] returns [match = false] and
    [similarity = 0] for encodings of different lengths.  For encodings of the
    same length the similarity is never outside [[0, 1]]: it is [NaN] (as for
    two empty encodings) or lies in [[0, 1]], and it does lie in [[0, 1]] when
    the encodings are not empty and hold finite numbers; [match] is true
    exactly when the similarity is at least the threshold.  The result is the
    same when the two encodings are swapped. *)
Theorem C10_compare_encodings :
  (forall e1 e2 threshold,
     List.length e1 <> List.length e2 ->
     FaceRecognitionAPI.compareFaceEncodings e1 e2 threshold
     = FaceRecognitionAPI.mkComparison false 0 None)
  /\ (forall e1 e2 threshold,
        List.length e1 = List.length e2 ->
        let r := FaceRecognitionAPI.compareFaceEncodings e1 e2 threshold in
        (is_nan (FaceRecognitionAPI.similarity r) = true
         \/ Spec.in_unit_interval (FaceRecognitionAPI.similarity r))
        /\ (FaceRecognitionAPI.is_match r = true
            <-> (threshold <=? FaceRecognitionAPI.similarity r)%float = true))
  /\ (forall e1 e2 threshold,
        List.length e1 = List.length e2 ->
        (0 < Z.of_nat (List.length e1) < 2 ^ 32)%Z ->
        Forall Spec.finite_number e1 -> Forall Spec.finite_number e2 ->
        Spec.in_unit_interval
          (FaceRecognitionAPI.similarity
             (FaceRecognitionAPI.compareFaceEncodings e1 e2 threshold)))
  /\ (forall e1 e2 threshold,
        FaceRecognitionAPI.compareFaceEncodings e1 e2 threshold
        = FaceRecognitionAPI.compareFaceEncodings e2 e1 threshold)
  /\ (forall threshold,
        is_nan (FaceRecognitionAPI.similarity
                  (FaceRecognitionAPI.compareFaceEncodings [] [] threshold)) = true).
Proof.
  split; [|split; [|split; [|split]]].
  - intros e1 e2 threshold H. unfold FaceRecognitionAPI.compareFaceEncodings.
    apply Nat.eqb_neq in H. now rewrite H.
  - intros e1 e2 threshold H r. subst r. unfold FaceRecognitionAPI.compareFaceEncodings.
    apply Nat.eqb_eq in H. rewrite H. cbn [negb FaceRecognitionAPI.similarity
      FaceRecognitionAPI.is_match]. split.
    + apply ScoreFacts.similarity_range, ScoreFacts.ratio_signed.
    + unfold JsNum.geb. tauto.
  - intros e1 e2 threshold H Hlen H1 H2. unfold FaceRecognitionAPI.compareFaceEncodings.
    apply Nat.eqb_eq in H. rewrite H. cbn [negb FaceRecognitionAPI.similarity].
    now apply ScoreFacts.similarity_in_unit.
  - apply ScoreFacts.compare_comm.
  - intros threshold. reflexivity.
Qed.

Lemma C10_witness :
  FaceRecognitionAPI.compareFaceEncodings [1; 0]%float [1]%float 0.6%float
  = FaceRecognitionAPI.mkComparison false 0 None
  /\ FaceRecognitionAPI.is_match
       (FaceRecognitionAPI.compareFaceEncodings [1; 0]%float [1; 0.5]%float 0.6%float) = true.
Proof.
  split.
  - apply (proj1 C10_compare_encodings). discriminate.
  - apply (proj2 (proj1 (proj2 C10_compare_encodings) [1; 0]%float [1; 0.5]%float 0.6%float
                    eq_refl)).
    vm_compute. reflexivity.
Defined.

(** * Further properties of the modelled code *)

(** X1. The 5 s timer of the modal's mount effect reads [stream] and
    [cameraError] of the first render: whatever happened since the mount,
    when it fires it shows "Camera timeout. Click Start Camera to try again."
    and changes nothing else, also when the camera has been acquired. *)
Theorem X1_mount_timer_sets_timeout :
  forall employeeId es,
    ~ In BiometricCapture.MountTimerFires es ->
    let y := BiometricCapture.run employeeId es BiometricCapture.mount in
    let y' := BiometricCapture.step employeeId BiometricCapture.MountTimerFires y in
    BiometricCapture.cameraError (BiometricCapture.st y')
    = Some "Camera timeout. Click Start Camera to try again."%string
    /\ BiometricCapture.stream (BiometricCapture.st y')
       = BiometricCapture.stream (BiometricCapture.st y)
    /\ BiometricCapture.capturedImages (BiometricCapture.st y')
       = BiometricCapture.capturedImages (BiometricCapture.st y).
Proof.
  intros employeeId es Hno y y'.
  assert (Ht : BiometricCapture.mountTimer y = Some (None, None)).
  { subst y. unfold BiometricCapture.run. rewrite <- fold_left_rev_right.
    assert (Hno' : ~ In BiometricCapture.MountTimerFires (rev es))
      by (intros H; apply Hno; now apply in_rev).
    induction (rev es) as [|e l IH]; [reflexivity|]. cbn [fold_right].
    assert (He : e <> BiometricCapture.MountTimerFires)
      by (intros ->; apply Hno'; now left).
    assert (Hl : ~ In BiometricCapture.MountTimerFires l)
      by (intros H; apply Hno'; now right).
    specialize (IH Hl). revert IH.
    generalize (fold_right (fun e y => BiometricCapture.step employeeId e y)
                  BiometricCapture.mount l).
    intros y0 IH. destruct e; cbn [BiometricCapture.step]; try congruence;
      repeat match goal with
             | |- context [if ?c then _ else _] => destruct c
             | |- context [match ?c with _ => _ end] => destruct c
             end; exact IH. }
  subst y'. cbn [BiometricCapture.step]. rewrite Ht. repeat split.
Qed.

Lemma X1_witness :
  let y := BiometricCapture.run None Scenario.ready BiometricCapture.mount in
  BiometricCapture.stream (BiometricCapture.st y) = Some 1
  /\ BiometricCapture.isVideoReady (BiometricCapture.st y) = true
  /\ BiometricCapture.cameraError
       (BiometricCapture.st (BiometricCapture.step None BiometricCapture.MountTimerFires y))
     = Some "Camera timeout. Click Start Camera to try again."%string.
Proof.
  intros y. split; [reflexivity|]. split; [reflexivity|].
  apply (X1_mount_timer_sets_timeout None Scenario.ready).
  cbn. intuition discriminate.
Defined.



(** X3. In the guided flow never more than one timer or registration request
    is pending, and while one is pending [isCapturing] is true, which disables
    the capture and the register buttons. *)
Theorem X3_guided_one_pending :
  forall employeeId es,
    let y := BasicBiometricCapture.run employeeId es BasicBiometricCapture.mount in
    List.length (BasicBiometricCapture.timers y)
    + List.length (BasicBiometricCapture.requests y) <= 1
    /\ (BasicBiometricCapture.timers y <> [] \/ BasicBiometricCapture.requests y <> [] ->
        BasicBiometricCapture.isCapturing (BasicBiometricCapture.st y) = true).
Proof.
  intros employeeId es y.
  pose proof (BasicFacts.guided_run_inv employeeId es _ BasicFacts.guided_mount_inv)
    as (_ & _ & Hc & Hb & _). fold y in Hc, Hb. cbv zeta in Hc, Hb.
  split; [exact Hc|]. intros H. apply Hb.
  destruct (BasicBiometricCapture.timers y), (BasicBiometricCapture.requests y);
    cbn in *; try lia. destruct H; congruence.
Qed.

Lemma X3_witness :
  BasicBiometricCapture.isCapturing
    (BasicBiometricCapture.st
       (BasicBiometricCapture.run "E1" [BasicBiometricCapture.ClickCapture Scenario.frame 1]
          BasicBiometricCapture.mount)) = true.
Proof.
  apply (proj2 (X3_guided_one_pending "E1"%string
                  [BasicBiometricCapture.ClickCapture Scenario.frame 1])).
  left. discriminate.
Defined.

(** ** Keys of the registration request of the guided flow *)

Module RequestFacts.
Import BasicBiometricCapture.

Lemma keys_set_assign {V} (o : JsObject.t V) k v :
  JsObject.keys (JsObject.set k v o) = Spec.assign_keys [k] (JsObject.keys o).
Proof.
  unfold Spec.assign_keys. cbn [fold_left].
  destruct (existsb (String.eqb k) (JsObject.keys o)) eqn:E.
  - apply JsObjectFacts.keys_set_present. apply existsb_exists in E.
    destruct E as [x [Hx E]]. apply String.eqb_eq in E. now subst.
  - apply JsObjectFacts.keys_set_absent. intros Hin.
    assert (existsb (String.eqb k) (JsObject.keys o) = true)
      by (apply existsb_exists; exists k; split; [exact Hin | apply String.eqb_refl]).
    congruence.
Qed.

Lemma keys_fold_assign (l : list Capture) (o : JsObject.t string) :
  JsObject.keys
    (fold_left (fun o c => JsObject.set (angleName (angle c)) (image c) o) l o)
  = Spec.assign_keys (map (fun c => angleName (angle c)) l) (JsObject.keys o).
Proof.
  revert o. induction l as [|c l IH]; intros o; [reflexivity|].
  cbn [fold_left map]. rewrite IH, keys_set_assign. reflexivity.
Qed.

(** The keys of [biometricImages] are read off the stored [angle] values. *)
Lemma keys_biometricImages l :
  JsObject.keys (biometricImages l)
  = Spec.assign_keys (map angleName (firstn 5 (map angle l))) [].
Proof.
  unfold biometricImages, slice5. rewrite keys_fold_assign.
  rewrite firstn_map, map_map. reflexivity.
Qed.

(** A reachable state in which the capture button is enabled has no pending
    callback, and its step counter is the number of captures. *)
Lemma idle_state employeeId es :
  let y := run employeeId es mount in
  isCapturing (st y) = false ->
  timers y = [] /\ requests y = []
  /\ map angle (capturedImages (st y))
     = firstn (List.length (capturedImages (st y))) Spec.labels
  /\ (List.length (capturedImages (st y)) <= 4 ->
      currentAngle (st y) = List.length (capturedImages (st y))).
Proof.
  intros y Hcap.
  pose proof (BasicFacts.guided_run_inv employeeId es _ BasicFacts.guided_mount_inv)
    as (Hm & _ & Hc & Hb & Ht). fold y in Hm, Hc, Hb, Ht. cbv zeta in Hm, Hc, Hb, Ht.
  assert (Hnone : List.length (timers y) + List.length (requests y) = 0).
  { destruct (Nat.eq_dec (List.length (timers y) + List.length (requests y)) 1) as [H1|H1];
      [apply Hb in H1; congruence | lia]. }
  destruct (timers y) as [|c0 ts]; [|cbn in Hnone; lia].
  destruct (requests y) as [|r0 rs]; [|cbn in Hnone; lia].
  repeat split; [exact Hm|]. intros Hle. destruct Ht as [[H _]|[H _]]; lia.
Qed.

End RequestFacts.

(** X4. In the guided flow the registration that starts by itself after the
    fifth capture runs in the closure of the render before that capture: five
    captures are stored, and the request carries the first four only (the
    "down angle" image is missing), as does the object later handed to
    [onComplete]. *)
Theorem X4_auto_registration_sends_four :
  forall employeeId es f now,
    let y := BasicBiometricCapture.run employeeId es BasicBiometricCapture.mount in
    BasicBiometricCapture.isCapturing (BasicBiometricCapture.st y) = false ->
    List.length (BasicBiometricCapture.capturedImages (BasicBiometricCapture.st y)) = 4 ->
    ImageData.width (BasicBiometricCapture.pixels f) <> 0%Z ->
    ImageData.height (BasicBiometricCapture.pixels f) <> 0%Z ->
    let y2 := BasicBiometricCapture.step employeeId BasicBiometricCapture.TimerFires
                (BasicBiometricCapture.step employeeId
                   (BasicBiometricCapture.ClickCapture f now) y) in
    List.length (BasicBiometricCapture.capturedImages (BasicBiometricCapture.st y2)) = 5
    /\ exists c r,
         BasicBiometricCapture.log y2
         = BasicBiometricCapture.log y
           ++ [BasicBiometricCapture.SetTimeout500 c; BasicBiometricCapture.Fetch c r]
         /\ BasicBiometricCapture.requests y2 = [c]
         /\ BasicBiometricCapture.c_capturedImages c
            = BasicBiometricCapture.capturedImages (BasicBiometricCapture.st y)
         /\ JsObject.keys (BasicBiometricCapture.biometric_images r)
            = ["Frontal"; "Leftprofile"; "Rightprofile"; "Upangle"]%string
         /\ forall s,
              snd (BasicBiometricCapture.completeCapture_done employeeId c
                     (BasicBiometricCapture.Replied true true) s)
              = [BasicBiometricCapture.Alert true;
                 BasicBiometricCapture.OnComplete
                   (BasicBiometricCapture.mkCompletion
                      (BasicBiometricCapture.capturedImages (BasicBiometricCapture.st y))
                      employeeId)].
Proof.
  intros employeeId es f now y Hcap Hlen Hw Hh y2.
  pose proof (BasicFacts.guided_run_inv employeeId es _ BasicFacts.guided_mount_inv)
    as (Hm & _ & Hc & Hb & Ht). fold y in Hm, Hc, Hb, Ht. cbv zeta in Hm, Hc, Hb, Ht.
  assert (Hnone : List.length (BasicBiometricCapture.timers y)
                  + List.length (BasicBiometricCapture.requests y) = 0).
  { destruct (Nat.eq_dec (List.length (BasicBiometricCapture.timers y)
                          + List.length (BasicBiometricCapture.requests y)) 1) as [H1|H1];
      [apply Hb in H1; congruence | lia]. }
  destruct (BasicBiometricCapture.timers y) as [|c0 ts] eqn:Et; [|cbn in Hnone; lia].
  destruct (BasicBiometricCapture.requests y) as [|r0 rs] eqn:Er; [|cbn in Hnone; lia].
  assert (Hcur : BasicBiometricCapture.currentAngle (BasicBiometricCapture.st y) = 4)
    by (destruct Ht as [[H _]|[H _]]; lia).
  assert (E5 : (5 <=? List.length
                  (BasicBiometricCapture.capturedImages (BasicBiometricCapture.st y)))%nat
               = false) by (rewrite Hlen; reflexivity).
  assert (Ez : ((ImageData.width (BasicBiometricCapture.pixels f) =? 0)
                || (ImageData.height (BasicBiometricCapture.pixels f) =? 0))%Z = false).
  { apply orb_false_intro; now apply Z.eqb_neq. }
  subst y2. cbn [BasicBiometricCapture.step]. rewrite Hcap, E5. cbn [orb].
  unfold BasicBiometricCapture.captureImage. rewrite E5, Ez, Hcur.
  cbn [nth_error BasicBiometricCapture.angles].
  cbn [BasicBiometricCapture.absorb BasicBiometricCapture.st fst snd
       BasicBiometricCapture.timers BasicBiometricCapture.requests
       BasicBiometricCapture.log flat_map app]. rewrite Et, Er. cbn [app].
  unfold BasicBiometricCapture.timerCallback, BasicBiometricCapture.closure_of.
  rewrite Hcur. cbn [BasicBiometricCapture.c_currentAngle Nat.ltb Nat.leb
    BasicBiometricCapture.angles List.length Nat.sub].
  unfold BasicBiometricCapture.completeCapture.
  cbn [BasicBiometricCapture.absorb BasicBiometricCapture.st fst snd
       BasicBiometricCapture.timers BasicBiometricCapture.requests
       BasicBiometricCapture.log flat_map app
       BasicBiometricCapture.set_isCapturing BasicBiometricCapture.set_capturedImages
       BasicBiometricCapture.capturedImages BasicBiometricCapture.c_capturedImages].
  split.
  - unfold BasicBiometricCapture.slice5.
    rewrite firstn_all2 by (rewrite length_app; cbn; lia).
    rewrite length_app. cbn. lia.
  - do 2 eexists. split; [rewrite <- app_assoc; reflexivity|].
    split; [reflexivity|]. split; [reflexivity|]. split.
    + cbn [BasicBiometricCapture.biometric_images].
      rewrite RequestFacts.keys_biometricImages, Hm, Hlen. reflexivity.
    + intros s. unfold BasicBiometricCapture.completeCapture_done.
      cbn [snd BasicBiometricCapture.c_capturedImages].
      unfold BasicBiometricCapture.slice5.
      now rewrite firstn_all2 by lia.
Qed.

Lemma X4_witness :
  let y2 := BasicBiometricCapture.run "E1"
              (Scenario.guided_capture 1 ++ Scenario.guided_capture 2
               ++ Scenario.guided_capture 3 ++ Scenario.guided_capture 4
               ++ Scenario.guided_capture 5)
              BasicBiometricCapture.mount in
  List.length (BasicBiometricCapture.capturedImages (BasicBiometricCapture.st y2)) = 5
  /\ List.length (BasicBiometricCapture.requests y2) = 1.
Proof.
  intros y2.
  pose proof (X4_auto_registration_sends_four "E1"%string
                (Scenario.guided_capture 1 ++ Scenario.guided_capture 2
                 ++ Scenario.guided_capture 3 ++ Scenario.guided_capture 4)
                Scenario.frame 5%Z eq_refl eq_refl
                ltac:(discriminate) ltac:(discriminate)) as H.
  cbv zeta in H. destruct H as (H1 & c & r & _ & H2 & _).
  split; [exact H1|]. change (BasicBiometricCapture.requests y2) with
    (BasicBiometricCapture.requests
       (BasicBiometricCapture.step "E1" BasicBiometricCapture.TimerFires
          (BasicBiometricCapture.step "E1"
             (BasicBiometricCapture.ClickCapture Scenario.frame 5)
             (BasicBiometricCapture.run "E1"
                (Scenario.guided_capture 1 ++ Scenario.guided_capture 2
                 ++ Scenario.guided_capture 3 ++ Scenario.guided_capture 4)
                BasicBiometricCapture.mount)))).
  now rewrite H2.
Defined.

(** X5. In the guided flow a click on "Register Biometric" (rendered once five
    captures are stored, enabled while nothing is pending) sends the images of
    all five captures, under the keys Frontal, Leftprofile, Rightprofile,
    Upangle and Downangle, and disables the buttons until the reply. *)
Theorem X5_manual_registration_sends_five :
  forall employeeId es,
    let y := BasicBiometricCapture.run employeeId es BasicBiometricCapture.mount in
    BasicBiometricCapture.isCapturing (BasicBiometricCapture.st y) = false ->
    List.length (BasicBiometricCapture.capturedImages (BasicBiometricCapture.st y)) = 5 ->
    let y' := BasicBiometricCapture.step employeeId BasicBiometricCapture.ClickRegister y in
    BasicBiometricCapture.isCapturing (BasicBiometricCapture.st y') = true
    /\ exists c r,
         BasicBiometricCapture.log y'
         = BasicBiometricCapture.log y ++ [BasicBiometricCapture.Fetch c r]
         /\ BasicBiometricCapture.requests y' = [c]
         /\ BasicBiometricCapture.c_capturedImages c
            = BasicBiometricCapture.capturedImages (BasicBiometricCapture.st y)
         /\ BasicBiometricCapture.employee_id r = employeeId
         /\ JsObject.keys (BasicBiometricCapture.biometric_images r)
            = ["Frontal"; "Leftprofile"; "Rightprofile"; "Upangle"; "Downangle"]%string.
Proof.
  intros employeeId es y Hcap Hlen y'.
  destruct (RequestFacts.idle_state employeeId es Hcap) as (Et & Er & Hm & _).
  fold y in Et, Er, Hm. subst y'. cbn [BasicBiometricCapture.step].
  rewrite Hcap, Hlen. cbn [Nat.leb andb negb].
  unfold BasicBiometricCapture.completeCapture, BasicBiometricCapture.closure_of.
  cbn [BasicBiometricCapture.absorb BasicBiometricCapture.st fst snd
       BasicBiometricCapture.timers BasicBiometricCapture.requests
       BasicBiometricCapture.log flat_map app
       BasicBiometricCapture.set_isCapturing BasicBiometricCapture.isCapturing
       BasicBiometricCapture.c_capturedImages].
  rewrite Er. split; [reflexivity|]. do 2 eexists.
  split; [reflexivity|]. split; [reflexivity|]. split; [reflexivity|].
  split; [reflexivity|].
  cbn [BasicBiometricCapture.biometric_images].
  rewrite RequestFacts.keys_biometricImages, Hm, Hlen. reflexivity.
Qed.

Lemma X5_witness :
  let y := BasicBiometricCapture.run "E1"
             (Scenario.guided_capture 1 ++ Scenario.guided_capture 2
              ++ Scenario.guided_capture 3 ++ Scenario.guided_capture 4
              ++ Scenario.guided_capture 5
              ++ [BasicBiometricCapture.FetchDone BasicBiometricCapture.Failed])
             BasicBiometricCapture.mount in
  BasicBiometricCapture.isCapturing
    (BasicBiometricCapture.st
       (BasicBiometricCapture.step "E1" BasicBiometricCapture.ClickRegister y)) = true.
Proof.
  intros y.
  apply (X5_manual_registration_sends_five "E1"%string
           (Scenario.guided_capture 1 ++ Scenario.guided_capture 2
            ++ Scenario.guided_capture 3 ++ Scenario.guided_capture 4
            ++ Scenario.guided_capture 5
            ++ [BasicBiometricCapture.FetchDone BasicBiometricCapture.Failed])
           eq_refl eq_refl).
Defined.

(** X6. "Recapture" does not cancel the timer of the fifth capture: clicked
    between that capture and its timer it empties the captures and returns to
    step 1, and the timer then still sends the registration request, built
    from the four captures of its closure. *)
Theorem X6_recapture_keeps_pending_registration :
  forall employeeId es f now,
    let y := BasicBiometricCapture.run employeeId es BasicBiometricCapture.mount in
    BasicBiometricCapture.isCapturing (BasicBiometricCapture.st y) = false ->
    List.length (BasicBiometricCapture.capturedImages (BasicBiometricCapture.st y)) = 4 ->
    ImageData.width (BasicBiometricCapture.pixels f) <> 0%Z ->
    ImageData.height (BasicBiometricCapture.pixels f) <> 0%Z ->
    let y3 := BasicBiometricCapture.run employeeId
                [BasicBiometricCapture.ClickCapture f now;
                 BasicBiometricCapture.ClickRecapture;
                 BasicBiometricCapture.TimerFires] y in
    BasicBiometricCapture.capturedImages (BasicBiometricCapture.st y3) = []
    /\ BasicBiometricCapture.currentAngle (BasicBiometricCapture.st y3) = 0
    /\ BasicBiometricCapture.isCapturing (BasicBiometricCapture.st y3) = true
    /\ exists c r,
         BasicBiometricCapture.log y3
         = BasicBiometricCapture.log y
           ++ [BasicBiometricCapture.SetTimeout500 c; BasicBiometricCapture.Fetch c r]
         /\ BasicBiometricCapture.requests y3 = [c]
         /\ BasicBiometricCapture.c_capturedImages c
            = BasicBiometricCapture.capturedImages (BasicBiometricCapture.st y)
         /\ JsObject.keys (BasicBiometricCapture.biometric_images r)
            = ["Frontal"; "Leftprofile"; "Rightprofile"; "Upangle"]%string.
Proof.
  intros employeeId es f now y Hcap Hlen Hw Hh y3.
  destruct (RequestFacts.idle_state employeeId es Hcap) as (Et & Er & Hm & Hcur).
  fold y in Et, Er, Hm, Hcur. rewrite Hlen in Hcur. specialize (Hcur (le_n 4)).
  assert (E5 : (5 <=? List.length
                  (BasicBiometricCapture.capturedImages (BasicBiometricCapture.st y)))%nat
               = false) by (rewrite Hlen; reflexivity).
  assert (Ez : ((ImageData.width (BasicBiometricCapture.pixels f) =? 0)
                || (ImageData.height (BasicBiometricCapture.pixels f) =? 0))%Z = false).
  { apply orb_false_intro; now apply Z.eqb_neq. }
  assert (E6 : forall c : BasicBiometricCapture.Capture,
             (5 <=? List.length
                (BasicBiometricCapture.slice5
                   (BasicBiometricCapture.capturedImages (BasicBiometricCapture.st y) ++ [c])))%nat
             = true).
  { intros c. unfold BasicBiometricCapture.slice5.
    rewrite firstn_all2 by (rewrite length_app; cbn; lia).
    rewrite length_app, Hlen. reflexivity. }
  subst y3. unfold BasicBiometricCapture.run. cbn [fold_left].
  cbn [BasicBiometricCapture.step]. rewrite Hcap, E5. cbn [orb].
  unfold BasicBiometricCapture.captureImage. rewrite E5, Ez, Hcur.
  cbn [nth_error BasicBiometricCapture.angles].
  cbn [BasicBiometricCapture.absorb BasicBiometricCapture.st fst snd
       BasicBiometricCapture.timers BasicBiometricCapture.requests
       BasicBiometricCapture.log flat_map app
       BasicBiometricCapture.set_isCapturing BasicBiometricCapture.set_capturedImages
       BasicBiometricCapture.capturedImages].
  rewrite E6.
  cbn [BasicBiometricCapture.absorb BasicBiometricCapture.st fst snd
       BasicBiometricCapture.timers BasicBiometricCapture.requests
       BasicBiometricCapture.log flat_map app].
  rewrite Et, Er. cbn [app].
  unfold BasicBiometricCapture.timerCallback, BasicBiometricCapture.closure_of,
    BasicBiometricCapture.recapture.
  rewrite Hcur. cbn [BasicBiometricCapture.c_currentAngle Nat.ltb Nat.leb
    BasicBiometricCapture.angles List.length Nat.sub].
  unfold BasicBiometricCapture.completeCapture.
  cbn [BasicBiometricCapture.absorb BasicBiometricCapture.st fst snd
       BasicBiometricCapture.timers BasicBiometricCapture.requests
       BasicBiometricCapture.log flat_map app
       BasicBiometricCapture.set_isCapturing BasicBiometricCapture.set_capturedImages
       BasicBiometricCapture.set_currentAngle BasicBiometricCapture.isCapturing
       BasicBiometricCapture.currentAngle
       BasicBiometricCapture.capturedImages BasicBiometricCapture.c_capturedImages].
  repeat (split; [reflexivity|]). do 2 eexists.
  split; [rewrite app_nil_r, <- app_assoc; reflexivity|].
  split; [reflexivity|]. split; [reflexivity|].
  cbn [BasicBiometricCapture.biometric_images].
  rewrite RequestFacts.keys_biometricImages, Hm, Hlen. reflexivity.
Qed.

Lemma X6_witness :
  BasicBiometricCapture.capturedImages
    (BasicBiometricCapture.st
       (BasicBiometricCapture.run "E1"
          [BasicBiometricCapture.ClickCapture Scenario.frame 5;
           BasicBiometricCapture.ClickRecapture;
           BasicBiometricCapture.TimerFires]
          (BasicBiometricCapture.run "E1"
             (Scenario.guided_capture 1 ++ Scenario.guided_capture 2
              ++ Scenario.guided_capture 3 ++ Scenario.guided_capture 4)
             BasicBiometricCapture.mount))) = [].
Proof.
  apply (X6_recapture_keeps_pending_registration "E1"%string
           (Scenario.guided_capture 1 ++ Scenario.guided_capture 2
            ++ Scenario.guided_capture 3 ++ Scenario.guided_capture 4)
           Scenario.frame 5%Z eq_refl eq_refl ltac:(discriminate) ltac:(discriminate)).
Defined.

(** ** The automatic stop of the modal's camera *)

Module AutoStopFacts.
Import BiometricCapture.

Lemma stops_of_app e1 e2 : stops_of (e1 ++ e2) = stops_of e1 ++ stops_of e2.
Proof. apply flat_map_app. Qed.

Lemma stops_of_revoke_of a o : stops_of (revoke_of a o) = [].
Proof.
  unfold revoke_of. destruct (JsObject.get a o); [|reflexivity].
  destruct (truthy_string _); reflexivity.
Qed.

Lemma NoDup_angles : NoDup angles.
Proof.
  unfold angles. repeat constructor; cbn; intuition discriminate.
Qed.

(** With one property per angle and only angles as keys, five keys are all
    five angles. *)
Lemma five_keys_all_angles (o : JsObject.t Capture) :
  NoDup (JsObject.keys o) -> incl (JsObject.keys o) angles ->
  (JsObject.size o =? 5)%nat = forallb (fun a => JsObject.has a o) angles.
Proof.
  intros Hnd Hincl. unfold JsObject.size.
  destruct (forallb (fun a => JsObject.has a o) angles) eqn:Ef.
  - apply Nat.eqb_eq. rewrite forallb_forall in Ef.
    assert (H1 : incl angles (JsObject.keys o))
      by (intros a Ha; apply JsObjectFacts.has_keys, Ef, Ha).
    pose proof (NoDup_incl_length NoDup_angles H1) as L1.
    pose proof (NoDup_incl_length Hnd Hincl) as L2.
    change (List.length angles) with 5 in L1, L2. lia.
  - apply Nat.eqb_neq. intros H5.
    assert (H1 : incl angles (JsObject.keys o)).
    { apply NoDup_length_incl; [exact Hnd | rewrite H5; apply le_n | exact Hincl]. }
    assert (forallb (fun a => JsObject.has a o) angles = true); [|congruence].
    apply forallb_forall. intros a Ha. apply JsObjectFacts.has_keys, H1, Ha.
Qed.

End AutoStopFacts.

(** X7. In the modal, when the [toBlob] callback of a capture stores its
    frame, the 500 ms timer that stops the camera is started exactly when all
    five angles are then stored (the code tests for five keys), and it is
    handed the stream of the render in which the capture was clicked. *)
Theorem X7_auto_stop_when_all_angles :
  forall employeeId es i c b imageUrl now,
    let y := BiometricCapture.run employeeId es BiometricCapture.mount in
    nth_error (BiometricCapture.pendingBlobs y) i = Some c ->
    let y' := BiometricCapture.step employeeId
                (BiometricCapture.BlobReady i (Some b) imageUrl now) y in
    BiometricCapture.pendingStops y'
    = BiometricCapture.pendingStops y
      ++ (if forallb (fun a => JsObject.has a
                                 (BiometricCapture.capturedImages (BiometricCapture.st y')))
                     BiometricCapture.angles
          then [BiometricCapture.bc_stream c] else []).
Proof.
  intros employeeId es i c b imageUrl now y Hc y'.
  pose proof (BiometricCaptureFacts.modal_run_inv employeeId
                (es ++ [BiometricCapture.BlobReady i (Some b) imageUrl now]) _
                BiometricCaptureFacts.modal_mount_inv) as Hinv.
  unfold BiometricCapture.run in Hinv. rewrite fold_left_app in Hinv.
  cbn [fold_left] in Hinv. fold (BiometricCapture.run employeeId es BiometricCapture.mount) in Hinv.
  fold y in Hinv. fold y' in Hinv. destruct Hinv as (Hnd & Hincl & _).
  rewrite <- (AutoStopFacts.five_keys_all_angles _ Hnd Hincl).
  subst y'. cbn [BiometricCapture.step]. rewrite Hc.
  unfold BiometricCapture.blobCallback.
  cbn [BiometricCapture.absorb BiometricCapture.pendingStops BiometricCapture.st fst snd
       BiometricCapture.capturedImages BiometricCapture.set_cameraError
       BiometricCapture.set_capturedImages].
  rewrite AutoStopFacts.stops_of_app, AutoStopFacts.stops_of_revoke_of. cbn [app].
  destruct (JsObject.size _ =? 5)%nat; reflexivity.
Qed.

Lemma X7_witness :
  let y := BiometricCapture.run None
             (Scenario.ready ++ [BiometricCapture.ClickAngle "Center" 640 480])
             BiometricCapture.mount in
  BiometricCapture.pendingStops
    (BiometricCapture.step None
       (BiometricCapture.BlobReady 0 (Some "jpeg"%string) "blob:1" 1000) y) = [].
Proof.
  intros y.
  exact (X7_auto_stop_when_all_angles None
           (Scenario.ready ++ [BiometricCapture.ClickAngle "Center" 640 480])
           0 _ "jpeg"%string "blob:1"%string 1000%Z eq_refl).
Defined.

(** ** Object URLs of replaced captures *)

Module UrlFacts.
Import BiometricCapture.




End UrlFacts.



(** ** The registration of the modal *)

Module ReaderFacts.
Import BiometricCapture.

Lemma until_comma_no_comma b : Spec.has_comma b = false -> until_comma b = b.
Proof.
  induction b as [|c r IH]; cbn; [reflexivity|].
  destruct (Ascii.eqb c ","); [discriminate|]. cbn. intros H. now rewrite IH.
Qed.

Lemma split_comma_1_app p b :
  Spec.has_comma p = false ->
  split_comma_1 (p ++ String "," b)%string = Some (until_comma b).
Proof.
  induction p as [|c r IH]; cbn; [reflexivity|].
  destruct (Ascii.eqb c ","); [discriminate|]. exact IH.
Qed.

Lemma split_comma_1_none s : Spec.has_comma s = false -> split_comma_1 s = None.
Proof.
  induction s as [|c r IH]; cbn; [reflexivity|].
  destruct (Ascii.eqb c ","); [discriminate|]. exact IH.
Qed.

(** A handler result that starts no [FileReader] and leaves [isRegistering]
    as it is keeps the invariant. *)
Lemma quiet_registering y y0 r :
  pendingReaders y0 = pendingReaders y -> st y0 = st y ->
  readers_of (snd r) = [] -> isRegistering (fst r) = isRegistering (st y) ->
  Spec.registering_inv y -> Spec.registering_inv (absorb y0 r).
Proof.
  intros Hp Hs Hr Hi [H1 H2]. unfold Spec.registering_inv.
  cbn [absorb pendingReaders st]. now rewrite Hp, Hr, app_nil_r, Hi.
Qed.

Lemma mount_registering_inv : Spec.registering_inv mount.
Proof. split; cbn; [lia | congruence]. Qed.

Lemma step_registering_inv employeeId e y :
  Spec.registering_inv y -> Spec.registering_inv (step employeeId e y).
Proof.
  intros Hinv. destruct e; cbn [step].
  - destruct (_ || _); [apply (quiet_registering y)|]; auto.
  - destruct (_ && _); [apply (quiet_registering y)|]; auto;
      unfold stopCamera; destruct (stream (st y)); reflexivity.
  - destruct (streaming (st y)); [|assumption].
    apply (quiet_registering y); auto. unfold retakeAll, startCamera. cbn [snd].
    rewrite RegistrationFacts.readers_of_app.
    now rewrite (proj1 (RegistrationFacts.quiet_revoke_all (capturedImages (st y)))).
  - destruct (_ && _); [apply (quiet_registering y)|]; auto;
      (unfold captureImage; destruct (_ || _ || _); [reflexivity|];
       destruct (_ || _); reflexivity).
  - destruct (_ && _); [|assumption].
    apply (quiet_registering y); auto. unfold removeImage. cbn [snd].
    apply RegistrationFacts.quiet_revoke_of.
  - destruct (isRegistering (st y)) eqn:Ei;
      [now rewrite andb_false_r|]. destruct (canRegister (st y)); [|assumption].
    cbn [andb negb]. destruct Hinv as [H1 H2].
    assert (Hp : pendingReaders y = []).
    { destruct (pendingReaders y); [reflexivity|].
      rewrite H2 in Ei; discriminate. }
    unfold Spec.registering_inv. cbn [absorb pendingReaders st]. rewrite Hp.
    unfold registerBiometric.
    destruct (_ || _); [cbn; split; [lia | congruence]|].
    destruct (JsObject.get "Center" (capturedImages (st y))) as [c|];
      [destruct employeeId as [eid|]|]; cbn; split; try lia; try congruence; reflexivity.
  - apply (quiet_registering y); auto; unfold handleClose, stopCamera;
      destruct (stream (st y)); cbn [snd fst]; try reflexivity;
      rewrite ?RegistrationFacts.readers_of_app;
      now rewrite (proj1 (RegistrationFacts.quiet_revoke_all (capturedImages (st y)))).
  - destruct (pendingMedia y); [assumption|]. now apply (quiet_registering y).
  - destruct (pendingMedia y); [assumption|]. now apply (quiet_registering y).
  - destruct (streaming (st y)); [|assumption].
    apply (quiet_registering y); auto. unfold handleLoadedMetadata. now destruct playOk.
  - destruct (nth_error (pendingBlobs y) i) as [c|]; [|assumption].
    apply (quiet_registering y); auto; unfold blobCallback; destruct b; try reflexivity.
    cbn [snd]. rewrite RegistrationFacts.readers_of_app.
    rewrite (proj1 (RegistrationFacts.quiet_revoke_of (bc_angle c) (bc_capturedImages c))).
    destruct (_ =? _)%nat; reflexivity.
  - destruct (nth_error (pendingStops y) i) as [c|]; [|assumption].
    apply (quiet_registering y); auto; unfold autoStop; destruct c; reflexivity.
  - destruct (mountTimer y) as [[cs ce]|]; [|assumption].
    apply (quiet_registering y); auto. unfold cameraTimeout.
    destruct cs; [reflexivity|]. destruct (truthy_string ce); reflexivity.
  - destruct (nth_error (pendingReaders y) i) as [c|] eqn:E; [|assumption].
    destruct Hinv as [H1 H2]. unfold Spec.registering_inv.
    cbn [absorb pendingReaders st readerOnload fst snd readers_of flat_map].
    rewrite app_nil_r.
    destruct (pendingReaders y) as [|c0 [|c1 l]]; [destruct i; discriminate| |cbn in H1; lia].
    destruct i as [|i]; [|destruct i; discriminate]. cbn. split; [lia | congruence].
Qed.

Lemma run_registering_inv employeeId es y :
  Spec.registering_inv y -> Spec.registering_inv (run employeeId es y).
Proof.
  unfold run. revert y. induction es as [|e es IH]; simpl; intros y H; [assumption|].
  apply IH. now apply step_registering_inv.
Qed.

End ReaderFacts.

(** X9. [reader.onload] of the modal's registration hands over, as
    [face_image], the text of the data URL after its first comma (the base64
    image when neither the media type nor the image text holds a comma), and a
    result without a comma gives [face_image] undefined in a payload that
    still says [success: true]. *)
Theorem X9_face_image_is_base64_text :
  (forall c prefix b now s,
     Spec.has_comma prefix = false -> Spec.has_comma b = false ->
     exists p,
       snd (BiometricCapture.readerOnload c (prefix ++ String "," b)%string now s)
       = [BiometricCapture.OnCapture p; BiometricCapture.OnClose]
       /\ BiometricCapture.face_image p = Some b
       /\ BiometricCapture.success p = true)
  /\ (forall c result now s,
        Spec.has_comma result = false ->
        exists p,
          snd (BiometricCapture.readerOnload c result now s)
          = [BiometricCapture.OnCapture p; BiometricCapture.OnClose]
          /\ BiometricCapture.face_image p = None
          /\ BiometricCapture.success p = true).
Proof.
  split.
  - intros c prefix b now s Hp Hb. eexists. split; [reflexivity|].
    cbn [BiometricCapture.face_image BiometricCapture.success].
    rewrite (ReaderFacts.split_comma_1_app _ _ Hp), (ReaderFacts.until_comma_no_comma _ Hb).
    now split.
  - intros c result now s Hr. eexists. split; [reflexivity|].
    cbn [BiometricCapture.face_image BiometricCapture.success].
    rewrite (ReaderFacts.split_comma_1_none _ Hr). now split.
Qed.

Lemma X9_witness :
  exists p,
    snd (BiometricCapture.readerOnload
           (BiometricCapture.mkReaderClosure "jpeg"%string "E1" JsObject.empty 2)
           "data:image/jpeg;base64,AAAA" 1000 BiometricCapture.initial)
    = [BiometricCapture.OnCapture p; BiometricCapture.OnClose]
    /\ BiometricCapture.face_image p = Some "AAAA"%string
    /\ BiometricCapture.success p = true.
Proof.
  exact (proj1 X9_face_image_is_base64_text
           (BiometricCapture.mkReaderClosure "jpeg"%string "E1"%string JsObject.empty 2)
           "data:image/jpeg;base64"%string "AAAA"%string 1000%Z BiometricCapture.initial
           eq_refl eq_refl).
Defined.

(** X10. In the modal never more than one [FileReader] is at work, and while
    one is, [isRegistering] is true, which disables the register button: one
    click hands at most one payload to [onCapture]. *)
Theorem X10_modal_one_registration :
  forall employeeId es,
    let y := BiometricCapture.run employeeId es BiometricCapture.mount in
    List.length (BiometricCapture.pendingReaders y) <= 1
    /\ (BiometricCapture.pendingReaders y <> [] ->
        BiometricCapture.isRegistering (BiometricCapture.st y) = true
        /\ BiometricCapture.step employeeId BiometricCapture.ClickRegister y = y).
Proof.
  intros employeeId es y.
  destruct (ReaderFacts.run_registering_inv employeeId es _ ReaderFacts.mount_registering_inv)
    as [H1 H2]. fold y in H1, H2.
  split; [exact H1|]. intros Hne. specialize (H2 Hne). split; [exact H2|].
  cbn [BiometricCapture.step]. rewrite H2. now rewrite andb_false_r.
Qed.

Lemma X10_witness :
  let y := BiometricCapture.run (Some "E1"%string)
             (Scenario.center_and_left ++ [BiometricCapture.ClickRegister])
             BiometricCapture.mount in
  BiometricCapture.isRegistering (BiometricCapture.st y) = true
  /\ BiometricCapture.step (Some "E1"%string) BiometricCapture.ClickRegister y = y.
Proof.
  intros y.
  apply (proj2 (X10_modal_one_registration (Some "E1"%string)
                  (Scenario.center_and_left ++ [BiometricCapture.ClickRegister]))).
  discriminate.
Defined.

(** ** The frame loop of the server-driven capture *)

Module IntervalFacts.
Import AdvancedBiometricCapture.

Lemma tick_posts sid v s :
  truthy_string (Some sid) = true -> Spec.frame_ready v ->
  intervalTick false (Some sid) v s = (Posted, set_isProcessing true s, [PostFrame sid]).
Proof.
  intros Ht (Hr & Hw & Hh). unfold intervalTick, processFrame. cbn [negb]. rewrite Ht, Hr.
  apply Z.eqb_neq in Hw, Hh. rewrite Hw, Hh. reflexivity.
Qed.

Lemma ticks_post sid vs : forall acc,
  truthy_string (Some sid) = true -> Forall Spec.frame_ready vs ->
  let r := fold_left
             (fun acc v =>
                let '(_, s', e) := intervalTick false (Some sid) v (fst acc) in
                (s', snd acc ++ e))
             vs acc in
  snd r = snd acc ++ map (fun _ => PostFrame sid) vs
  /\ (vs <> [] -> isProcessing (fst r) = true).
Proof.
  induction vs as [|v vs IH]; intros acc Ht Hvs; cbn [fold_left map].
  - split; [now rewrite app_nil_r | congruence].
  - inversion Hvs as [|? ? Hv Hrest]; subst.
    rewrite (tick_posts sid v (fst acc) Ht Hv).
    destruct (IH (set_isProcessing true (fst acc), snd acc ++ [PostFrame sid]) Ht Hrest)
      as [H1 H2].
    split.
    + rewrite H1. cbn [snd]. now rewrite <- app_assoc.
    + intros _. destruct vs as [|v' vs']; [reflexivity|]. apply H2. discriminate.
Qed.

Lemma length_addMessage text type now s : List.length (messages (addMessage text type now s)) <= 5.
Proof.
  unfold addMessage. cbn [messages set_messages List.length].
  pose proof (firstn_le_length 4 (messages s)). lia.
Qed.

End IntervalFacts.

(** X11. The guard against overlapping requests of the server-driven capture
    reads the [isProcessing] of the render that started the interval, which is
    [false]: every tick that finds a ready video posts a frame, whether or
    not an earlier request is still in flight. *)
Theorem X11_interval_posts_every_tick :
  forall sid vs s,
    truthy_string (Some sid) = true ->
    Forall Spec.frame_ready vs ->
    let r := AdvancedBiometricCapture.ticks false (Some sid) vs s in
    snd r = map (fun _ => AdvancedBiometricCapture.PostFrame sid) vs
    /\ (vs <> [] -> AdvancedBiometricCapture.isProcessing (fst r) = true).
Proof.
  intros sid vs s Ht Hvs. exact (IntervalFacts.ticks_post sid vs (s, []) Ht Hvs).
Qed.

Lemma X11_witness :
  snd (AdvancedBiometricCapture.ticks false (Some "s1"%string)
         [AdvancedBiometricCapture.mkVideo 4 640 480;
          AdvancedBiometricCapture.mkVideo 4 640 480]
         (AdvancedBiometricCapture.set_isProcessing true AdvancedBiometricCapture.initial))
  = [AdvancedBiometricCapture.PostFrame "s1"; AdvancedBiometricCapture.PostFrame "s1"].
Proof.
  apply (X11_interval_posts_every_tick "s1"%string
           [AdvancedBiometricCapture.mkVideo 4 640 480;
            AdvancedBiometricCapture.mkVideo 4 640 480]
           (AdvancedBiometricCapture.set_isProcessing true AdvancedBiometricCapture.initial)
           eq_refl).
  repeat constructor; cbn; discriminate.
Defined.

(** X12. The server-driven capture never keeps more than five messages:
    [addMessage] puts the new message first and keeps four older ones, and a
    reply of [process-frame], which may add up to three messages, leaves at
    most five. *)
Theorem X12_at_most_five_messages :
  (forall text type now s,
     let s' := AdvancedBiometricCapture.addMessage text type now s in
     List.length (AdvancedBiometricCapture.messages s') <= 5
     /\ AdvancedBiometricCapture.messages s'
        = AdvancedBiometricCapture.mkMessage now text type
          :: firstn 4 (AdvancedBiometricCapture.messages s))
  /\ (forall c_sessionId reply now rnd s,
        List.length (AdvancedBiometricCapture.messages s) <= 5 ->
        List.length
          (AdvancedBiometricCapture.messages
             (fst (AdvancedBiometricCapture.processFrame_reply c_sessionId reply now rnd s)))
        <= 5)
  /\ (forall name message now s,
        List.length
          (AdvancedBiometricCapture.messages
             (AdvancedBiometricCapture.startCamera_catch name message now s)) <= 5).
Proof.
  split; [|split].
  - intros text type now s s'. split; [apply IntervalFacts.length_addMessage | reflexivity].
  - intros c_sessionId reply now rnd s Hs.
    unfold AdvancedBiometricCapture.processFrame_reply.
    destruct reply as [| status | result]; try exact Hs.
    destruct (AdvancedBiometricCapture.r_success result);
      [|destruct (truthy_string _); exact Hs].
    set (s1 := AdvancedBiometricCapture.set_currentAnalysis _ s).
    set (s2 := match AdvancedBiometricCapture.r_session_progress result with
               | Some p => AdvancedBiometricCapture.set_sessionProgress p s1
               | None => s1
               end).
    assert (H2 : List.length (AdvancedBiometricCapture.messages s2) <= 5)
      by (subst s2 s1; destruct (AdvancedBiometricCapture.r_session_progress result);
          exact Hs).
    clearbody s2. clear s1.
    set (s3 := if AdvancedBiometricCapture.r_auto_captured result
               then AdvancedBiometricCapture.addMessage _ _ now s2 else s2).
    assert (H3 : List.length (AdvancedBiometricCapture.messages s3) <= 5)
      by (subst s3; destruct (AdvancedBiometricCapture.r_auto_captured result);
          [apply IntervalFacts.length_addMessage | exact H2]).
    clearbody s3.
    destruct (AdvancedBiometricCapture.r_session_complete result).
    + cbn [fst AdvancedBiometricCapture.set_isProcessing AdvancedBiometricCapture.messages].
      destruct (AdvancedBiometricCapture.r_message result) as [m|];
        [|apply IntervalFacts.length_addMessage].
      destruct (AdvancedBiometricCapture.r_face_detected result) as [[|]|];
        try apply IntervalFacts.length_addMessage;
        destruct (_ && _); apply IntervalFacts.length_addMessage.
    + cbn [fst AdvancedBiometricCapture.set_isProcessing AdvancedBiometricCapture.messages].
      destruct (AdvancedBiometricCapture.r_message result) as [m|]; [|exact H3].
      destruct (AdvancedBiometricCapture.r_face_detected result) as [[|]|];
        try exact H3;
        (destruct (_ && _); [apply IntervalFacts.length_addMessage | exact H3]).
  - intros name message now s. apply IntervalFacts.length_addMessage.
Qed.

Lemma X12_witness :
  List.length
    (AdvancedBiometricCapture.messages
       (fst (AdvancedBiometricCapture.processFrame_reply "s1"
               AdvancedBiometricCapture.Threw 1000 0%float
               AdvancedBiometricCapture.initial))) <= 5.
Proof.
  apply (proj1 (proj2 X12_at_most_five_messages)). cbn. lia.
Defined.

(** X13. [getNextRequiredAngle] returns the first required angle that is not
    captured yet: everything before it in [required_angles] is captured, its
    status is not "completed", and it returns [undefined] exactly when every
    required angle is captured. *)
Theorem X13_next_required_angle :
  forall s,
    let required := AdvancedBiometricCapture.required_angles
                      (AdvancedBiometricCapture.sessionProgress s) in
    let captured := AdvancedBiometricCapture.captured_angles
                      (AdvancedBiometricCapture.sessionProgress s) in
    (AdvancedBiometricCapture.getNextRequiredAngle s = None <-> incl required captured)
    /\ (forall a,
          AdvancedBiometricCapture.getNextRequiredAngle s = Some a ->
          ~ In a captured
          /\ AdvancedBiometricCapture.getAngleStatus a s <> AdvancedBiometricCapture.Completed
          /\ exists before after,
               required = before ++ a :: after /\ incl before captured).
Proof.
  intros s required captured. unfold AdvancedBiometricCapture.getNextRequiredAngle.
  fold required captured.
  assert (Hin : forall a, existsb (String.eqb a) captured = true <-> In a captured).
  { intros a. rewrite existsb_exists. split.
    - intros [x [Hx E]]. apply String.eqb_eq in E. now subst.
    - intros H. exists a. split; [exact H | apply String.eqb_refl]. }
  split.
  - induction required as [|r rs IH]; cbn [filter].
    + split; [intros _ x [] | reflexivity].
    + destruct (existsb (String.eqb r) captured) eqn:E; cbn [negb].
      * rewrite IH. split.
        -- intros H x [<-|Hx]; [now apply Hin | now apply H].
        -- intros H x Hx. apply H. now right.
      * cbn [hd_error]. split; [discriminate|]. intros H.
        assert (In r captured) by (apply H; now left).
        apply Hin in H0. congruence.
  - intros a. unfold AdvancedBiometricCapture.getAngleStatus. fold captured.
    induction required as [|r rs IH]; cbn [filter hd_error]; [discriminate|].
    destruct (existsb (String.eqb r) captured) eqn:E; cbn [negb].
    + intros H. destruct (IH H) as (H1 & H2 & before & after & -> & H3).
      split; [exact H1|]. split; [exact H2|].
      exists (r :: before), after. split; [reflexivity|].
      intros x [<-|Hx]; [now apply Hin | now apply H3].
    + cbn [hd_error]. intros [= <-]. split.
      * intros H. apply Hin in H. congruence.
      * split.
        -- rewrite E. destruct (AdvancedBiometricCapture.current_angle _) as [c|];
             [destruct (String.eqb c r)|]; discriminate.
        -- exists [], rs. split; [reflexivity | intros x []].
Qed.

(** X14. Comparing an encoding with itself gives distance 0 and similarity
    exactly 1, so it matches for every threshold up to 1, provided the
    encoding is not empty and holds finite numbers. *)
Theorem X14_compare_with_itself :
  forall e threshold,
    (0 < Z.of_nat (List.length e) < 2 ^ 32)%Z ->
    Forall Spec.finite_number e ->
    FaceRecognitionAPI.compareFaceEncodings e e threshold
    = FaceRecognitionAPI.mkComparison (threshold <=? 1)%float 1%float (Some 0%float).
Proof.
  intros e threshold Hlen He. now apply ScoreFacts.compare_self.
Qed.

Lemma X14_witness :
  FaceRecognitionAPI.compareFaceEncodings [0.5; -0.25]%float [0.5; -0.25]%float
    FaceRecognitionAPI.defaultThreshold
  = FaceRecognitionAPI.mkComparison true 1%float (Some 0%float).
Proof.
  apply (X14_compare_with_itself [0.5; -0.25]%float FaceRecognitionAPI.defaultThreshold).
  - cbn. lia.
  - repeat constructor.
Defined.

(** ** The range of the image-quality scores *)

Module QualityFacts.
Import Spec.

Local Open Scope float_scope.

Lemma signed_abs x : signed false (Prim2SF (abs x)).
Proof. rewrite abs_spec. destruct (Prim2SF x); cbn; auto. Qed.

Lemma signed_mul x y :
  signed false (Prim2SF x) -> signed false (Prim2SF y) -> signed false (Prim2SF (x * y)).
Proof.
  rewrite mul_spec.
  destruct (Prim2SF x) as [sx|sx| |sx mx ex], (Prim2SF y) as [sy|sy| |sy my ey]; cbn;
    intros; subst; cbn; auto.
  apply FloatFacts.bra_signed.
Qed.

Lemma signed_div x y :
  signed false (Prim2SF x) -> signed false (Prim2SF y) -> signed false (Prim2SF (x / y)).
Proof. rewrite div_spec. apply FloatFacts.SFdiv_signed. Qed.

Lemma signed_sqrt x : signed false (Prim2SF x) -> signed false (Prim2SF (sqrt x)).
Proof. rewrite sqrt_spec. apply FloatFacts.SFsqrt_signed. Qed.

Lemma for_loop_signed n : forall i step (body : Z -> float -> float) acc,
  (forall j a, signed false (Prim2SF a) -> signed false (Prim2SF (body j a))) ->
  signed false (Prim2SF acc) ->
  signed false (Prim2SF (JsNum.for_loop n i step body acc)).
Proof.
  induction n as [|n IH]; intros i step body acc Hb Ha; cbn [JsNum.for_loop]; [exact Ha|].
  apply IH; [exact Hb | now apply Hb].
Qed.

(** A number that is not negative is at least zero. *)
Lemma nonneg_of_signed x :
  signed false (Prim2SF x) -> is_nan x = false -> (0 <=? x) = true.
Proof.
  intros Hs Hn. apply FloatFacts.is_nan_false in Hn. rewrite leb_spec.
  change (Prim2SF 0) with (S754_zero false).
  destruct (Prim2SF x) as [s|s| |s m e]; cbn in *; subst; try reflexivity. congruence.
Qed.

(** [Math.min(c, 1)] for a [c] that is not negative. *)
Lemma min_one_range c : signed false (Prim2SF c) -> unit_or_nan (JsNum.min c 1).
Proof.
  intros Hs. unfold JsNum.min. change (is_nan 1) with false. rewrite orb_false_r.
  destruct (is_nan c) eqn:En; [now left|].
  change (JsNum.is_neg_zero 1) with false. cbn [andb].
  destruct (1 <? c) eqn:E; right.
  - split; reflexivity.
  - split; [now apply nonneg_of_signed|].
    apply FloatFacts.ltb_false_iff in E. destruct E as [E|[E|E]]; [exact E| |];
      [discriminate E | congruence].
Qed.

Lemma variance_signed (data : list Z) mean n i :
  signed false
    (Prim2SF
       (JsNum.for_loop n i 4
          (fun i acc =>
             acc + JsNum.pow2
                     ((ImageData.at_ data i + ImageData.at_ data (i + 1)
                       + ImageData.at_ data (i + 2)) / 3 - mean)) 0)).
Proof.
  apply for_loop_signed; [|reflexivity].
  intros j a Ha. unfold JsNum.pow2. rewrite add_spec, mul_spec.
  apply FloatFacts.SFadd_signed; [exact Ha | apply FloatFacts.SFmul_self_signed].
Qed.

End QualityFacts.

(** X15. For every image, also an empty or a truncated one, the brightness,
    contrast and sharpness scores of [calculateImageQuality] are [NaN] or lie
    in [[0, 1]]: none is ever negative, above 1 or infinite. *)
Theorem X15_quality_scores_range :
  forall imageData,
    let q := FaceRecognitionAPI.calculateImageQuality imageData in
    Spec.unit_or_nan (FaceRecognitionAPI.q_brightness q)
    /\ Spec.unit_or_nan (FaceRecognitionAPI.q_contrast q)
    /\ Spec.unit_or_nan (FaceRecognitionAPI.q_sharpness q).
Proof.
  intros imageData q. subst q.
  cbv beta zeta delta [FaceRecognitionAPI.calculateImageQuality].
  cbn [FaceRecognitionAPI.q_brightness FaceRecognitionAPI.q_contrast
       FaceRecognitionAPI.q_sharpness].
  assert (Hc : forall mean,
             Spec.signed false
               (Prim2SF
                  (sqrt
                     (JsNum.for_range 0 (ImageData.len (ImageData.data imageData)) 4
                        (fun i acc =>
                           acc + JsNum.pow2
                                   ((ImageData.at_ (ImageData.data imageData) i
                                     + ImageData.at_ (ImageData.data imageData) (i + 1)
                                     + ImageData.at_ (ImageData.data imageData) (i + 2)) / 3
                                    - mean)) 0
                      / (JsNum.of_Z (ImageData.len (ImageData.data imageData)) / 4))
                   / 128)%float)).
  { intros mean. apply QualityFacts.signed_div; [|reflexivity].
    apply QualityFacts.signed_sqrt, QualityFacts.signed_div.
    - apply QualityFacts.variance_signed.
    - apply QualityFacts.signed_div; [apply FloatFacts.of_uint63_signed | reflexivity]. }
  split; [|split].
  - apply ScoreFacts.similarity_range, QualityFacts.signed_mul;
      [apply QualityFacts.signed_abs | reflexivity].
  - apply QualityFacts.min_one_range, Hc.
  - apply QualityFacts.min_one_range, QualityFacts.signed_mul; [apply Hc | reflexivity].
Qed.

(** ** The analysis of the seven captures ([RealTimeFaceDetection.jsx]) *)

Module AnalysisFacts.
Import RealTimeFaceDetection.

Local Open Scope float_scope.

Lemma add_nan_l x y : is_nan x = true -> is_nan (x + y) = true.
Proof.
  rewrite !FloatFacts.is_nan_spec, add_spec. intros ->. reflexivity.
Qed.

Lemma div_nan_l x y : is_nan x = true -> is_nan (x / y) = true.
Proof.
  rewrite !FloatFacts.is_nan_spec, div_spec. intros ->. reflexivity.
Qed.

Lemma mul_nan_l x y : is_nan x = true -> is_nan (x * y) = true.
Proof.
  rewrite !FloatFacts.is_nan_spec, mul_spec. intros ->. reflexivity.
Qed.

(** [NaN > c] is false. *)
Lemma gtb_nan x c : is_nan x = true -> JsNum.gtb x c = false.
Proof.
  intros H. unfold JsNum.gtb. apply FloatFacts.ltb_false_iff. now right; right.
Qed.

Lemma sum_nan_acc (field : Capture -> option float) l : forall acc,
  is_nan acc = true ->
  is_nan (fold_left (fun sum cap => plus sum (field cap)) l acc) = true.
Proof.
  induction l as [|cap l IH]; intros acc H; cbn [fold_left]; [exact H|].
  apply IH. unfold plus. destruct (field cap); [now apply add_nan_l | reflexivity].
Qed.

Lemma sum_nan_undefined (field : Capture -> option float) l : forall acc,
  Exists (fun cap => field cap = None) l ->
  is_nan (fold_left (fun sum cap => plus sum (field cap)) l acc) = true.
Proof.
  induction l as [|cap l IH]; intros acc H; inversion H as [? ? Hc|? ? Hl]; subst;
    cbn [fold_left].
  - apply sum_nan_acc. unfold plus. now rewrite Hc.
  - now apply IH.
Qed.

Lemma average_nan_undefined (field : Capture -> option float) l :
  Exists (fun cap => field cap = None) l -> is_nan (average field l) = true.
Proof. intros H. apply div_nan_l. now apply sum_nan_undefined. Qed.

(** One capture whose [liveness] object has no [score] makes the average
    liveness [NaN], and with it every comparison on it false. *)
Lemma retry_of_undefined_score captures :
  Exists (fun cap => score (a_liveness cap) = None) captures ->
  let r := performComprehensiveSmartphoneAnalysis captures in
  recommendation r = RETRY /\ securityLevel r = LOW /\ handedOver r = false
  /\ is_nan (livenessScore r) = true.
Proof.
  intros H r.
  pose proof (average_nan_undefined (fun cap => score (a_liveness cap)) captures H) as Hn.
  subst r. unfold performComprehensiveSmartphoneAnalysis.
  cbn [recommendation securityLevel handedOver livenessScore].
  rewrite !(gtb_nan _ _ Hn), !andb_false_r.
  repeat split. now apply mul_nan_l.
Qed.

(** What [detectFaceAdvanced] returns for a local result that saw a face. *)
Lemma detectFaceAdvanced_detected combinedScore l a :
  JsNum.gtb combinedScore 0.6 = true ->
  exists r,
    FaceRecognitionAPI.detectFaceAdvanced
      (Some (FaceRecognitionAPI.detectFaceLocal_result combinedScore l a)) = Some r
    /\ FaceRecognitionAPI.liveness r = Some l
    /\ FaceRecognitionAPI.antispoofing r = Some a.
Proof.
  intros H. unfold FaceRecognitionAPI.detectFaceAdvanced,
    FaceRecognitionAPI.detectFaceLocal_result.
  cbn [FaceRecognitionAPI.confidence].
  destruct (combinedScore <? 0.8); [|eexists; split; [reflexivity|]; now split].
  unfold FaceRecognitionAPI.combineFaceResults.
  cbn [filter FaceRecognitionAPI.detected FaceRecognitionAPI.detectFaceBackup].
  rewrite H. eexists. split; [reflexivity|]. now split.
Qed.

End AnalysisFacts.

(** X16. [performComprehensiveSmartphoneAnalysis] reads [liveness.score] of
    every capture.  The object of [FaceRecognitionAPI.detectLiveness] has no
    such field, so one capture that carries it makes the average [NaN]: the
    recommendation is "RETRY", the security level "LOW", and [onFaceCapture]
    is not called, whatever the other scores are. *)
Theorem X16_api_liveness_forces_retry :
  forall captures,
    Exists (fun cap => exists l,
                RealTimeFaceDetection.a_liveness cap = RealTimeFaceDetection.ApiLiveness l)
           captures ->
    let r := RealTimeFaceDetection.performComprehensiveSmartphoneAnalysis captures in
    RealTimeFaceDetection.recommendation r = RealTimeFaceDetection.RETRY
    /\ RealTimeFaceDetection.securityLevel r = RealTimeFaceDetection.LOW
    /\ RealTimeFaceDetection.handedOver r = false
    /\ is_nan (RealTimeFaceDetection.livenessScore r) = true.
Proof.
  intros captures H. apply AnalysisFacts.retry_of_undefined_score.
  apply Exists_exists in H. destruct H as (cap & Hin & l & Hl).
  apply Exists_exists. exists cap. split; [exact Hin|]. now rewrite Hl.
Qed.

Lemma X16_witness :
  let api :=
    RealTimeFaceDetection.mkCapture 90 0.95
      (RealTimeFaceDetection.ApiLiveness
         (FaceRecognitionAPI.mkLiveness 1 0.9 0.9 true 0.76))
      (RealTimeFaceDetection.OwnAntispoofing 0.9 0.9 0.95 0.9 0.9) in
  RealTimeFaceDetection.recommendation
    (RealTimeFaceDetection.performComprehensiveSmartphoneAnalysis [api])
  = RealTimeFaceDetection.RETRY.
Proof.
  intros api.
  apply (X16_api_liveness_forces_retry [api]).
  constructor. eexists. reflexivity.
Defined.

(** X17. A capture for which the local detector saw a face (weighted score
    above 0.6) gets the [liveness] and [antispoofing] objects of
    [FaceRecognitionAPI], through [detectFaceAdvanced] and
    [result.liveness || detectLiveness()]; one such capture among the
    analysed ones and the face data are never handed to [onFaceCapture]. *)
Theorem X17_detected_face_is_never_handed_over :
  forall d combinedScore l a ownLiveness ownAntispoofing before after,
    JsNum.gtb combinedScore 0.6 = true ->
    let cap :=
      RealTimeFaceDetection.capture_of d
        (FaceRecognitionAPI.detectFaceAdvanced
           (Some (FaceRecognitionAPI.detectFaceLocal_result combinedScore l a)))
        ownLiveness ownAntispoofing in
    let r := RealTimeFaceDetection.performComprehensiveSmartphoneAnalysis
               (before ++ cap :: after) in
    RealTimeFaceDetection.a_liveness cap = RealTimeFaceDetection.ApiLiveness l
    /\ RealTimeFaceDetection.a_antispoofing cap = RealTimeFaceDetection.ApiAntispoofing a
    /\ RealTimeFaceDetection.recommendation r = RealTimeFaceDetection.RETRY
    /\ RealTimeFaceDetection.handedOver r = false.
Proof.
  intros d combinedScore l a ownLiveness ownAntispoofing before after H cap r.
  destruct (AnalysisFacts.detectFaceAdvanced_detected combinedScore l a H)
    as (res & Hres & Hl & Ha).
  assert (Hcl : RealTimeFaceDetection.a_liveness cap = RealTimeFaceDetection.ApiLiveness l).
  { subst cap. unfold RealTimeFaceDetection.capture_of.
    cbn [RealTimeFaceDetection.a_liveness]. rewrite Hres.
    unfold RealTimeFaceDetection.analysis_liveness. now rewrite Hl. }
  split; [exact Hcl|]. split.
  { subst cap. unfold RealTimeFaceDetection.capture_of.
    cbn [RealTimeFaceDetection.a_antispoofing]. rewrite Hres.
    unfold RealTimeFaceDetection.analysis_antispoofing. now rewrite Ha. }
  destruct (AnalysisFacts.retry_of_undefined_score (before ++ cap :: after))
    as (H1 & _ & H3 & _).
  { apply Exists_app. right. constructor. now rewrite Hcl. }
  now split.
Qed.

Lemma X17_witness :
  let l := FaceRecognitionAPI.mkLiveness 1 0.9 0.9 true 0.76 in
  let a := FaceRecognitionAPI.mkAntispoofing 0.9 0.9 0.9 0.85 in
  let own := RealTimeFaceDetection.mkCapture 90 0.95
               (RealTimeFaceDetection.detectLiveness 0.5 0.5 0.5 0.5 0.5)
               (RealTimeFaceDetection.performAntispoofing 0.5 0.5 0.5 0.5 0.5) in
  let cap := RealTimeFaceDetection.capture_of
               (RealTimeFaceDetection.mkDetection true 90 0.95)
               (FaceRecognitionAPI.detectFaceAdvanced
                  (Some (FaceRecognitionAPI.detectFaceLocal_result 0.7 l a)))
               (RealTimeFaceDetection.detectLiveness 0.5 0.5 0.5 0.5 0.5)
               (RealTimeFaceDetection.performAntispoofing 0.5 0.5 0.5 0.5 0.5) in
  RealTimeFaceDetection.handedOver
    (RealTimeFaceDetection.performComprehensiveSmartphoneAnalysis [own; own; own]) = true
  /\ RealTimeFaceDetection.handedOver
       (RealTimeFaceDetection.performComprehensiveSmartphoneAnalysis
          ([own; own] ++ cap :: [own])) = false.
Proof.
  intros l a own cap. split; [reflexivity|].
  apply (X17_detected_face_is_never_handed_over
           (RealTimeFaceDetection.mkDetection true 90 0.95) 0.7%float l a
           (RealTimeFaceDetection.detectLiveness 0.5 0.5 0.5 0.5 0.5)
           (RealTimeFaceDetection.performAntispoofing 0.5 0.5 0.5 0.5 0.5)
           [own; own] [own] eq_refl).
Defined.

(** ** "Retake All" in the modal *)

Module RetakeFacts.
Import BiometricCapture.



End RetakeFacts.



(** ** What [detectFaceAdvanced] reports *)

Module DetectionFacts.

Local Open Scope float_scope.

Lemma SFleb_ltb_lower m1 m2 e x :
  (m1 < m2)%positive ->
  SFleb (S754_finite false m2 e) x = true -> SFltb (S754_finite false m1 e) x = true.
Proof.
  intros Hm. unfold SFleb, SFltb.
  destruct x as [s|s| |s m ex]; cbn [SFcompare]; try discriminate.
  - destruct s; [discriminate | reflexivity].
  - destruct s; [discriminate|].
    destruct (Z.compare e ex); try reflexivity; try discriminate.
    change (PosDef.Pos.compare_cont Eq m2 m) with (Pos.compare m2 m).
    change (PosDef.Pos.compare_cont Eq m1 m) with (Pos.compare m1 m).
    destruct (Pos.compare_spec m2 m); try discriminate; intros _;
      assert (H1 : (m1 < m)%positive) by lia; apply Pos.compare_lt_iff in H1; now rewrite H1.
Qed.

(** A number that is not below 0.8 is above 0.6. *)
Lemma not_below_08_above_06 x :
  is_nan x = false -> (x <? 0.8) = false -> (0.6 <? x) = true.
Proof.
  intros Hn H. apply FloatFacts.ltb_false_iff in H.
  destruct H as [H|[H|H]]; [|congruence|discriminate H].
  revert H. rewrite leb_spec, ltb_spec.
  change (Prim2SF 0.8) with (S754_finite false 7205759403792794 (-53)).
  change (Prim2SF 0.6) with (S754_finite false 5404319552844595 (-53)).
  apply SFleb_ltb_lower. reflexivity.
Qed.

End DetectionFacts.

(** X19. Whatever the local detector's score, [detectFaceAdvanced] reports a
    face: a score of at least 0.8 is above the detection threshold, and below
    0.8 the result is combined with that of [detectFaceBackup], which always
    says [detected: true].  For a score not above 0.6 the result is the backup
    object alone: confidence 0.6 and no [liveness]. *)
Theorem X19_detectFaceAdvanced_always_detects :
  forall combinedScore l a,
    is_nan combinedScore = false ->
    exists r,
      FaceRecognitionAPI.detectFaceAdvanced
        (Some (FaceRecognitionAPI.detectFaceLocal_result combinedScore l a)) = Some r
      /\ FaceRecognitionAPI.detected r = true
      /\ (JsNum.gtb combinedScore 0.6 = false ->
          FaceRecognitionAPI.confidence r = 0.6%float
          /\ FaceRecognitionAPI.liveness r = None
          /\ FaceRecognitionAPI.combinedResults r = true).
Proof.
  intros combinedScore l a Hn.
  unfold FaceRecognitionAPI.detectFaceAdvanced, FaceRecognitionAPI.detectFaceLocal_result.
  cbn [FaceRecognitionAPI.confidence].
  destruct (combinedScore <? 0.8)%float eqn:E8.
  - unfold FaceRecognitionAPI.combineFaceResults.
    cbn [filter FaceRecognitionAPI.detected FaceRecognitionAPI.detectFaceBackup].
    destruct (JsNum.gtb combinedScore 0.6) eqn:E6.
    + eexists. split; [reflexivity|]. cbn [FaceRecognitionAPI.detected].
      split; [reflexivity | discriminate].
    + eexists. split; [reflexivity|]. cbn [FaceRecognitionAPI.detected].
      split; [reflexivity|]. intros _. repeat split.
  - pose proof (DetectionFacts.not_below_08_above_06 _ Hn E8) as E6.
    eexists. split; [reflexivity|]. cbn [FaceRecognitionAPI.detected].
    unfold JsNum.gtb. rewrite E6. split; [reflexivity | discriminate].
Qed.

Lemma X19_witness :
  exists r,
    FaceRecognitionAPI.detectFaceAdvanced
      (Some (FaceRecognitionAPI.detectFaceLocal_result 0.1
               (FaceRecognitionAPI.mkLiveness 0 0.7 0.6 false 0.43)
               (FaceRecognitionAPI.mkAntispoofing 0.6 0.7 0.8 0.65))) = Some r
    /\ FaceRecognitionAPI.detected r = true.
Proof.
  destruct (X19_detectFaceAdvanced_always_detects 0.1%float
              (FaceRecognitionAPI.mkLiveness 0 0.7 0.6 false 0.43)
              (FaceRecognitionAPI.mkAntispoofing 0.6 0.7 0.8 0.65) eq_refl)
    as (r & H1 & H2 & _).
  exists r. split; [exact H1 | exact H2].
Defined.

(** X20. Every reply of [process-frame], also a failed one, ends with
    [isProcessing] false.  [onComplete] is scheduled, with the session id of
    the closure, exactly when a successful reply says [session_complete]; the
    interval is cleared and [isComplete] set at the same time, and in every
    other case [isComplete] keeps its value. *)
Theorem X20_reply_completes_session :
  forall c_sessionId reply now rnd s,
    let r := AdvancedBiometricCapture.processFrame_reply c_sessionId reply now rnd s in
    AdvancedBiometricCapture.isProcessing (fst r) = false
    /\ (if Spec.completes reply
        then AdvancedBiometricCapture.isComplete (fst r) = true
             /\ exists progress,
                  snd r = [AdvancedBiometricCapture.ClearInterval;
                           AdvancedBiometricCapture.CompleteLater c_sessionId progress]
        else AdvancedBiometricCapture.isComplete (fst r)
             = AdvancedBiometricCapture.isComplete s
             /\ (snd r = [] \/ snd r = [AdvancedBiometricCapture.ConsoleError])).
Proof.
  intros c_sessionId reply now rnd s r. subst r.
  unfold AdvancedBiometricCapture.processFrame_reply, Spec.completes.
  destruct reply as [| status | result]; [split; [reflexivity|]; split; auto ..|].
  destruct (AdvancedBiometricCapture.r_success result); cbn [andb].
  - destruct (AdvancedBiometricCapture.r_session_complete result);
      destruct (AdvancedBiometricCapture.r_session_progress result);
      destruct (AdvancedBiometricCapture.r_auto_captured result);
      destruct (AdvancedBiometricCapture.r_message result);
      destruct (AdvancedBiometricCapture.r_face_detected result) as [[|]|];
      cbn [fst snd]; try destruct (_ && _);
      (split; [reflexivity|]); split; try reflexivity; eauto.
  - destruct (truthy_string _); split; try reflexivity; split; auto.
Qed.
